(** * code_clean.py: a line-oriented patcher driven by static-analysis findings

    Shallow embedding of [src/code_clean.py] and the properties of its
    drivers.  A Python [str] is a [string], one character per code point;
    Python integers are [Z]; a list of lines is a [list string]; the
    dictionary [lines_dict] and the file system are finite maps.  A file is
    the text that [read()] returns for it in text mode, with line ends
    already translated to a newline.  An uncaught Python exception is an
    explicit result; console output is left out.  Every [while] loop is a
    [Fixpoint] on a counter that bounds its iterations, with the loop
    condition kept as written. *)

From Stdlib Require Import ZArith Lia List Bool Ascii String.
From stdpp Require Import gmap strings.

Local Open Scope string_scope.
Local Open Scope list_scope.
Local Open Scope Z_scope.

#[local] Arguments String.append !_ _ / : simpl nomatch.

(** ** The fragment of Python's [str] and [list] the program uses *)

Module Py.

Definition nl : string := String "010"%char "".
Definition tab : string := String "009"%char "".
Definition quote : string := String "034"%char "".

Definition len (s : string) : Z := Z.of_nat (String.length s).

Fixpoint take (n : nat) (s : string) : string :=
  match n, s with
  | S n', String c s' => String c (take n' s')
  | _, _ => ""
  end.

Fixpoint drop (n : nat) (s : string) : string :=
  match n, s with
  | S n', String _ s' => drop n' s'
  | _, _ => s
  end.

(** [starts p s]: [s] begins with [p] ([s.startswith(p)]). *)
Fixpoint starts (p s : string) : bool :=
  match p, s with
  | "", _ => true
  | String a p', String b s' => if Ascii.eqb a b then starts p' s' else false
  | String _ _, "" => false
  end.

(** [s.find(sub)]: the lowest index where [sub] occurs, or [-1]. *)
Fixpoint find_from (i : Z) (s sub : string) : Z :=
  if starts sub s then i
  else match s with
       | "" => -1
       | String _ s' => find_from (i + 1) s' sub
       end.

Definition find (s sub : string) : Z := find_from 0 s sub.

(** [s.rfind(sub)]: the highest index where [sub] occurs, or [-1]. *)
Fixpoint rfind_from (i : Z) (s sub : string) : Z :=
  match s with
  | "" => if starts sub "" then i else -1
  | String _ s' =>
      let r := rfind_from (i + 1) s' sub in
      if 0 <=? r then r else if starts sub s then i else -1
  end.

Definition rfind (s sub : string) : Z := rfind_from 0 s sub.

(** [s.replace(old, new)] scans left to right and replaces every
    non-overlapping occurrence; an empty [old] matches between characters. *)
Fixpoint intersperse (new s : string) : string :=
  match s with
  | "" => new
  | String c s' => new +:+ String c (intersperse new s')
  end.

Fixpoint replace_loop (n : nat) (old new s : string) : string :=
  match n with
  | O => s
  | S n' =>
      if starts old s then new +:+ replace_loop n' old new (drop (String.length old) s)
      else match s with
           | "" => ""
           | String c s' => String c (replace_loop n' old new s')
           end
  end.

Definition replace (s old new : string) : string :=
  match old with
  | "" => intersperse new s
  | _ => replace_loop (String.length s) old new s
  end.

(** [s.replace(old, new, 1)]: only the first occurrence. *)
Fixpoint replace1 (s old new : string) : string :=
  if starts old s then new +:+ drop (String.length old) s
  else match s with
       | "" => ""
       | String c s' => String c (replace1 s' old new)
       end.

(** [s * n] for a string [s]. *)
Fixpoint repeat (s : string) (n : nat) : string :=
  match n with
  | O => ""
  | S n' => s +:+ repeat s n'
  end.

Definition mul (s : string) (n : Z) : string := repeat s (Z.to_nat n).

(** Slice bounds: a negative bound counts from the end, and both are
    clamped to the length. *)
Definition clamp (n i : Z) : nat :=
  if i <? 0 then Z.to_nat (Z.max 0 (i + n)) else Z.to_nat (Z.min i n).

(** [s[lo:hi]]; an omitted bound is [None]. *)
Definition slice (s : string) (lo hi : option Z) : string :=
  let n := len s in
  let l := match lo with Some i => clamp n i | None => O end in
  let h := match hi with Some i => clamp n i | None => String.length s end in
  take (h - l) (drop l s).

(** Subscripts [x[i]] raise [IndexError] outside [-len, len). *)
Definition norm (n i : Z) : option nat :=
  if (0 <=? i) && (i <? n) then Some (Z.to_nat i)
  else if (- n <=? i) && (i <? 0) then Some (Z.to_nat (n + i))
  else None.

Definition char_at (s : string) (i : Z) : option ascii :=
  k ← norm (len s) i; String.get k s.

Definition item {A} (l : list A) (i : Z) : option A :=
  k ← norm (Z.of_nat (length l)) i; l !! k.

Definition join (l : list string) : string := fold_right String.append "" l.

(** [f.readlines()]: the text cut after every newline; the last line has
    no newline when the text does not end with one. *)
Fixpoint readlines_from (cur s : string) : list string :=
  match s with
  | "" => match cur with "" => [] | _ => [cur] end
  | String c s' =>
      if Ascii.eqb c "010" then (cur +:+ nl) :: readlines_from "" s'
      else readlines_from (cur +:+ String c "") s'
  end.

Definition readlines (s : string) : list string := readlines_from "" s.

End Py.

(** ** Exceptions *)

Inductive exn := IndexError | KeyError | FileNotFoundError | UnboundLocalError.

Inductive except (A : Type) : Type :=
  | Ok (a : A)
  | Raise (e : exn).
Arguments Ok {A} a.
Arguments Raise {A} e.

Definition bind {A B : Type} (m : except A) (f : A -> except B) : except B :=
  match m with
  | Ok a => f a
  | Raise e => Raise e
  end.

Notation "'let*' x ':=' m 'in' k" := (bind m (fun x => k))
  (at level 10, x name, m at level 200, k at level 200).
Notation "'let*' ' p ':=' m 'in' k" := (bind m (fun x => let 'p := x in k))
  (at level 10, p pattern, m at level 200, k at level 200).

Definition getitem (lines : list string) (i : Z) : except string :=
  match Py.item lines i with
  | Some x => Ok x
  | None => Raise IndexError
  end.

Definition getchar (s : string) (i : Z) : except ascii :=
  match Py.char_at s i with
  | Some c => Ok c
  | None => Raise IndexError
  end.

(** ** Module-level constants (lines 7-11) *)

Definition str_set : string := "0123456789".

Definition str_java_exception : string :=
  Py.nl +:+ Py.tab +:+ "private class MultiPathRuntimeError extends RuntimeException{"
    +:+ Py.nl +:+ " "
  +:+ Py.tab +:+ Py.tab +:+ "public MultiPathRuntimeError(String error){" +:+ Py.nl
    +:+ Py.tab +:+ Py.tab +:+ Py.tab +:+ "super(error);" +:+ Py.nl
    +:+ Py.tab +:+ Py.tab +:+ "}" +:+ Py.nl
  +:+ Py.tab +:+ Py.tab +:+ "public MultiPathRuntimeError(String error,Throwable e){" +:+ Py.nl
    +:+ Py.tab +:+ Py.tab +:+ Py.tab +:+ "super(error,e);" +:+ Py.nl
    +:+ Py.tab +:+ Py.tab +:+ "}" +:+ Py.nl
  +:+ Py.tab +:+ "}" +:+ Py.nl.

Definition str_go_literal : string := "literal_".

(** ** Findings and the state of a run *)

(** One object of [problems.txt]; the four fields the drivers read. *)
Record problem := Problem {
  code : string;
  resource : string;
  message : string;
  startLineNumber : Z
}.

(** The ghost log: every call of [findCodes] made by a driver, with the
    finding, the ledger key and the search start passed; every file
    written; and every addition to [lines_dict].  No code reads it. *)
Inductive event :=
  | Located (p : problem) (key : string) (start : Z)
  | Wrote (path : string)
  | Recorded (key : string) (delta : Z).

(** [files] maps a path to the text [read()] returns for it; [draws]
    counts the calls of [random.sample] made so far. *)
Record state := State {
  files : gmap string string;
  lines_dict : gmap string Z;
  test_file_list : list string;
  draws : nat;
  log : list event
}.

Inductive outcome :=
  | Returned (st : state)
  | Raised (e : exn) (st : state).

Definition final (o : outcome) : state :=
  match o with
  | Returned st => st
  | Raised _ st => st
  end.

Definition write (path text : string) (st : state) : state :=
  State (<[path := text]> (files st)) (lines_dict st) (test_file_list st) (draws st)
    (log st ++ [Wrote path]).

Definition set_ledger (d : gmap string Z) (st : state) : state :=
  State (files st) d (test_file_list st) (draws st) (log st).

Definition append_test (path : string) (st : state) : state :=
  State (files st) (lines_dict st) (test_file_list st ++ [path]) (draws st) (log st).

Definition set_draws (n : nat) (st : state) : state :=
  State (files st) (lines_dict st) (test_file_list st) n (log st).

Definition emit (e : event) (st : state) : state :=
  State (files st) (lines_dict st) (test_file_list st) (draws st) (log st ++ [e]).

(** The offset a driver reads for a key: an absent key reads as 0. *)
Definition offset_of (d : gmap string Z) (key : string) : Z :=
  match d !! key with
  | Some v => v
  | None => 0
  end.

(** Lines 64-67 (and 105-108, 147-150): the key is created with 0 when
    absent; the offset read is its value. *)
Definition ledger_open (key : string) (st : state) : Z * state :=
  match lines_dict st !! key with
  | None => (0, set_ledger (<[key := 0]> (lines_dict st)) st)
  | Some v => (v, st)
  end.

(** [lines_dict[file_key] += add_lines] *)
Definition ledger_add (key : string) (add_lines : Z) (st : state) : outcome :=
  match lines_dict st !! key with
  | Some v => Returned (emit (Recorded key add_lines)
                          (set_ledger (<[key := v + add_lines]> (lines_dict st)) st))
  | None => Raised KeyError st
  end.

(** ** The pure helpers *)

(** [getLiteral] (lines 329-332) *)
Definition getLiteral (message : string) : string :=
  let pos1 := Py.find message ("this literal " +:+ Py.quote) in
  let pos2 := Py.rfind message Py.quote in
  Py.slice message (Some (pos1 + 14)) (Some pos2).

(** [findCodes] (lines 302-318).  The backward loop runs at most
    [start + 1] times and the forward loop at most [len(lines) - pos]
    times; the counter reaches 0 exactly when the loop condition fails. *)
Fixpoint findCodes_back (n : nat) (lines : list string) (start : Z) : except Z :=
  match n with
  | O => Ok start
  | S n' =>
      if start >=? 0 then
        let* line := getitem lines start in
        if Py.find line "func " >=? 0 then Ok start
        else findCodes_back n' lines (start - 1)
      else Ok start
  end.

Fixpoint findCodes_fwd (n : nat) (lines : list string) (pos : Z) (codes : string)
  : except (Z * string) :=
  match n with
  | O => Ok (pos, codes)
  | S n' =>
      if pos <? Z.of_nat (length lines) then
        let* line := getitem lines pos in
        let codes := codes +:+ line in
        let* c := getchar line 0 in
        if Ascii.eqb c "}" then Ok (pos, codes)
        else findCodes_fwd n' lines (pos + 1) codes
      else Ok (pos, codes)
  end.

Definition findCodes (lines : list string) (start : Z) : except (Z * Z * string) :=
  let* start := findCodes_back (Z.to_nat (start + 1)) lines start in
  let* codes := getitem lines start in
  if Py.find codes "}" >? 0 then Ok (start, 1, codes)
  else
    let pos := start + 1 in
    let* '(pos, codes) :=
      findCodes_fwd (Z.to_nat (Z.of_nat (length lines) - pos)) lines pos codes in
    Ok (start, pos - start + 1, codes).

(** The test of line 260: is [line] the closing line of a block opened at
    column [col]? *)
Definition closes (line : string) (col : Z) : except bool :=
  if Py.len line >? col then
    let* c := getchar line col in
    Ok (Ascii.eqb c "}" && (Py.find line "else" <? 0) && (Py.find line "//" <? 0))
  else Ok false.

(** [findEndIf] (lines 256-269) *)
Fixpoint findEndIf_loop (n : nat) (lines : list string) (col index end_ : Z)
    (codes : string) (if_lines : Z) : except (string * Z) :=
  match n with
  | O => Ok (codes, -1)
  | S n' =>
      if index <? end_ then
        let* line := getitem lines index in
        let* b := closes line col in
        if b then Ok (codes +:+ line, if_lines)
        else findEndIf_loop n' lines col (index + 1) end_ (codes +:+ line) (if_lines + 1)
      else Ok (codes, -1)
  end.

Definition findEndIf (lines : list string) (col index end_ : Z) : except (string * Z) :=
  findEndIf_loop (Z.to_nat (end_ - index)) lines col index end_ "" 1.

(** The test of line 237; [Some col] when the line at [index] opens a
    block to wrap.  [lines[index - 1]] is read only when the first three
    conjuncts hold. *)
Definition opens (lines : list string) (index : Z) : except (option Z) :=
  let* line := getitem lines index in
  let col := Py.find line "if " in
  if (col >=? 3) && (Py.find line "else " <? 0) && (Py.find line "//" <? 0) then
    let* prev := getitem lines (index - 1) in
    Ok (if Py.find prev "/*" <? 0 then Some col else None)
  else Ok None.

(** [reduceComplexity] (lines 228-253).  [index] grows by at least one in
    every iteration, so [line_num] iterations suffice. *)
Fixpoint reduceComplexity_loop (n : nat) (lines : list string) (end_ index : Z)
    (new_code : string) (new_lines : Z) : except (string * Z * Z) :=
  match n with
  | O => Ok (new_code, 1, new_lines)
  | S n' =>
      if index <? end_ then
        let* o := opens lines index in
        match o with
        | Some col =>
            let new_code := new_code +:+ Py.mul Py.tab col +:+ "/*" +:+ Py.nl in
            let new_lines := new_lines + 1 in
            let* '(codes, if_lines) := findEndIf lines col index end_ in
            if if_lines <? 0 then Ok (new_code, -1, 0)
            else
              let new_code :=
                new_code +:+ Py.replace (Py.replace codes "/*" "") "*/" ""
                         +:+ Py.mul Py.tab col +:+ "*/" +:+ Py.nl in
              reduceComplexity_loop n' lines end_ (index + if_lines) new_code (new_lines + 1)
        | None =>
            let* line := getitem lines index in
            reduceComplexity_loop n' lines end_ (index + 1) (new_code +:+ line) new_lines
        end
      else Ok (new_code, 1, new_lines)
  end.

Definition reduceComplexity (lines : list string) (start line_num : Z)
  : except (string * Z * Z) :=
  reduceComplexity_loop (Z.to_nat line_num) lines (start + line_num) start "" 0.

(** [fillEmpty] (lines 290-300) *)
Definition fillEmpty (codes : string) (line_num : Z) : string * Z :=
  let new_lines := 0 in
  let '(codes, new_lines) :=
    if line_num =? 1 then
      let ref := "  //" +:+ Py.replace (Py.replace (Py.replace codes "{" "") "}" "") Py.nl "" in
      (Py.replace codes "}" (Py.nl +:+ ref +:+ Py.nl +:+ "}"), new_lines + 2)
    else (codes, new_lines) in
  let '(codes, new_lines) :=
    if line_num =? 2 then
      let ref := "  //" +:+ Py.replace (Py.replace (Py.replace codes "{" "") "}" "") Py.nl "" in
      (Py.replace codes "}" (Py.nl +:+ ref +:+ Py.nl +:+ "}"), new_lines + 2)
    else (codes, new_lines) in
  (codes, new_lines).

(** ** The drivers

    [md5] stands for [hashlib.md5(path).hexdigest()], and [sample k] for the
    string joined from the [k]-th call [random.sample(str_set, 4)] of the
    run. *)

Section Drivers.

Variable md5 : string -> string.
Variable sample : nat -> string.

(** [findEndFunc] (lines 271-287) *)
Fixpoint findEndFunc_loop (n : nat) (lines : list string) (pos index end_ : Z)
    (codes : string) (func_lines : Z) : except (string * Z) :=
  match n with
  | O => Ok (codes, -1)
  | S n' =>
      if index <? end_ then
        let* line := getitem lines index in
        let* b :=
          if Py.len line >? pos then
            let* c := getchar line pos in
            if Ascii.eqb c "}" then
              let* c2 := getchar line (pos + 1) in Ok (Ascii.eqb c2 ")")
            else Ok false
          else Ok false in
        if b then Ok (codes +:+ "}" +:+ Py.nl +:+ Py.nl, func_lines)
        else findEndFunc_loop n' lines pos (index + 1) end_
               (codes +:+ Py.replace1 line (Py.mul Py.tab pos) "") (func_lines + 1)
      else Ok (codes, -1)
  end.

Definition findEndFunc (lines : list string) (col start end_ : Z) (func_name : string)
  : except (string * Z) :=
  let index := start + 1 in
  let* first := getitem lines start in
  let pos := Py.rfind first Py.tab + 1 in
  let codes :=
    Py.replace (Py.slice first (Some col) (Some (-1))) "func(" ("func " +:+ func_name +:+ "(")
      +:+ Py.nl in
  findEndFunc_loop (Z.to_nat (end_ - index)) lines pos index end_ codes 2.

(** [reduceComplexity_func] (lines 194-224).  [func_lines] is [None] until
    the first assignment; line 222 reads it.  The first component of the
    result is the number of samples drawn so far. *)
Fixpoint reduceComplexity_func_loop (n : nat) (lines : list string) (start end_ index : Z)
    (new_code add_code : string) (new_lines : Z) (func_lines : option Z) (k : nat)
  : nat * except (string * Z * Z * string) :=
  match n with
  | O =>
      match func_lines with
      | Some _ => (k, Ok (new_code, 1, new_lines, add_code))
      | None => (k, Raise UnboundLocalError)
      end
  | S n' =>
      if index <? end_ then
        match getitem lines index with
        | Raise e => (k, Raise e)
        | Ok line =>
            let col := Py.find line "func(" in
            if (index >? start) && (col >=? 0) && (Py.find line "{" >? 0)
               && (Py.find line "if" <? 0) then
              let new_func := "NestedFunc" +:+ sample k in
              let k := S k in
              let new_code :=
                new_code +:+ Py.slice line None (Some col) +:+ new_func +:+ ")" +:+ Py.nl in
              let new_lines := new_lines + 1 in
              match findEndFunc lines col index end_ new_func with
              | Raise e => (k, Raise e)
              | Ok (codes, fl) =>
                  if fl <? 0 then (k, Ok (new_code, -1, 0, ""))
                  else reduceComplexity_func_loop n' lines start end_ (index + fl)
                         new_code (add_code +:+ codes) (new_lines - fl) (Some fl) k
              end
            else reduceComplexity_func_loop n' lines start end_ (index + 1)
                   (new_code +:+ line) add_code new_lines func_lines k
        end
      else
        match func_lines with
        | Some _ => (k, Ok (new_code, 1, new_lines, add_code))
        | None => (k, Raise UnboundLocalError)
        end
  end.

Definition reduceComplexity_func (lines : list string) (start line_num : Z) (k : nat)
  : nat * except (string * Z * Z * string) :=
  reduceComplexity_func_loop (Z.to_nat line_num) lines start (start + line_num) start
    "" "" 0 None k.

(** [solve1192] (lines 28-49): the literal extractor.  The path is used as
    reported. *)
Definition literal_guard (codes literal : string) : bool :=
  (Py.find codes literal <? 0)
  || ((Py.rfind codes ("const " +:+ str_go_literal) >? 0)
      && (Py.rfind codes ("const " +:+ str_go_literal) <? Py.rfind codes literal)).

Definition extract (codes literal literal_def : string) : string :=
  let new_codes := Py.replace codes (Py.quote +:+ literal +:+ Py.quote) literal_def in
  new_codes +:+ Py.nl +:+ "const " +:+ literal_def +:+ " = " +:+ Py.quote +:+ literal
            +:+ Py.quote +:+ Py.nl.

Definition solve1192 (p : problem) (st : state) : outcome :=
  let file_path := resource p in
  let literal := getLiteral (message p) in
  match files st !! file_path with
  | None => Raised FileNotFoundError st
  | Some codes =>
      if literal_guard codes literal then Returned st
      else
        let literal_def := str_go_literal +:+ sample (draws st) in
        let st := set_draws (S (draws st)) st in
        Returned (write file_path (extract codes literal literal_def) st)
  end.

(** The three exits of the copy loops. *)
Inductive loop_exit :=
  | ExitTest
  | ExitAbort
  | ExitDone (new_codes : string) (add_lines : Z).

(** [solve3776] (lines 53-92): the complexity-suppression driver. *)
Fixpoint solve3776_loop (n : nat) (lines : list string) (start line_num index : Z)
    (new_codes : string) (add_lines : Z) : except loop_exit :=
  match n with
  | O => Ok (ExitDone new_codes add_lines)
  | S n' =>
      if index <? Z.of_nat (length lines) then
        let* line := getitem lines index in
        if (Py.find line "package" >=? 0) && (Py.find line "test" >=? 0) then Ok ExitTest
        else if index =? start then
          let* '(tmp_code, status, new_lines) := reduceComplexity lines start line_num in
          if status <? 0 then Ok ExitAbort
          else solve3776_loop n' lines start line_num (start + line_num)
                 (new_codes +:+ tmp_code) (add_lines + new_lines)
        else solve3776_loop n' lines start line_num (index + 1) (new_codes +:+ line) add_lines
      else Ok (ExitDone new_codes add_lines)
  end.

Definition solve3776 (p : problem) (st : state) : outcome :=
  let file_path := Py.replace1 (resource p) "/" "" in
  let file_key := md5 file_path in
  if Py.find file_path "test" >=? 0 then Returned (append_test file_path st)
  else
    let '(offset, st) := ledger_open file_key st in
    match files st !! file_path with
    | None => Raised FileNotFoundError st
    | Some text =>
        let lines := Py.readlines text in
        let st := emit (Located p file_key (offset + startLineNumber p - 1)) st in
        match findCodes lines (offset + startLineNumber p - 1) with
        | Raise e => Raised e st
        | Ok (start, line_num, codes) =>
            match solve3776_loop (length lines) lines start line_num 0 "" 0 with
            | Raise e => Raised e st
            | Ok ExitTest => Returned (append_test file_path st)
            | Ok ExitAbort => Returned st
            | Ok (ExitDone new_codes add_lines) =>
                ledger_add file_key add_lines (write file_path new_codes st)
            end
        end
    end.

(** [solve3776_2] (lines 96-133): the nested-function extractor. *)
Fixpoint solve3776_2_loop (n : nat) (lines : list string) (start line_num index : Z)
    (new_codes add_codes : string) (add_lines : Z) (k : nat)
  : nat * except (option (string * string * Z)) :=
  match n with
  | O => (k, Ok (Some (new_codes, add_codes, add_lines)))
  | S n' =>
      if index <? Z.of_nat (length lines) then
        if index =? start then
          match reduceComplexity_func lines start line_num k with
          | (k, Raise e) => (k, Raise e)
          | (k, Ok (tmp_code, status, new_lines, add_code)) =>
              if status <? 0 then (k, Ok None)
              else solve3776_2_loop n' lines start line_num (start + line_num)
                     (new_codes +:+ tmp_code) (add_codes +:+ add_code) (add_lines + new_lines) k
          end
        else
          match getitem lines index with
          | Raise e => (k, Raise e)
          | Ok line =>
              solve3776_2_loop n' lines start line_num (index + 1) (new_codes +:+ line)
                add_codes add_lines k
          end
      else (k, Ok (Some (new_codes, add_codes, add_lines)))
  end.

Definition solve3776_2 (p : problem) (st : state) : outcome :=
  let file_path := Py.replace1 (resource p) "/" "" in
  let file_key := md5 file_path in
  let '(offset, st) := ledger_open file_key st in
  match files st !! file_path with
  | None => Raised FileNotFoundError st
  | Some text =>
      let lines := Py.readlines text in
      let st := emit (Located p file_key (offset + startLineNumber p - 1)) st in
      match findCodes lines (offset + startLineNumber p - 1) with
      | Raise e => Raised e st
      | Ok (start, line_num, codes) =>
          match solve3776_2_loop (length lines) lines start line_num 0 "" "" 0 (draws st) with
          | (k, Raise e) => Raised e (set_draws k st)
          | (k, Ok None) => Returned (set_draws k st)
          | (k, Ok (Some (new_codes, add_codes, add_lines))) =>
              ledger_add file_key add_lines
                (write file_path (new_codes +:+ Py.nl +:+ add_codes) (set_draws k st))
          end
      end
  end.

(** [solve1186] (lines 139-170): the empty-body filler. *)
Fixpoint solve1186_loop (n : nat) (lines : list string) (start line_num : Z) (codes : string)
    (index : Z) (new_codes : string) (add_lines : Z) : except (string * Z) :=
  match n with
  | O => Ok (new_codes, add_lines)
  | S n' =>
      if index <? Z.of_nat (length lines) then
        if index =? start then
          let '(tmp_code, new_lines) := fillEmpty codes line_num in
          solve1186_loop n' lines start line_num codes (start + line_num)
            (new_codes +:+ tmp_code) (add_lines + new_lines)
        else
          let* line := getitem lines index in
          solve1186_loop n' lines start line_num codes (index + 1) (new_codes +:+ line) add_lines
      else Ok (new_codes, add_lines)
  end.

Definition solve1186 (p : problem) (st : state) : outcome :=
  let file_path := Py.replace1 (resource p) "/" "" in
  let file_key := md5 file_path in
  let '(offset, st) := ledger_open file_key st in
  match files st !! file_path with
  | None => Raised FileNotFoundError st
  | Some text =>
      let lines := Py.readlines text in
      let st := emit (Located p file_key (offset + startLineNumber p - 1)) st in
      match findCodes lines (offset + startLineNumber p - 1) with
      | Raise e => Raised e st
      | Ok (start, line_num, codes) =>
          match solve1186_loop (length lines) lines start line_num codes 0 "" 0 with
          | Raise e => Raised e st
          | Ok (new_codes, add_lines) =>
              ledger_add file_key add_lines (write file_path new_codes st)
          end
      end
  end.

(** [solve112] (lines 173-191): the exception renamer. *)
Definition rename (codes : string) : string :=
  let new_codes := Py.replace codes "RuntimeException(" "MultiPathRuntimeError(" in
  let end_pos := Py.rfind new_codes "}" in
  Py.slice new_codes None (Some end_pos) +:+ str_java_exception
    +:+ Py.slice new_codes (Some end_pos) (Some (-1)).

Definition solve112 (p : problem) (st : state) : outcome :=
  let file_path := Py.replace1 (resource p) "/" "" in
  match files st !! file_path with
  | None => Raised FileNotFoundError st
  | Some codes =>
      if Py.find codes "RuntimeException(" <? 0 then Returned st
      else Returned (write file_path (rename codes) st)
  end.

(** Running one driver over a list of findings: an exception ends the run. *)
Fixpoint run (drv : problem -> state -> outcome) (problems : list problem) (st : state)
  : outcome :=
  match problems with
  | [] => Returned st
  | p :: rest =>
      match drv p st with
      | Returned st' => run drv rest st'
      | Raised e st' => Raised e st'
      end
  end.

(** [main] (lines 336-355): the loop over the findings.  Only the branch
    for [go:S1192] is live; the other three dispatches are commented out. *)
Fixpoint main (problems : list problem) (st : state) : outcome :=
  match problems with
  | [] => Returned st
  | p :: rest =>
      if String.eqb (code p) "go:S1192" then
        match solve1192 p st with
        | Returned st' => main rest st'
        | Raised e st' => Raised e st'
        end
      else main rest st
  end.

(** The drivers that read and update [lines_dict]. *)
Inductive ledger_driver := S3776 | S3776_2 | S1186.

Definition drive (d : ledger_driver) : problem -> state -> outcome :=
  match d with
  | S3776 => solve3776
  | S3776_2 => solve3776_2
  | S1186 => solve1186
  end.

Fixpoint run_ledger (work : list (ledger_driver * problem)) (st : state) : outcome :=
  match work with
  | [] => Returned st
  | (d, p) :: rest =>
      match drive d p st with
      | Returned st' => run_ledger rest st'
      | Raised e st' => Raised e st'
      end
  end.

End Drivers.

(** ** Notions used to state the properties *)

(** Number of newline characters of a text, and the unfinished line left
    after its last newline; a line is terminated when it holds exactly one
    newline, as its last character. *)
Fixpoint count_nl (s : string) : nat :=
  match s with
  | "" => O
  | String c s' => if Ascii.eqb c "010" then S (count_nl s') else count_nl s'
  end.

Fixpoint pending (cur s : string) : string :=
  match s with
  | "" => cur
  | String c s' => if Ascii.eqb c "010" then pending "" s' else pending (cur +:+ String c "") s'
  end.

Definition terminated (line : string) : bool :=
  Nat.eqb (count_nl line) 1 && String.eqb (pending "" line) "".

(** [sep.join(pieces)] *)
Fixpoint sep_join (sep : string) (pieces : list string) : string :=
  match pieces with
  | [] => ""
  | [p] => p
  | p :: rest => p +:+ sep +:+ sep_join sep rest
  end.

(** [pieces] is what the left-to-right scan for [sep] cuts a text into:
    in every piece but the last the first occurrence of [sep] in
    [piece + sep] is the one at its end, and [sep] does not occur in the
    last piece. *)
Fixpoint cut_by (sep : string) (pieces : list string) : Prop :=
  match pieces with
  | [] => False
  | [p] => Py.find p sep = -1
  | p :: rest => Py.find (p +:+ sep) sep = Py.len p /\ cut_by sep rest
  end.

(** A text without the characters for which [drop_it] holds. *)
Fixpoint without (drop_it : ascii -> bool) (s : string) : string :=
  match s with
  | "" => ""
  | String c s' => if drop_it c then without drop_it s' else String c (without drop_it s')
  end.

Definition brace_or_newline (c : ascii) : bool :=
  Ascii.eqb c "{" || Ascii.eqb c "}" || Ascii.eqb c "010".

(** How the scan of [reduceComplexity] reads the span from [index] to
    [end_]: [Some N] when it wraps [N] blocks, each opened by a qualifying
    line and closed by the first closing line at the same column before
    [end_], the scan resuming after the closing line; [None] when it meets
    a qualifying line with no closing line before [end_]. *)
Inductive Scan (lines : list string) (end_ : Z) : Z -> option nat -> Prop :=
  | Scan_end index :
      end_ <= index -> Scan lines end_ index (Some O)
  | Scan_plain index r :
      index < end_ ->
      opens lines index = Ok None ->
      Scan lines end_ (index + 1) r ->
      Scan lines end_ index r
  | Scan_wrap index col last r :
      index <= last < end_ ->
      opens lines index = Ok (Some col) ->
      (forall j, index <= j < last ->
         exists line, getitem lines j = Ok line /\ closes line col = Ok false) ->
      (exists line, getitem lines last = Ok line /\ closes line col = Ok true) ->
      Scan lines end_ (last + 1) r ->
      Scan lines end_ index (option_map S r)
  | Scan_stuck index col :
      index < end_ ->
      opens lines index = Ok (Some col) ->
      (forall j, index <= j < end_ ->
         exists line, getitem lines j = Ok line /\ closes line col = Ok false) ->
      Scan lines end_ index None.

(** Status and delta the reducer returns for each outcome of the scan. *)
Definition scan_status (r : option nat) : Z :=
  match r with
  | Some _ => 1
  | None => -1
  end.

Definition scan_delta (new_lines : Z) (r : option nat) : Z :=
  match r with
  | Some N => new_lines + 2 * Z.of_nat N
  | None => 0
  end.

(** The qualifying lines of a span that have a closing line before its
    end, counted one by one. *)
Definition matched_if (lines : list string) (end_ index : Z) : bool :=
  match opens lines index with
  | Ok (Some col) =>
      match findEndIf lines col index end_ with
      | Ok (_, if_lines) => 0 <=? if_lines
      | Raise _ => false
      end
  | _ => false
  end.

Definition qualifying (lines : list string) (index : Z) : bool :=
  match opens lines index with
  | Ok (Some _) => true
  | _ => false
  end.

Definition span (start line_num : Z) : list Z :=
  map (fun k => start + Z.of_nat k) (seq 0 (Z.to_nat line_num)).

Fixpoint has_char (x : ascii) (s : string) : bool :=
  match s with
  | "" => false
  | String c s' => Ascii.eqb x c || has_char x s'
  end.

(** A state with one file, as a run starts: empty ledger, nothing drawn. *)
Definition one_file (path text : string) : state :=
  State {[ path := text ]} ∅ [] O [].

(** The text of the [k] lines from [index] on. *)
Fixpoint segment (lines : list string) (index : Z) (k : nat) : string :=
  match k with
  | O => ""
  | S k' =>
      match Py.item lines index with
      | Some line => line
      | None => ""
      end +:+ segment lines (index + 1) k'
  end.

(** Example spans: a line indented by [n] tabs; a function with two
    stacked conditionals, one with two nested conditionals, and one whose
    conditional is never closed at its column. *)
Definition indented (n : nat) (s : string) : string :=
  Py.repeat Py.tab n +:+ s +:+ Py.nl.

Definition stacked_ifs : list string :=
  [ indented 0 "func f() {";
    indented 3 "if a {"; indented 3 "}";
    indented 3 "if b {"; indented 3 "}";
    indented 0 "}" ].

Definition nested_ifs : list string :=
  [ indented 0 "func f() {";
    indented 3 "if a {";
    indented 4 "if b {"; indented 4 "}";
    indented 3 "}";
    indented 0 "}" ].

Definition open_ended : list string :=
  [ indented 3 "if a {"; Py.repeat Py.tab 3 +:+ "}" ].

Definition unterminated : list string :=
  [ indented 0 "func f() {"; indented 3 "if a {" ].

Definition unclosed_if : list string :=
  [ indented 0 "func f() {"; indented 3 "if a {"; indented 0 "}" ].

(** A Go file whose package line is a test package, one with the words
    [package] and [test] in a comment inside the function, and one with
    two empty functions. *)
Definition test_package : list string :=
  [ indented 0 "package foo_test";
    indented 0 "func f() {";
    indented 3 "if a {"; indented 3 "}";
    indented 0 "}" ].

Definition comment_inside : list string :=
  [ indented 0 "func f() {";
    indented 1 "// package test";
    indented 3 "if a {"; indented 3 "}";
    indented 0 "}" ].

Definition two_empty : list string :=
  [ indented 0 "func a() {"; indented 0 "}";
    indented 0 "func b() {"; indented 0 "}" ].

(** Fixed choices for the digest and the random draws in the examples. *)
Definition same_digits : nat -> string := fun _ => "0123".
Definition path_key : string -> string := fun path => path.

(** [sub] occurs in [s] at offset [k]. *)
Definition occurs (sub s : string) (k : nat) : Prop :=
  (k <= String.length s)%nat /\ Py.starts sub (Py.drop k s) = true.

(** The findings the main loop hands to a driver. *)
Definition is_S1192 (p : problem) : bool := String.eqb (code p) "go:S1192".

(** Example findings and texts. *)
Definition literal_finding (literal : string) : problem :=
  Problem "go:S1192" "a.go"
    ("Define a constant instead of duplicating this literal " +:+ Py.quote +:+ literal
       +:+ Py.quote +:+ " 3 times.") 5.

Definition two_uses : string :=
  "f(" +:+ Py.quote +:+ "x" +:+ Py.quote +:+ ") g(" +:+ Py.quote +:+ "x" +:+ Py.quote
       +:+ ")" +:+ Py.nl.

Definition declared_x : string :=
  Py.nl +:+ "const literal_0123 = " +:+ Py.quote +:+ "x" +:+ Py.quote +:+ Py.nl.

Definition prefix_use : string :=
  "x := " +:+ Py.quote +:+ "const literal_" +:+ Py.quote +:+ Py.nl.

Definition thrower : string :=
  "class A{void f(){throw new RuntimeException(1);}}" +:+ Py.nl.

Definition java_finding : problem :=
  Problem "java:S112" "/A.java" "Define and throw a dedicated exception" 1.

Definition clean_finding : problem := Problem "go:S3776" "/a.go" "Refactor this method" 1.

Definition second_line : problem := Problem "go:S3776" "/a.go" "Refactor this method" 2.

Definition first_empty : problem := Problem "go:S1186" "/a.go" "Add a nested comment" 1.

Definition second_empty : problem := Problem "go:S1186" "/a.go" "Add a nested comment" 3.

(** A line holds a function literal to extract: the test of line 204 of
    [reduceComplexity_func] on the line itself. *)
Definition func_literal (line : string) : bool :=
  (Py.find line "func(" >=? 0) && (Py.find line "{" >? 0) && (Py.find line "if" <? 0).

(** The text of [k] lines from [index], each without its first run of
    [pos] tabs. *)
Fixpoint dedented (lines : list string) (pos index : Z) (k : nat) : string :=
  match k with
  | O => ""
  | S k' =>
      match Py.item lines index with
      | Some line => Py.replace1 line (Py.mul Py.tab pos) ""
      | None => ""
      end +:+ dedented lines pos (index + 1) k'
  end.

(** Number of occurrences of a character. *)
Fixpoint count_char (x : ascii) (s : string) : nat :=
  match s with
  | "" => O
  | String c s' => if Ascii.eqb x c then S (count_char x s') else count_char x s'
  end.

Definition go_routine : list string :=
  [ indented 0 "func f() {";
    indented 1 "go func() {";
    indented 2 "x()";
    indented 1 "})";
    indented 0 "}" ].

(** *** One call of a ledger driver, with the search start made explicit *)

(** What a call does to the text of its file: nothing, or a new text
    with the line delta counted for it. *)
Inductive edit :=
  | Untouched
  | Rewritten (new_text : string) (delta : Z).

(** The span located from the search start [cand] and the copy loop of
    the driver over it; [k] is the number of names drawn so far. *)
Definition located_edit (sample : nat -> string) (d : ledger_driver) (lines : list string)
    (cand : Z) (k : nat) : except edit :=
  match findCodes lines cand with
  | Raise e => Raise e
  | Ok (start, line_num, codes) =>
      match d with
      | S3776 =>
          match solve3776_loop (length lines) lines start line_num 0 "" 0 with
          | Raise e => Raise e
          | Ok (ExitDone new_codes add_lines) => Ok (Rewritten new_codes add_lines)
          | Ok _ => Ok Untouched
          end
      | S3776_2 =>
          match snd (solve3776_2_loop sample (length lines) lines start line_num 0 "" "" 0 k) with
          | Raise e => Raise e
          | Ok None => Ok Untouched
          | Ok (Some (new_codes, add_codes, add_lines)) =>
              Ok (Rewritten (new_codes +:+ Py.nl +:+ add_codes) add_lines)
          end
      | S1186 =>
          match solve1186_loop (length lines) lines start line_num codes 0 "" 0 with
          | Raise e => Raise e
          | Ok (new_codes, add_lines) => Ok (Rewritten new_codes add_lines)
          end
      end
  end.

(** How far a call gets: [solve3776] leaves a path that holds [test]
    before it opens anything; otherwise the file is opened and, when it
    exists, the span is located from [cand]. *)
Inductive attempted :=
  | NotOpened
  | NoFile
  | Tried (r : except edit).

Definition attempt (sample : nat -> string) (d : ledger_driver) (p : problem) (cand : Z)
    (st : state) : attempted :=
  let path := Py.replace1 (resource p) "/" "" in
  match d, Py.find path "test" >=? 0 with
  | S3776, true => NotOpened
  | _, _ =>
      match files st !! path with
      | None => NoFile
      | Some text => Tried (located_edit sample d (Py.readlines text) cand (draws st))
      end
  end.

(** No file text and no ledger offset differs between two states. *)
Definition unchanged (st st' : state) : Prop :=
  files st' = files st
  /\ forall k, offset_of (lines_dict st') k = offset_of (lines_dict st) k.

(** The outcome [o] of a call on [st] is the one of a call that passes
    [cand] to the locator: the file is written, and the delta added to
    the ledger entry of its key right after, exactly when the edit from
    [cand] is a rewrite; otherwise no file and no offset changes. *)
Definition call_at (md5 : string -> string) (sample : nat -> string) (d : ledger_driver)
    (p : problem) (cand : Z) (st : state) (o : outcome) : Prop :=
  let path := Py.replace1 (resource p) "/" "" in
  let key := md5 path in
  match attempt sample d p cand st with
  | NotOpened => o = Returned (append_test path st)
  | NoFile =>
      exists st', o = Raised FileNotFoundError st' /\ unchanged st st' /\ log st' = log st
  | Tried (Raise e) =>
      exists st', o = Raised e st' /\ unchanged st st'
                  /\ log st' = log st ++ [Located p key cand]
  | Tried (Ok Untouched) =>
      exists st', o = Returned st' /\ unchanged st st'
                  /\ log st' = log st ++ [Located p key cand]
  | Tried (Ok (Rewritten new_text delta)) =>
      exists st',
        o = Returned st'
        /\ files st' = <[path := new_text]> (files st)
        /\ (forall k, offset_of (lines_dict st') k
                      = offset_of (lines_dict st) k + (if String.eqb key k then delta else 0))
        /\ log st' = log st ++ [Located p key cand; Wrote path; Recorded key delta]
  end.

(** The key and delta of the edit a call makes on [st], if it makes one. *)
Definition recorded (md5 : string -> string) (sample : nat -> string) (d : ledger_driver)
    (p : problem) (st : state) : list (string * Z) :=
  let key := md5 (Py.replace1 (resource p) "/" "") in
  match attempt sample d p (startLineNumber p - 1 + offset_of (lines_dict st) key) st with
  | Tried (Ok (Rewritten _ delta)) => [(key, delta)]
  | _ => []
  end.

(** The successful edits of a run, in order. *)
Fixpoint history (md5 : string -> string) (sample : nat -> string)
    (work : list (ledger_driver * problem)) (st : state) : list (string * Z) :=
  match work with
  | [] => []
  | (d, p) :: rest =>
      recorded md5 sample d p st
        ++ match drive md5 sample d p st with
           | Returned st' => history md5 sample rest st'
           | Raised _ _ => []
           end
  end.

(** The sum of the deltas of the edits made under [key]. *)
Fixpoint total (key : string) (edits : list (string * Z)) : Z :=
  match edits with
  | [] => 0
  | (k, delta) :: rest => (if String.eqb k key then delta else 0) + total key rest
  end.

(** * Facts about the string operations *)

Module PyFacts.
Import Py.

Lemma sapp_nil_r s : s +:+ "" = s.
Proof. induction s as [|c s IH]; simpl; [reflexivity | now rewrite IH]. Qed.

Lemma sapp_assoc a b c : (a +:+ b) +:+ c = a +:+ (b +:+ c).
Proof. induction a as [|x a IH]; simpl; [reflexivity | now rewrite IH]. Qed.

Lemma length_app a b :
  String.length (a +:+ b) = (String.length a + String.length b)%nat.
Proof. induction a as [|x a IH]; simpl; [reflexivity | now rewrite IH]. Qed.

Lemma len_app a b : len (a +:+ b) = len a + len b.
Proof. unfold len. rewrite length_app. lia. Qed.

Lemma len_nonneg s : 0 <= len s.
Proof. unfold len. lia. Qed.

Lemma drop_0 s : drop 0 s = s.
Proof. now destruct s. Qed.

Lemma drop_nil n : drop n "" = "".
Proof. now destruct n. Qed.

Lemma drop_app a b : drop (String.length a) (a +:+ b) = b.
Proof. induction a as [|x a IH]; simpl; [apply drop_0 | exact IH]. Qed.

Lemma take_app a b : take (String.length a) (a +:+ b) = a.
Proof.
  induction a as [|x a IH]; simpl; [now destruct b | now rewrite IH].
Qed.

Lemma take_all s n : (String.length s <= n)%nat -> take n s = s.
Proof.
  revert n. induction s as [|x s IH]; intros [|n] H; simpl in *; try reflexivity; try lia.
  rewrite IH; [reflexivity | lia].
Qed.

Lemma drop_plus a n s :
  drop (String.length a + n) (a +:+ s) = drop n s.
Proof. induction a as [|x a IH]; simpl; [reflexivity | exact IH]. Qed.

Lemma drop_app_le n a b :
  (n <= String.length a)%nat -> drop n (a +:+ b) = drop n a +:+ b.
Proof.
  revert a. induction n as [|n IH]; intros a H.
  - now rewrite !drop_0.
  - destruct a as [|x a]; simpl in *; [lia | apply IH; lia].
Qed.

Lemma length_drop n s : String.length (drop n s) = (String.length s - n)%nat.
Proof.
  revert s. induction n as [|n IH]; intros s.
  - rewrite drop_0. lia.
  - destruct s as [|x s]; simpl; [reflexivity | apply IH].
Qed.

Lemma take_drop n s : take n s +:+ drop n s = s.
Proof.
  revert s. induction n as [|n IH]; intros s.
  - rewrite drop_0. now destruct s.
  - destruct s as [|x s]; simpl; [reflexivity | now rewrite IH].
Qed.

(** *** Prefixes *)

Lemma starts_app p r : starts p (p +:+ r) = true.
Proof.
  induction p as [|x p IH]; simpl; [reflexivity |].
  now rewrite Ascii.eqb_refl.
Qed.

Lemma starts_inv p s : starts p s = true -> s = p +:+ drop (String.length p) s.
Proof.
  revert s. induction p as [|x p IH]; intros s H; simpl in *.
  - reflexivity.
  - destruct s as [|y s]; [discriminate |].
    destruct (Ascii.eqb_spec x y) as [->|]; [| discriminate].
    simpl. f_equal. now apply IH.
Qed.

Lemma starts_iff p s : starts p s = true <-> exists r, s = p +:+ r.
Proof.
  split.
  - intros H. eexists. now apply starts_inv.
  - intros [r ->]. apply starts_app.
Qed.

Lemma starts_length p s : starts p s = true -> (String.length p <= String.length s)%nat.
Proof.
  intros H. apply starts_inv in H. rewrite H, length_app. lia.
Qed.

Lemma starts_app_long p s t :
  (String.length p <= String.length s)%nat -> starts p (s +:+ t) = starts p s.
Proof.
  revert s. induction p as [|x p IH]; intros s H; simpl in *; [reflexivity |].
  destruct s as [|y s]; simpl in *; [lia |].
  destruct (Ascii.eqb x y); [apply IH; lia | reflexivity].
Qed.

Lemma starts_app_true p s t : starts p s = true -> starts p (s +:+ t) = true.
Proof.
  intros H. rewrite starts_app_long; [exact H | now apply starts_length].
Qed.

(** *** [find] and [rfind] *)

Lemma occurs_app_mid a sub b : occurs sub (a +:+ sub +:+ b) (String.length a).
Proof.
  split.
  - rewrite length_app. lia.
  - rewrite drop_app. apply starts_app.
Qed.

Lemma occurs_here sub s : starts sub s = true -> occurs sub s O.
Proof. intros H. split; [lia | now rewrite drop_0]. Qed.

Lemma occurs_cons sub c s k : occurs sub (String c s) (S k) <-> occurs sub s k.
Proof. unfold occurs. simpl. split; intros [H1 H2]; (split; [lia | exact H2]). Qed.

Lemma occurs_0_inv sub s : occurs sub s O -> starts sub s = true.
Proof. intros [_ H]. now rewrite drop_0 in H. Qed.

Lemma find_from_spec i s sub :
  (find_from i s sub = -1 /\ forall k, ~ occurs sub s k)
  \/ (exists k, find_from i s sub = i + Z.of_nat k /\ occurs sub s k
                /\ forall j, (j < k)%nat -> ~ occurs sub s j).
Proof.
  revert i. induction s as [|c s IH]; intros i.
  - cbn [find_from]. destruct (starts sub "") eqn:E.
    + right. exists O. split; [lia |]. split; [now apply occurs_here |]. intros; lia.
    + left. split; [reflexivity |]. intros k [Hk Ho].
      rewrite drop_nil in Ho. congruence.
  - cbn [find_from]. destruct (starts sub (String c s)) eqn:E.
    + right. exists O. split; [lia |]. split; [now apply occurs_here |]. intros; lia.
    + destruct (IH (i + 1)) as [[H1 H2] | (k & H1 & H2 & H4)].
      * left. split; [exact H1 |]. intros [|k] Ho.
        -- apply occurs_0_inv in Ho. congruence.
        -- apply occurs_cons in Ho. now apply (H2 k).
      * right. exists (S k). split; [rewrite H1; lia |]. split.
        -- now apply occurs_cons.
        -- intros [|j] Hj Ho.
           ++ apply occurs_0_inv in Ho. congruence.
           ++ apply occurs_cons in Ho. apply (H4 j); [lia | exact Ho].
Qed.

Lemma rfind_from_spec i s sub :
  0 <= i ->
  (rfind_from i s sub = -1 /\ forall k, ~ occurs sub s k)
  \/ (exists k, rfind_from i s sub = i + Z.of_nat k /\ occurs sub s k
                /\ forall j, (k < j)%nat -> ~ occurs sub s j).
Proof.
  revert i. induction s as [|c s IH]; intros i Hi.
  - cbn [rfind_from]. destruct (starts sub "") eqn:E.
    + right. exists O. split; [lia |]. split; [now apply occurs_here |].
      intros j Hj [Hk _]. simpl in Hk. lia.
    + left. split; [reflexivity |]. intros k [Hk Ho].
      rewrite drop_nil in Ho. congruence.
  - cbn [rfind_from]. cbv zeta.
    destruct (IH (i + 1)) as [[H1 H2] | (k & H1 & H2 & H4)]; [lia | |].
    + rewrite H1. change (0 <=? -1) with false. cbv iota.
      destruct (starts sub (String c s)) eqn:E.
      * right. exists O. split; [lia |]. split; [now apply occurs_here |].
        intros [|j] Hj Ho; [lia |]. apply occurs_cons in Ho. now apply (H2 j).
      * left. split; [reflexivity |]. intros [|k] Ho.
        -- apply occurs_0_inv in Ho. congruence.
        -- apply occurs_cons in Ho. now apply (H2 k).
    + rewrite H1. destruct (0 <=? i + 1 + Z.of_nat k) eqn:E; [| lia].
      right. exists (S k). split; [lia |]. split.
      * now apply occurs_cons.
      * intros [|j] Hj Ho; [lia |]. apply occurs_cons in Ho.
        apply (H4 j); [lia | exact Ho].
Qed.

Lemma find_range s sub : find s sub = -1 \/ 0 <= find s sub <= len s.
Proof.
  unfold find. destruct (find_from_spec 0 s sub) as [[H _] | (k & H & [Hk _] & _)].
  - now left.
  - right. unfold len. lia.
Qed.

Lemma rfind_range s sub : rfind s sub = -1 \/ 0 <= rfind s sub <= len s.
Proof.
  unfold rfind. destruct (rfind_from_spec 0 s sub) as [[H _] | (k & H & [Hk _] & _)]; [lia | |].
  - now left.
  - right. unfold len. lia.
Qed.

Lemma find_occurs s sub k : occurs sub s k -> 0 <= find s sub <= Z.of_nat k.
Proof.
  intros Ho. unfold find.
  destruct (find_from_spec 0 s sub) as [[_ H] | (k' & H & _ & Hmin)].
  - now destruct (H k).
  - rewrite H. destruct (Nat.lt_ge_cases k k') as [Hlt | Hge]; [| lia].
    now destruct (Hmin k Hlt).
Qed.

Lemma rfind_occurs s sub k : occurs sub s k -> Z.of_nat k <= rfind s sub <= len s.
Proof.
  intros Ho. unfold rfind.
  destruct (rfind_from_spec 0 s sub) as [[_ H] | (k' & H & [Hk' _] & Hmax)]; [lia | |].
  - now destruct (H k).
  - rewrite H. unfold len. destruct (Nat.lt_ge_cases k' k) as [Hlt | Hge]; [| lia].
    now destruct (Hmax k Hlt).
Qed.

Lemma find_found s sub :
  0 <= find s sub ->
  exists k, find s sub = Z.of_nat k /\ occurs sub s k
            /\ forall j, (j < k)%nat -> ~ occurs sub s j.
Proof.
  unfold find. destruct (find_from_spec 0 s sub) as [[H _] | (k & H & Ho & Hmin)]; [lia |].
  intros _. exists k. rewrite H. split; [lia |]. split; [exact Ho | exact Hmin].
Qed.

Lemma rfind_found s sub :
  0 <= rfind s sub ->
  exists k, rfind s sub = Z.of_nat k /\ occurs sub s k
            /\ forall j, (k < j)%nat -> ~ occurs sub s j.
Proof.
  unfold rfind.
  destruct (rfind_from_spec 0 s sub) as [[H _] | (k & H & Ho & Hmax)]; [lia | lia |].
  intros _. exists k. rewrite H. split; [lia |]. split; [exact Ho | exact Hmax].
Qed.

Lemma find_absent s sub : find s sub = -1 <-> forall k, ~ occurs sub s k.
Proof.
  split.
  - intros H k Ho. apply find_occurs in Ho. lia.
  - intros H. destruct (find_range s sub) as [E | E]; [exact E |].
    destruct (find_found s sub) as (k & _ & Ho & _); [lia |]. now destruct (H k).
Qed.

Lemma find_neg s sub : find s sub < 0 <-> find s sub = -1.
Proof. destruct (find_range s sub); lia. Qed.

(** *** [replace] *)

Lemma replace_loop_fuel old new n m s :
  old <> "" -> (String.length s <= n)%nat -> (String.length s <= m)%nat ->
  replace_loop n old new s = replace_loop m old new s.
Proof.
  intros Hold. revert m s. induction n as [|n IH]; intros m s Hn Hm.
  - destruct s; [| simpl in Hn; lia].
    destruct m; simpl; [reflexivity |].
    destruct old; [congruence | reflexivity].
  - destruct m as [|m].
    + destruct s; [| simpl in Hm; lia].
      simpl. destruct old; [congruence | reflexivity].
    + cbn [replace_loop]. destruct (starts old s) eqn:E.
      * f_equal. assert (String.length old <= String.length s)%nat by now apply starts_length.
        assert (0 < String.length old)%nat by (destruct old; [congruence | simpl; lia]).
        apply IH; rewrite length_drop; lia.
      * destruct s as [|c s]; [reflexivity |].
        f_equal. apply IH; simpl in *; lia.
Qed.

Lemma replace_unfold s old new :
  old <> "" ->
  replace s old new =
    if starts old s then new +:+ replace (drop (String.length old) s) old new
    else match s with
         | "" => ""
         | String c s' => String c (replace s' old new)
         end.
Proof.
  intros Hold. unfold replace. destruct old as [|o old']; [congruence |].
  set (old := String o old') in *.
  destruct s as [|c s].
  - reflexivity.
  - cbn [String.length replace_loop]. destruct (starts old (String c s)) eqn:E.
    + f_equal. apply replace_loop_fuel; [exact Hold | | lia].
      apply starts_length in E. rewrite length_drop. simpl in *. lia.
    + reflexivity.
Qed.

Lemma replace_nil old new : old <> "" -> replace "" old new = "".
Proof. intros H. unfold replace. destruct old; [congruence | reflexivity]. Qed.

Lemma replace_absent s old new :
  old <> "" -> find s old = -1 -> replace s old new = s.
Proof.
  intros Hold. induction s as [|c s IH]; intros H.
  - now apply replace_nil.
  - rewrite replace_unfold by exact Hold.
    rewrite find_absent in H.
    destruct (starts old (String c s)) eqn:E.
    + destruct (H O). now apply occurs_here.
    + f_equal. apply IH. apply find_absent. intros k Ho.
      apply (H (S k)). now apply occurs_cons.
Qed.

Lemma find_app_first a old :
  find (a +:+ old) old = len a -> forall j, (j < String.length a)%nat -> ~ occurs old (a +:+ old) j.
Proof.
  intros H j Hj Ho. apply find_occurs in Ho. unfold len in H. lia.
Qed.

Lemma replace_first a old new b :
  old <> "" -> find (a +:+ old) old = len a ->
  replace (a +:+ old +:+ b) old new = a +:+ new +:+ replace b old new.
Proof.
  intros Hold. induction a as [|c a IH]; intros H.
  - simpl. rewrite replace_unfold by exact Hold.
    now rewrite starts_app, drop_app.
  - rewrite replace_unfold by exact Hold.
    assert (E : starts old (String c a +:+ old +:+ b) = false).
    { rewrite <- sapp_assoc, starts_app_long by (rewrite length_app; lia).
      destruct (starts old (String c a +:+ old)) eqn:E; [| reflexivity].
      apply occurs_here in E. apply find_occurs in E.
      unfold len in H. simpl String.length in H. lia. }
    rewrite E. simpl. f_equal. apply IH.
    assert (Hn : forall j, (j < String.length a)%nat -> ~ occurs old (a +:+ old) j).
    { intros j Hj Ho. apply (find_app_first _ _ H (S j)); [simpl; lia |].
      now apply occurs_cons. }
    pose proof (find_occurs _ _ _ (occurs_app_mid a old "")) as Hle.
    rewrite sapp_nil_r in Hle.
    destruct (find_found (a +:+ old) old) as (k & Hk & Ho & _); [lia |].
    destruct (Nat.lt_ge_cases k (String.length a)) as [Hlt | Hge].
    + now destruct (Hn k Hlt).
    + unfold len. lia.
Qed.

Lemma replace_join sep new pieces :
  sep <> "" -> cut_by sep pieces ->
  replace (sep_join sep pieces) sep new = sep_join new pieces.
Proof.
  intros Hsep. induction pieces as [|p rest IH]; intros H; [destruct H |].
  destruct rest as [|q rest].
  - simpl in *. now apply replace_absent.
  - destruct H as [H1 H2]. change (sep_join sep (p :: q :: rest))
      with (p +:+ sep +:+ sep_join sep (q :: rest)).
    change (sep_join new (p :: q :: rest)) with (p +:+ new +:+ sep_join new (q :: rest)).
    rewrite replace_first by assumption. now rewrite IH.
Qed.

Lemma cut_by_nonempty sep pieces : cut_by sep pieces -> pieces <> [].
Proof. destruct pieces; [intros [] | discriminate]. Qed.

(** Every text is cut into pieces by a non-empty separator. *)
Lemma cut_exists sep s :
  sep <> "" -> exists pieces, cut_by sep pieces /\ s = sep_join sep pieces.
Proof.
  intros Hsep.
  assert (H : forall n s, (String.length s <= n)%nat ->
                exists pieces, cut_by sep pieces /\ s = sep_join sep pieces).
  { clear s. induction n as [|n IH]; intros s Hn.
    - destruct s; [| simpl in Hn; lia]. exists [""]. split; [| reflexivity].
      cbn [cut_by]. apply find_absent. intros k [Hk Ho]. rewrite drop_nil in Ho.
      destruct sep; [congruence | discriminate].
    - destruct (find_range s sep) as [Habs | Hin].
      + exists [s]. split; [exact Habs | reflexivity].
      + destruct (find_found s sep) as (k & Hk & [Hle Ho] & Hmin); [lia |].
        pose proof (starts_inv _ _ Ho) as Hs.
        set (a := take k s). set (b := drop (String.length sep) (drop k s)).
        assert (Hsplit : s = a +:+ sep +:+ b).
        { subst a b. rewrite <- Hs. symmetry. apply take_drop. }
        assert (Hla : String.length a = k).
        { pose proof (f_equal String.length (take_drop k s)) as Hlen.
          rewrite length_app, length_drop in Hlen. subst a. lia. }
        assert (Hlb : (String.length b <= n)%nat).
        { pose proof (f_equal String.length Hsplit) as Hlen.
          rewrite !length_app in Hlen.
          assert (0 < String.length sep)%nat by (destruct sep; [congruence | simpl; lia]).
          lia. }
        destruct (IH b Hlb) as (rest & Hcut & Hb).
        exists (a :: rest). destruct rest as [|q rest]; [destruct Hcut |].
        split.
        * split; [| exact Hcut].
          pose proof (find_occurs _ _ _ (occurs_app_mid a sep "")) as Hup.
          rewrite sapp_nil_r in Hup.
          destruct (find_found (a +:+ sep) sep) as (j & Hj & [Hjl Hjo] & _); [lia |].
          unfold len. rewrite Hj.
          destruct (Nat.lt_ge_cases j k) as [Hlt | Hge]; [exfalso | lia].
          apply (Hmin j Hlt). split; [lia |].
          rewrite Hsplit, <- sapp_assoc, drop_app_le by (rewrite length_app; lia).
          now apply starts_app_true.
        * rewrite Hsplit at 1. change (sep_join sep (a :: q :: rest))
            with (a +:+ sep +:+ sep_join sep (q :: rest)). now rewrite <- Hb. }
  apply (H (String.length s)). lia.
Qed.

Lemma count_nl_app a b : count_nl (a +:+ b) = (count_nl a + count_nl b)%nat.
Proof.
  induction a as [|c a IH]; simpl; [reflexivity |].
  destruct (Ascii.eqb c "010"); simpl; now rewrite IH.
Qed.

Lemma count_nl_replace s old new :
  old <> "" -> count_nl old = O -> count_nl new = O ->
  count_nl (replace s old new) = count_nl s.
Proof.
  intros Hold Ho Hn. unfold replace. destruct old as [|o old']; [congruence |].
  set (old := String o old') in *.
  generalize (String.length s) at 1. intros n. revert s.
  induction n as [|n IH]; intros s; [reflexivity |].
  cbn [replace_loop]. destruct (starts old s) eqn:E.
  - rewrite count_nl_app, Hn, IH. rewrite (starts_inv _ _ E) at 2.
    rewrite count_nl_app, Ho. reflexivity.
  - destruct s as [|c s]; [reflexivity |]. simpl.
    destruct (Ascii.eqb c "010"); now rewrite IH.
Qed.

(** Replacing a one-character string works character by character. *)
Lemma replace_char_cons c x s new :
  replace (String x s) (String c "") new =
    (if Ascii.eqb c x then new else String x "") +:+ replace s (String c "") new.
Proof.
  rewrite replace_unfold by discriminate. simpl.
  destruct (Ascii.eqb c x); reflexivity.
Qed.

Lemma replace_char_app c a b new :
  replace (a +:+ b) (String c "") new
  = replace a (String c "") new +:+ replace b (String c "") new.
Proof.
  induction a as [|x a IH]; [reflexivity |].
  change (String x a +:+ b) with (String x (a +:+ b)).
  rewrite !replace_char_cons, IH. now rewrite sapp_assoc.
Qed.

Lemma replace_char_without c s :
  replace s (String c "") "" = without (Ascii.eqb c) s.
Proof.
  induction s as [|x s IH]; [reflexivity |].
  rewrite replace_char_cons, IH. simpl. destruct (Ascii.eqb c x); reflexivity.
Qed.

Lemma without_without f g s :
  without g (without f s) = without (fun c => f c || g c) s.
Proof.
  induction s as [|x s IH]; [reflexivity |]. simpl.
  destruct (f x); simpl; [exact IH |]. destruct (g x); now rewrite IH.
Qed.

Lemma without_ext f g s : (forall c, f c = g c) -> without f s = without g s.
Proof.
  intros H. induction s as [|x s IH]; [reflexivity |]. simpl. now rewrite H, IH.
Qed.

Lemma occurs_app_r sub a b j :
  occurs sub (a +:+ b) (String.length a + j) <-> occurs sub b j.
Proof.
  unfold occurs. rewrite drop_plus, length_app. split; intros [H1 H2]; (split; [lia | exact H2]).
Qed.

Lemma rfind_last a sub b :
  sub <> "" -> find b sub = -1 -> find (drop 1 (sub +:+ b)) sub = -1 ->
  rfind (a +:+ sub +:+ b) sub = len a.
Proof.
  intros Hsub Hb Hov.
  pose proof (rfind_occurs _ _ _ (occurs_app_mid a sub b)) as Hge.
  destruct (rfind_found (a +:+ sub +:+ b) sub) as (k & Hk & Ho & _); [lia |].
  rewrite Hk in *. unfold len.
  destruct (Nat.eq_dec k (String.length a)) as [-> | Hne]; [reflexivity | exfalso].
  replace k with (String.length a + S (k - String.length a - 1))%nat in Ho by lia.
  apply occurs_app_r in Ho. destruct Ho as [Hl Ho].
  rewrite find_absent in Hov.
  apply (Hov (k - String.length a - 1)%nat). split.
  - rewrite length_drop. lia.
  - destruct (sub +:+ b) eqn:E; [simpl in Hl; lia |]. exact Ho.
Qed.

(** *** Slices *)

Lemma slice_prefix a b : slice (a +:+ b) None (Some (len a)) = a.
Proof.
  unfold slice, clamp. pose proof (len_nonneg a). rewrite len_app.
  pose proof (len_nonneg b).
  destruct (len a <? 0) eqn:E; [lia |].
  replace (Z.to_nat (Z.min (len a) (len a + len b)) - 0)%nat with (String.length a)
    by (unfold len in *; lia).
  rewrite drop_0. apply take_app.
Qed.

Lemma slice_suffix a b hi :
  hi < 0 -> slice (a +:+ b) (Some (len a)) (Some hi) = slice b None (Some hi).
Proof.
  intros Hhi. unfold slice, clamp. pose proof (len_nonneg a). pose proof (len_nonneg b).
  rewrite len_app. destruct (len a <? 0) eqn:E; [lia |].
  destruct (hi <? 0) eqn:E2; [| lia].
  replace (Z.to_nat (Z.min (len a) (len a + len b))) with (String.length a)
    by (unfold len in *; lia).
  rewrite drop_app, drop_0. f_equal. unfold len in *. lia.
Qed.

End PyFacts.

(** * The empty-body filler *)

Section FillEmpty.
Import Py PyFacts.

Lemma strip_is_without codes :
  replace (replace (replace codes "{" "") "}" "") nl "" = without brace_or_newline codes.
Proof.
  unfold nl. rewrite !replace_char_without, !without_without. apply without_ext.
  intros c. unfold brace_or_newline. rewrite !(Ascii.eqb_sym c).
  now rewrite orb_assoc.
Qed.

Lemma replace_closing pre post ins :
  find post "}" = -1 ->
  replace (pre +:+ "}" +:+ post) "}" ins = replace pre "}" ins +:+ ins +:+ post.
Proof.
  intros H. rewrite !replace_char_app. f_equal.
  rewrite (replace_absent post) by (discriminate || exact H).
  rewrite replace_char_cons, replace_nil by discriminate.
  rewrite Ascii.eqb_refl. now rewrite sapp_nil_r.
Qed.

(** C7.  For a captured text and a span length of 1 or 2, [fillEmpty]
    reports a delta of 2 in both cases; and when [post] is what follows
    the last closing brace of the text, it puts a newline, the comment line
    (two spaces, [//], the captured text without braces and newlines) and
    a newline before that brace. *)
Theorem fillEmpty_inserts_placeholder codes line_num :
  line_num = 1 \/ line_num = 2 ->
  snd (fillEmpty codes line_num) = 2
  /\ forall pre post,
       codes = pre +:+ "}" +:+ post ->
       find post "}" = -1 ->
       let ins := nl +:+ "  //" +:+ without brace_or_newline codes +:+ nl +:+ "}" in
       fst (fillEmpty codes line_num) = replace pre "}" ins +:+ ins +:+ post.
Proof.
  intros Hn. split.
  - destruct Hn as [-> | ->]; reflexivity.
  - intros pre post Hc Hp ins. subst ins.
    destruct Hn as [-> | ->]; cbv beta iota zeta delta [fillEmpty Z.eqb Pos.eqb fst];
      rewrite strip_is_without; rewrite Hc at 1;
      rewrite (replace_closing pre post _ Hp); reflexivity.
Qed.

Lemma fillEmpty_inserts_placeholder_witness :
  snd (fillEmpty ("func f() {" +:+ nl +:+ "}" +:+ nl) 2) = 2
  /\ fst (fillEmpty ("func f() {" +:+ nl +:+ "}" +:+ nl) 2)
     = "func f() {" +:+ nl +:+ nl +:+ "  //func f() " +:+ nl +:+ "}" +:+ nl.
Proof.
  split.
  - apply (fillEmpty_inserts_placeholder ("func f() {" +:+ nl +:+ "}" +:+ nl) 2).
    right. reflexivity.
  - exact (proj2 (fillEmpty_inserts_placeholder ("func f() {" +:+ nl +:+ "}" +:+ nl) 2
                    (or_intror eq_refl))
             ("func f() {" +:+ nl) nl eq_refl eq_refl).
Defined.

End FillEmpty.

(** * The exception renamer *)

Section Rename.
Import Py PyFacts.

Lemma rename_shape codes pre post :
  replace codes "RuntimeException(" "MultiPathRuntimeError(" = pre +:+ "}" +:+ post ->
  find post "}" = -1 ->
  rename codes = pre +:+ str_java_exception +:+ slice ("}" +:+ post) None (Some (-1)).
Proof.
  intros Hr Hp. unfold rename. rewrite Hr.
  rewrite (rfind_last pre "}" post) by (discriminate || exact Hp).
  rewrite slice_prefix. f_equal. f_equal. apply slice_suffix. lia.
Qed.

(** C10.  When the file holds no [RuntimeException(] the renamer returns
    without writing.  Otherwise, with [pre] the renamed text up to its last
    closing brace and [post] what follows that brace, it writes [pre], the
    wrapper class, and the brace with [post] less the final character. *)
Theorem solve112_writes_renamed p st codes :
  files st !! replace1 (resource p) "/" "" = Some codes ->
  (find codes "RuntimeException(" < 0 -> solve112 p st = Returned st)
  /\ (forall pre post,
        0 <= find codes "RuntimeException(" ->
        replace codes "RuntimeException(" "MultiPathRuntimeError(" = pre +:+ "}" +:+ post ->
        find post "}" = -1 ->
        solve112 p st =
          Returned (write (replace1 (resource p) "/" "")
                      (pre +:+ str_java_exception +:+ slice ("}" +:+ post) None (Some (-1)))
                      st)).
Proof.
  intros Hf. unfold solve112. rewrite Hf. split.
  - intros H. apply Z.ltb_lt in H. now rewrite H.
  - intros pre post H Hr Hp. apply Z.ltb_ge in H. rewrite H.
    now rewrite (rename_shape codes pre post Hr Hp).
Qed.

(** Without a closing brace [rfind] gives [-1]: the wrapper class follows
    the renamed text, less its final character. *)
Example rename_without_brace :
  rename "throw new RuntimeException(1)"
  = "throw new MultiPathRuntimeError(1" +:+ str_java_exception.
Proof. reflexivity. Qed.

End Rename.

Lemma solve112_writes_renamed_witness :
  solve112 java_finding (one_file "A.java" thrower)
  = Returned (write "A.java"
                ("class A{void f(){throw new MultiPathRuntimeError(1);}" +:+ str_java_exception
                   +:+ "}")
                (one_file "A.java" thrower)).
Proof.
  apply (proj2 (solve112_writes_renamed java_finding (one_file "A.java" thrower) thrower
                  eq_refl)
           "class A{void f(){throw new MultiPathRuntimeError(1);}" Py.nl).
  - vm_compute. discriminate.
  - reflexivity.
  - reflexivity.
Defined.

(** * The literal extractor *)

Section Literal.
Import Py PyFacts.

Variable sample : nat -> string.

Lemma starts_before_char c x t X :
  c <> "" -> has_char x c = false ->
  starts c (X +:+ String x t) = true -> starts c X = true.
Proof.
  revert X. induction c as [|a c IH]; intros X Hc Hm H; [congruence |].
  simpl in Hm. apply orb_false_elim in Hm as [Hxa Hm].
  destruct X as [|b X]; simpl in H |- *.
  - rewrite Ascii.eqb_sym, Hxa in H. discriminate.
  - destruct (Ascii.eqb a b); [| discriminate].
    destruct c as [|a' c]; [reflexivity |]. apply IH; [discriminate | exact Hm | exact H].
Qed.

(** The constant prefix cannot start inside the text that ends a
    declaration unless it occurs in the literal itself. *)
Lemma no_prefix_in_tail literal j :
  find literal ("const " +:+ str_go_literal) < 0 ->
  ~ occurs ("const " +:+ str_go_literal) (literal +:+ quote +:+ nl) j.
Proof.
  intros Hl [Hj Ho]. apply find_neg in Hl. rewrite find_absent in Hl.
  destruct (Nat.le_gt_cases j (String.length literal)) as [Hle | Hgt].
  - rewrite drop_app_le in Ho by exact Hle.
    apply starts_before_char in Ho; [| discriminate | reflexivity].
    apply (Hl j). split; [exact Hle | exact Ho].
  - replace j with (String.length literal + (j - String.length literal))%nat in Ho by lia.
    rewrite drop_plus in Ho. rewrite length_app in Hj. simpl in Hj.
    destruct (j - String.length literal)%nat as [|[|[|n]]] eqn:E; try lia; discriminate.
Qed.

Lemma extract_shape codes literal d :
  extract codes literal (str_go_literal +:+ d) =
    ((replace codes (quote +:+ literal +:+ quote) (str_go_literal +:+ d) +:+ nl)
       +:+ ("const " +:+ str_go_literal) +:+ (d +:+ " = " +:+ quote))
      +:+ literal +:+ quote +:+ nl.
Proof. unfold extract. now rewrite !sapp_assoc. Qed.

Lemma guard_after_extract codes literal d :
  find literal ("const " +:+ str_go_literal) < 0 ->
  literal_guard (extract codes literal (str_go_literal +:+ d)) literal = true.
Proof.
  intros Hl. unfold literal_guard. rewrite extract_shape.
  set (R := replace codes _ _ +:+ nl).
  set (c := "const " +:+ str_go_literal).
  set (A := (R +:+ c +:+ d +:+ " = " +:+ quote)).
  set (out := A +:+ literal +:+ quote +:+ nl).
  assert (H1 : 0 <= find out literal) by apply (find_occurs _ _ _ (occurs_app_mid A literal _)).
  assert (H2 : Z.of_nat (String.length A) <= rfind out literal)
    by apply (rfind_occurs _ _ _ (occurs_app_mid A literal _)).
  assert (H3 : Z.of_nat (String.length R) <= rfind out c).
  { subst out A. rewrite !sapp_assoc. apply (rfind_occurs _ _ _ (occurs_app_mid R c _)). }
  assert (H4 : (1 <= String.length R)%nat).
  { subst R. rewrite length_app. simpl. lia. }
  assert (H5 : rfind out c < Z.of_nat (String.length A)).
  { destruct (rfind_found out c) as (k & Hk & Ho & _); [lia |]. rewrite Hk.
    destruct (Nat.lt_ge_cases k (String.length A)) as [Hlt | Hge]; [lia | exfalso].
    replace k with (String.length A + (k - String.length A))%nat in Ho by lia.
    apply occurs_app_r in Ho. now apply (no_prefix_in_tail literal _ Hl) in Ho. }
  apply orb_true_intro. right. apply andb_true_intro. split.
  - apply Z.gtb_lt. lia.
  - apply Z.ltb_lt. lia.
Qed.

(** C4 (amended).  For a literal that does not contain [const literal_],
    running the extractor again on a state it returned changes nothing:
    the second run returns the same state. *)
Theorem solve1192_second_run_noop p st st1 :
  find (getLiteral (message p)) ("const " +:+ str_go_literal) < 0 ->
  solve1192 sample p st = Returned st1 ->
  solve1192 sample p st1 = Returned st1.
Proof.
  intros Hl. unfold solve1192 at 1.
  destruct (files st !! resource p) as [codes|] eqn:Hf; [| discriminate].
  destruct (literal_guard codes (getLiteral (message p))) eqn:Hg.
  - intros [= <-]. unfold solve1192. now rewrite Hf, Hg.
  - intros [= <-]. unfold solve1192, write, set_draws. cbn [files].
    rewrite lookup_insert_eq.
    match goal with
    | |- context [literal_guard ?a ?b] =>
        replace (literal_guard a b) with true
          by (symmetry; apply (guard_after_extract codes _ (sample (draws st)) Hl))
    end.
    reflexivity.
Qed.

Lemma solve1192_writes_joined p st codes pieces :
  let literal := getLiteral (message p) in
  let quoted := quote +:+ literal +:+ quote in
  let literal_def := str_go_literal +:+ sample (draws st) in
  files st !! resource p = Some codes ->
  literal_guard codes literal = false ->
  codes = sep_join quoted pieces ->
  cut_by quoted pieces ->
  solve1192 sample p st =
    Returned (write (resource p)
                (sep_join literal_def pieces +:+ nl +:+ "const " +:+ literal_def +:+ " = "
                   +:+ quoted +:+ nl)
                (set_draws (S (draws st)) st)).
Proof.
  intros literal quoted literal_def Hf Hg Hc Hcut.
  unfold solve1192. rewrite Hf. fold literal. rewrite Hg. f_equal. f_equal.
  unfold extract. fold literal quoted literal_def. rewrite Hc.
  rewrite replace_join by (discriminate || exact Hcut).
  subst quoted. now rewrite !sapp_assoc.
Qed.

(** C3 (amended).  When the guard lets the finding through, the text is
    cut at every occurrence of the quoted literal met by the left-to-right
    scan, every one of them is replaced by the generated name, and one
    declaration of that name is appended after the text. *)
Theorem solve1192_replaces_every_occurrence p st codes :
  let literal := getLiteral (message p) in
  let quoted := quote +:+ literal +:+ quote in
  let literal_def := str_go_literal +:+ sample (draws st) in
  files st !! resource p = Some codes ->
  literal_guard codes literal = false ->
  exists pieces,
    cut_by quoted pieces
    /\ codes = sep_join quoted pieces
    /\ solve1192 sample p st =
         Returned (write (resource p)
                     (sep_join literal_def pieces +:+ nl +:+ "const " +:+ literal_def +:+ " = "
                        +:+ quoted +:+ nl)
                     (set_draws (S (draws st)) st)).
Proof.
  intros literal quoted literal_def Hf Hg.
  destruct (cut_exists quoted codes) as (pieces & Hcut & Hc); [discriminate |].
  exists pieces. split; [exact Hcut |]. split; [exact Hc |].
  exact (solve1192_writes_joined p st codes pieces Hf Hg Hc Hcut).
Qed.

End Literal.

Section LiteralExamples.
Import Py.

Lemma solve1192_replaces_every_occurrence_witness :
  exists pieces,
    cut_by (quote +:+ "x" +:+ quote) pieces
    /\ two_uses = sep_join (quote +:+ "x" +:+ quote) pieces
    /\ solve1192 same_digits (literal_finding "x") (one_file "a.go" two_uses)
       = Returned (write "a.go"
                     (sep_join "literal_0123" pieces +:+ nl +:+ "const literal_0123 = "
                        +:+ (quote +:+ "x" +:+ quote) +:+ nl)
                     (set_draws 1 (one_file "a.go" two_uses))).
Proof.
  apply (solve1192_replaces_every_occurrence same_digits (literal_finding "x")
           (one_file "a.go" two_uses) two_uses).
  - reflexivity.
  - reflexivity.
Defined.

(** C3 as stated fails: with two quoted occurrences, both are replaced,
    not only the first. *)
Lemma solve1192_first_only_counterexample :
  getLiteral (message (literal_finding "x")) = "x"
  /\ literal_guard two_uses "x" = false
  /\ files (final (solve1192 same_digits (literal_finding "x") (one_file "a.go" two_uses)))
       !! "a.go"
     = Some ("f(literal_0123) g(literal_0123)" +:+ nl +:+ declared_x)
  /\ replace1 two_uses (quote +:+ "x" +:+ quote) "literal_0123" +:+ declared_x
     = "f(literal_0123) g(" +:+ quote +:+ "x" +:+ quote +:+ ")" +:+ nl +:+ declared_x
  /\ "f(literal_0123) g(literal_0123)" +:+ nl +:+ declared_x
     <> replace1 two_uses (quote +:+ "x" +:+ quote) "literal_0123" +:+ declared_x.
Proof.
  split; [reflexivity |]. split; [reflexivity |]. split; [reflexivity |].
  split; [reflexivity |]. vm_compute. discriminate.
Qed.

Lemma solve1192_second_run_noop_witness :
  solve1192 same_digits (literal_finding "x")
    (final (solve1192 same_digits (literal_finding "x") (one_file "a.go" two_uses)))
  = Returned (final (solve1192 same_digits (literal_finding "x") (one_file "a.go" two_uses))).
Proof.
  apply (solve1192_second_run_noop same_digits (literal_finding "x") (one_file "a.go" two_uses)).
  - vm_compute. reflexivity.
  - reflexivity.
Defined.

(** C4 as stated fails: for the literal [const literal_] the guard of the
    second run does not trip, and the second run rewrites the text the
    first run produced. *)
Lemma solve1192_idempotence_counterexample :
  let p := literal_finding "const literal_" in
  let st1 := final (solve1192 same_digits p (one_file "a.go" prefix_use)) in
  getLiteral (message p) = "const literal_"
  /\ files st1 !! "a.go"
     = Some ("x := literal_0123" +:+ nl +:+ nl +:+ "const literal_0123 = " +:+ quote
               +:+ "const literal_" +:+ quote +:+ nl)
  /\ files (final (solve1192 same_digits p st1)) !! "a.go"
     = Some ("x := literal_0123" +:+ nl +:+ nl +:+ "const literal_0123 = literal_0123" +:+ nl
               +:+ nl +:+ "const literal_0123 = " +:+ quote +:+ "const literal_" +:+ quote +:+ nl)
  /\ files (final (solve1192 same_digits p st1)) <> files st1.
Proof.
  split; [reflexivity |]. split; [reflexivity |]. split; [reflexivity |].
  intros H. apply (f_equal (fun m => m !! "a.go")) in H. vm_compute in H. discriminate.
Qed.

End LiteralExamples.

(** * The main loop *)

Section Main.
Import Py.

(** C1 (amended).  The main loop hands the findings whose code is
    [go:S1192] to the literal extractor, in input order, and skips every
    other finding: the run is the run of [solve1192] over the findings
    with that code. *)
Theorem main_dispatches_S1192_only sample problems st :
  main sample problems st = run (solve1192 sample) (List.filter is_S1192 problems) st.
Proof.
  revert st. induction problems as [|p rest IH]; intros st; [reflexivity |].
  cbn [main List.filter]. unfold is_S1192 at 1.
  destruct (String.eqb (code p) "go:S1192"); [| apply IH].
  cbn [run]. destruct (solve1192 sample p st); [apply IH | reflexivity].
Qed.

(** C1 as stated fails: a finding with code [java:S112] is not handed to
    the exception renamer; the main loop leaves the file as it is, where
    the renamer would rewrite it. *)
Lemma main_skips_S112_counterexample :
  main same_digits [java_finding] (one_file "A.java" thrower)
  = Returned (one_file "A.java" thrower)
  /\ files (final (solve112 java_finding (one_file "A.java" thrower))) !! "A.java"
     = Some ("class A{void f(){throw new MultiPathRuntimeError(1);}" +:+ str_java_exception
               +:+ "}")
  /\ solve112 java_finding (one_file "A.java" thrower)
     <> main same_digits [java_finding] (one_file "A.java" thrower).
Proof.
  split; [reflexivity |]. split; [reflexivity |].
  intros H. apply (f_equal (fun o => files (final o) !! "A.java")) in H.
  vm_compute in H. discriminate.
Qed.

End Main.

(** * The function-boundary locator *)

Section Locator.
Import Py PyFacts.

Lemma item_nat {A} (l : list A) (j : Z) :
  0 <= j < Z.of_nat (length l) -> item l j = l !! Z.to_nat j.
Proof.
  intros H. unfold item, norm.
  destruct (0 <=? j) eqn:E1; [| lia]. destruct (j <? Z.of_nat (length l)) eqn:E2; [| lia].
  reflexivity.
Qed.

Lemma item_in_range {A} (l : list A) (j : Z) :
  0 <= j < Z.of_nat (length l) -> exists x, item l j = Some x.
Proof.
  intros H. rewrite item_nat by exact H.
  destruct (lookup_lt_is_Some_2 l (Z.to_nat j)) as [x Hx]; [lia | eauto].
Qed.

Lemma item_wraps {A} (l : list A) (j : Z) :
  - Z.of_nat (length l) <= j < 0 -> exists x, item l j = Some x.
Proof.
  intros H. unfold item, norm.
  destruct ((0 <=? j) && (j <? Z.of_nat (length l))) eqn:E1; [lia |].
  destruct ((- Z.of_nat (length l) <=? j) && (j <? 0)) eqn:E2; [| lia].
  simpl. destruct (lookup_lt_is_Some_2 l (Z.to_nat (Z.of_nat (length l) + j))) as [x Hx];
    [lia | eauto].
Qed.

Lemma item_Forall {A} (P : A -> Prop) (l : list A) (j : Z) x :
  Forall P l -> item l j = Some x -> P x.
Proof.
  intros HF H. unfold item in H. destruct (norm _ j) as [k|]; [| discriminate].
  simpl in H. rewrite Forall_lookup in HF. eauto.
Qed.

Lemma getitem_Ok lines j line : getitem lines j = Ok line <-> item lines j = Some line.
Proof.
  unfold getitem. destruct (item lines j); split; intros H; congruence.
Qed.

Lemma item_getitem lines j line : item lines j = Some line -> getitem lines j = Ok line.
Proof. apply getitem_Ok. Qed.

Lemma getchar_first c s : getchar (String c s) 0 = Ok c.
Proof. reflexivity. Qed.

(** The backward loop stops at the nearest line at or before [start] that
    holds the marker, or at [-1]. *)
Lemma findCodes_back_spec lines n start :
  Z.of_nat n = start + 1 -> start < Z.of_nat (length lines) ->
  exists s, findCodes_back n lines start = Ok s
    /\ ((s = -1 /\ forall j line, 0 <= j <= start -> item lines j = Some line ->
                     find line "func " < 0)
        \/ (0 <= s <= start
            /\ (exists line, item lines s = Some line /\ 0 <= find line "func ")
            /\ forall j line, s < j <= start -> item lines j = Some line ->
                 find line "func " < 0)).
Proof.
  revert start. induction n as [|n IH]; intros start Hn Hlen.
  - exists start. split; [reflexivity |]. left. split; [lia |]. intros; lia.
  - cbn [findCodes_back]. destruct (start >=? 0) eqn:E; [| lia].
    destruct (item_in_range lines start) as [line Hline]; [lia |].
    rewrite (item_getitem _ _ _ Hline). cbn [bind].
    destruct (find line "func " >=? 0) eqn:Ef.
    + exists start. split; [reflexivity |]. right. split; [lia |]. split.
      * exists line. split; [exact Hline | lia].
      * intros; lia.
    + destruct (IH (start - 1)) as (s & Hs & Hcases); [lia | lia |].
      exists s. split; [exact Hs |].
      assert (Hhere : forall j l, j = start -> item lines j = Some l -> find l "func " < 0).
      { intros j l -> Hl. rewrite Hline in Hl. injection Hl as <-. lia. }
      destruct Hcases as [[-> Hall] | (Hr & Hm & Hall)].
      * left. split; [reflexivity |]. intros j l Hj Hl.
        destruct (Z.eq_dec j start) as [Heq | Hne]; [eauto |]. apply (Hall j l); [lia | exact Hl].
      * right. split; [lia |]. split; [exact Hm |]. intros j l Hj Hl.
        destruct (Z.eq_dec j start) as [Heq | Hne]; [eauto |]. apply (Hall j l); [lia | exact Hl].
Qed.

(** On lines as [readlines] yields them (none empty) the forward loop
    raises nothing. *)
Lemma findCodes_fwd_total lines n pos codes :
  Forall (fun l => l <> "") lines -> 0 <= pos ->
  exists pos' codes', findCodes_fwd n lines pos codes = Ok (pos', codes')
                      /\ pos <= pos' <= Z.max pos (Z.of_nat (length lines)).
Proof.
  intros HF. revert pos codes. induction n as [|n IH]; intros pos codes Hpos.
  - exists pos, codes. split; [reflexivity | lia].
  - cbn [findCodes_fwd]. destruct (pos <? Z.of_nat (length lines)) eqn:E.
    + destruct (item_in_range lines pos) as [line Hline]; [lia |].
      rewrite (item_getitem _ _ _ Hline). cbn [bind].
      assert (Hne : line <> "") by apply (item_Forall _ _ _ _ HF Hline).
      destruct line as [|c line']; [congruence |].
      rewrite getchar_first. cbn [bind].
      destruct (Ascii.eqb c "}").
      * eexists _, _. split; [reflexivity | lia].
      * destruct (IH (pos + 1) (codes +:+ String c line')) as (p' & c' & H & Hr); [lia |].
        exists p', c'. split; [exact H | lia].
    + exists pos, codes. split; [reflexivity | lia].
Qed.

(** C2.  For a candidate index inside the file, [findCodes] returns a
    triple whose first component is the index of the nearest line at or
    before the candidate that holds [func ]; when no such line exists the
    first component is [-1], which is the index of no line (the other two
    components are then computed from the last line of the file, which is
    what [lines[-1]] reads). *)
Theorem findCodes_scans_backward lines cand :
  0 <= cand < Z.of_nat (length lines) ->
  Forall (fun l => l <> "") lines ->
  exists start line_num codes,
    findCodes lines cand = Ok (start, line_num, codes)
    /\ ((start = -1
         /\ forall j line, 0 <= j <= cand -> item lines j = Some line ->
              find line "func " < 0)
        \/ (0 <= start <= cand
            /\ (exists line, item lines start = Some line /\ 0 <= find line "func ")
            /\ forall j line, start < j <= cand -> item lines j = Some line ->
                 find line "func " < 0)).
Proof.
  intros Hc HF. unfold findCodes.
  destruct (findCodes_back_spec lines (Z.to_nat (cand + 1)) cand) as (s & Hs & Hcases);
    [lia | lia |].
  rewrite Hs. cbn [bind].
  assert (Hrange : -1 <= s < Z.of_nat (length lines)) by (destruct Hcases; lia).
  assert (Hitem : exists first, item lines s = Some first).
  { destruct (Z_lt_le_dec s 0); [apply item_wraps | apply item_in_range]; lia. }
  destruct Hitem as [first Hfirst]. rewrite (item_getitem _ _ _ Hfirst). cbn [bind].
  destruct (find first "}" >? 0).
  - exists s, 1, first. split; [reflexivity | exact Hcases].
  - destruct (findCodes_fwd_total lines (Z.to_nat (Z.of_nat (length lines) - (s + 1)))
                (s + 1) first HF) as (pos & codes & Hf & _); [lia |].
    rewrite Hf. cbn [bind]. exists s, (pos - s + 1), codes.
    split; [reflexivity | exact Hcases].
Qed.

Lemma findCodes_scans_backward_witness :
  exists start line_num codes,
    findCodes ["x := 1" +:+ nl; "}" +:+ nl] 1 = Ok (start, line_num, codes)
    /\ ((start = -1
         /\ forall j line, 0 <= j <= 1 -> item ["x := 1" +:+ nl; "}" +:+ nl] j = Some line ->
              find line "func " < 0)
        \/ (0 <= start <= 1
            /\ (exists line, item ["x := 1" +:+ nl; "}" +:+ nl] start = Some line
                             /\ 0 <= find line "func ")
            /\ forall j line, start < j <= 1 ->
                 item ["x := 1" +:+ nl; "}" +:+ nl] j = Some line -> find line "func " < 0)).
Proof.
  apply (findCodes_scans_backward ["x := 1" +:+ nl; "}" +:+ nl] 1).
  - simpl. lia.
  - repeat constructor; discriminate.
Defined.

End Locator.

(** * The block reducer *)

Section Reducer.
Import Py PyFacts.

Lemma pending_reset cur s : (1 <= count_nl s)%nat -> pending cur s = pending "" s.
Proof.
  revert cur. induction s as [|c s IH]; intros cur H; simpl in *; [lia |].
  destruct (Ascii.eqb c "010"); [reflexivity |].
  transitivity (pending "" s); [apply IH | symmetry; apply IH]; exact H.
Qed.

Lemma pending_app cur a b : pending cur (a +:+ b) = pending (pending cur a) b.
Proof.
  revert cur. induction a as [|c a IH]; intros cur; simpl; [reflexivity |].
  destruct (Ascii.eqb c "010"); apply IH.
Qed.

Lemma pending_line cur a line :
  terminated line = true -> pending cur (a +:+ line) = "".
Proof.
  unfold terminated. intros H. apply andb_true_iff in H as [H1 H2].
  apply Nat.eqb_eq in H1. apply String.eqb_eq in H2.
  rewrite pending_app, pending_reset by lia. exact H2.
Qed.

Lemma readlines_from_length cur s :
  length (readlines_from cur s)
  = (count_nl s + match pending cur s with "" => 0 | _ => 1 end)%nat.
Proof.
  revert cur. induction s as [|c s IH]; intros cur; simpl.
  - now destruct cur.
  - destruct (Ascii.eqb c "010"); simpl; now rewrite IH.
Qed.

Lemma readlines_length s :
  pending "" s = "" -> length (readlines s) = count_nl s.
Proof.
  intros H. unfold readlines. rewrite readlines_from_length, H. lia.
Qed.

Lemma readlines_from_join cur s : join (readlines_from cur s) = cur +:+ s.
Proof.
  revert cur. induction s as [|c s IH]; intros cur; cbn [readlines_from].
  - destruct cur; [reflexivity |]. cbn [join fold_right]. now rewrite !sapp_nil_r.
  - destruct (Ascii.eqb_spec c "010") as [-> | Hne].
    + cbn [join fold_right]. fold (join (readlines_from "" s)). rewrite IH.
      now rewrite sapp_assoc.
    + rewrite IH. now rewrite sapp_assoc.
Qed.

(** Reading a text as lines loses nothing, and yields no empty line. *)
Lemma readlines_join s : join (readlines s) = s.
Proof. apply readlines_from_join. Qed.

Lemma readlines_from_nonempty cur s : Forall (fun l => l <> "") (readlines_from cur s).
Proof.
  revert cur. induction s as [|c s IH]; intros cur; cbn [readlines_from].
  - destruct cur; constructor; [discriminate | constructor].
  - destruct (Ascii.eqb c "010"); [| apply IH]. constructor; [| apply IH].
    destruct cur; discriminate.
Qed.

Lemma readlines_nonempty s : Forall (fun l => l <> "") (readlines s).
Proof. apply readlines_from_nonempty. Qed.

Lemma count_nl_tabs n : count_nl (Py.repeat tab n) = O.
Proof. induction n as [|n IH]; [reflexivity | exact IH]. Qed.

Lemma count_nl_segment lines index k :
  (forall j, index <= j < index + Z.of_nat k ->
     exists line, item lines j = Some line /\ terminated line = true) ->
  count_nl (segment lines index k) = k.
Proof.
  revert index. induction k as [|k IH]; intros index H; [reflexivity |].
  cbn [segment]. destruct (H index) as (line & Hl & Ht); [lia |].
  rewrite Hl, count_nl_app, IH by (intros j Hj; apply H; lia).
  unfold terminated in Ht. apply andb_true_iff in Ht as [Ht _].
  apply Nat.eqb_eq in Ht. lia.
Qed.

Lemma opens_item lines index o :
  opens lines index = Ok o -> exists line, getitem lines index = Ok line.
Proof.
  unfold opens. destruct (getitem lines index) as [line|]; [eauto | discriminate].
Qed.

(** [findEndIf] on a block that closes at [last], and on one that does
    not close before [end_]. *)
Lemma findEndIf_loop_found lines col end_ n index last codes if_lines :
  index <= last < end_ -> last - index < Z.of_nat n ->
  (forall j, index <= j < last ->
     exists line, getitem lines j = Ok line /\ closes line col = Ok false) ->
  (exists line, getitem lines last = Ok line /\ closes line col = Ok true) ->
  findEndIf_loop n lines col index end_ codes if_lines
  = Ok (codes +:+ segment lines index (Z.to_nat (last - index + 1)), if_lines + (last - index)).
Proof.
  revert index codes if_lines. induction n as [|n IH]; intros index codes if_lines Hi Hn Hno Hyes;
    [lia |].
  cbn [findEndIf_loop]. destruct (index <? end_) eqn:E; [| lia].
  destruct (Z.eq_dec index last) as [-> | Hne].
  - destruct Hyes as (line & Hl & Hc). rewrite Hl. cbn [bind]. rewrite Hc. cbn [bind].
    replace (Z.to_nat (last - last + 1)) with 1%nat by lia. cbn [segment].
    apply getitem_Ok in Hl. rewrite Hl, sapp_nil_r. do 2 f_equal. lia.
  - destruct (Hno index) as (line & Hl & Hc); [lia |]. rewrite Hl. cbn [bind].
    rewrite Hc. cbn [bind]. rewrite (IH (index + 1)); try lia.
    + replace (Z.to_nat (last - index + 1)) with (S (Z.to_nat (last - (index + 1) + 1))) by lia.
      cbn [segment]. apply getitem_Ok in Hl. rewrite Hl, sapp_assoc. do 2 f_equal. lia.
    + intros j Hj. apply Hno. lia.
    + exact Hyes.
Qed.

Lemma findEndIf_loop_missing lines col end_ n index codes if_lines :
  (forall j, index <= j < end_ ->
     exists line, getitem lines j = Ok line /\ closes line col = Ok false) ->
  exists codes', findEndIf_loop n lines col index end_ codes if_lines = Ok (codes', -1).
Proof.
  revert index codes if_lines. induction n as [|n IH]; intros index codes if_lines Hno.
  - eexists. reflexivity.
  - cbn [findEndIf_loop]. destruct (index <? end_) eqn:E; [| eexists; reflexivity].
    destruct (Hno index) as (line & Hl & Hc); [lia |].
    rewrite Hl. cbn [bind]. rewrite Hc. cbn [bind]. apply IH.
    intros j Hj. apply Hno. lia.
Qed.

(** What the loop of [reduceComplexity] returns along a scan. *)
Lemma reduceComplexity_loop_scan lines end_ index r :
  Scan lines end_ index r ->
  forall n new_code new_lines,
    end_ - index <= Z.of_nat n ->
    exists code,
      reduceComplexity_loop n lines end_ index new_code new_lines
      = Ok (code, scan_status r, scan_delta new_lines r)
      /\ forall N, r = Some N -> index <= end_ ->
           (forall j, index <= j < end_ ->
              exists line, item lines j = Some line /\ terminated line = true) ->
           pending "" new_code = "" ->
           pending "" code = ""
           /\ Z.of_nat (count_nl code)
              = Z.of_nat (count_nl new_code) + (end_ - index) + 2 * Z.of_nat N.
Proof.
  induction 1 as [index Hend | index r Hlt Hop _ IH | index col last r Hr Hop Hno Hyes _ IH
                 | index col Hlt Hop Hno]; intros n new_code new_lines Hn.
  - exists new_code. split.
    + assert (Hd : scan_delta new_lines (Some O) = new_lines) by (cbn [scan_delta]; lia).
      rewrite Hd. destruct n; cbn [reduceComplexity_loop]; [reflexivity |].
      destruct (index <? end_) eqn:E; [lia | reflexivity].
    + intros N [= <-] Hi _ Hp. split; [exact Hp | lia].
  - destruct n as [|n]; [lia |]. cbn [reduceComplexity_loop].
    destruct (index <? end_) eqn:E; [| lia]. rewrite Hop. cbn [bind].
    destruct (opens_item _ _ _ Hop) as [line Hl]. rewrite Hl. cbn [bind].
    destruct (IH n (new_code +:+ line) new_lines) as (code & Hcode & Hcount); [lia |].
    exists code. split; [exact Hcode |].
    intros N HN Hi Hterm Hp.
    destruct (Hterm index) as (line' & Hl' & Ht); [lia |].
    apply getitem_Ok in Hl. rewrite Hl in Hl'. injection Hl' as <-.
    destruct (Hcount N HN) as [Hp' Hc']; [lia | intros j Hj; apply Hterm; lia
                                          | now apply pending_line |].
    split; [exact Hp' |]. rewrite Hc', count_nl_app.
    unfold terminated in Ht. apply andb_true_iff in Ht as [Ht _]. apply Nat.eqb_eq in Ht. lia.
  - destruct n as [|n]; [lia |]. cbn [reduceComplexity_loop].
    destruct (index <? end_) eqn:E; [| lia]. rewrite Hop. cbn [bind].
    unfold findEndIf. rewrite (findEndIf_loop_found lines col end_ _ index last "" 1)
      by (try lia; assumption).
    cbn [bind]. destruct (1 + (last - index) <? 0) eqn:E2; [lia |].
    set (body := replace (replace ("" +:+ segment lines index (Z.to_nat (last - index + 1)))
                            "/*" "") "*/" "").
    set (code1 := (new_code +:+ mul tab col +:+ "/*" +:+ nl) +:+ body
                    +:+ mul tab col +:+ "*/" +:+ nl).
    destruct (IH n code1 (new_lines + 1 + 1)) as (code & Hcode & Hcount); [lia |].
    replace (index + (1 + (last - index))) with (last + 1) by lia.
    exists code. split.
    + rewrite Hcode. destruct r as [N|]; cbn [option_map scan_status scan_delta];
        [do 2 f_equal; lia | reflexivity].
    + intros N HN Hi Hterm Hp. destruct r as [N'|]; [| discriminate].
      injection HN as <-.
      assert (Hp1 : pending "" code1 = "").
      { subst code1. rewrite <- !sapp_assoc. rewrite pending_app. reflexivity. }
      destruct (Hcount N' eq_refl) as [Hp' Hc'];
        [lia | intros j Hj; apply Hterm; lia | exact Hp1 |].
      split; [exact Hp' |]. rewrite Hc'. subst code1 body.
      rewrite !count_nl_app, !count_nl_replace by (discriminate || reflexivity).
      unfold mul. rewrite !count_nl_tabs. cbn [String.append].
      rewrite count_nl_segment by (intros j Hj; apply Hterm; lia).
      simpl count_nl. lia.
  - destruct n as [|n]; [lia |]. cbn [reduceComplexity_loop].
    destruct (index <? end_) eqn:E; [| lia]. rewrite Hop. cbn [bind].
    unfold findEndIf.
    destruct (findEndIf_loop_missing lines col end_ (Z.to_nat (end_ - index)) index "" 1)
      as [codes' Hc].
    { exact Hno. }
    rewrite Hc. cbn [bind]. eexists. split; [reflexivity |]. intros N [=].
Qed.

(** C6 (amended).  When the scan of a span of [line_num] lines wraps [N]
    blocks, each closed before the end of the span, the reducer reports a
    delta of [2 * N]; and when every line of the span is terminated by a
    newline the rewritten span reads back as [line_num + 2 * N] lines. *)
Theorem reduceComplexity_adds_two_lines_per_block lines start line_num N :
  0 <= line_num ->
  Scan lines (start + line_num) start (Some N) ->
  exists code,
    reduceComplexity lines start line_num = Ok (code, 1, 2 * Z.of_nat N)
    /\ ((forall j, start <= j < start + line_num ->
           exists line, item lines j = Some line /\ terminated line = true) ->
        Z.of_nat (length (readlines code)) = line_num + 2 * Z.of_nat N).
Proof.
  intros Hn Hscan. unfold reduceComplexity.
  destruct (reduceComplexity_loop_scan _ _ _ _ Hscan (Z.to_nat line_num) "" 0)
    as (code & Hcode & Hcount); [lia |].
  exists code. split; [exact Hcode |]. intros Hterm.
  destruct (Hcount N eq_refl) as [Hp Hc]; [lia | exact Hterm | reflexivity |].
  rewrite readlines_length by exact Hp. rewrite Hc. simpl count_nl. lia.
Qed.

Lemma stacked_ifs_scan : Scan stacked_ifs 6 0 (Some 2%nat).
Proof.
  apply Scan_plain; [lia | reflexivity |].
  apply (Scan_wrap stacked_ifs 6 1 3 2 (Some 1%nat)); [lia | reflexivity | | |].
  { intros j Hj. assert (j = 1) as -> by lia. eexists. split; reflexivity. }
  { eexists. split; reflexivity. }
  apply (Scan_wrap stacked_ifs 6 3 3 4 (Some 0%nat)); [lia | reflexivity | | |].
  { intros j Hj. assert (j = 3) as -> by lia. eexists. split; reflexivity. }
  { eexists. split; reflexivity. }
  apply Scan_plain; [lia | reflexivity |].
  apply Scan_end. lia.
Qed.

Lemma reduceComplexity_adds_two_lines_per_block_witness :
  exists code,
    reduceComplexity stacked_ifs 0 6 = Ok (code, 1, 4)
    /\ Z.of_nat (length (readlines code)) = 10.
Proof.
  destruct (reduceComplexity_adds_two_lines_per_block stacked_ifs 0 6 2)
    as (code & Hcode & Hcount); [lia | exact stacked_ifs_scan |].
  exists code. split; [exact Hcode |]. apply Hcount.
  intros j Hj.
  assert (j = 0 \/ j = 1 \/ j = 2 \/ j = 3 \/ j = 4 \/ j = 5) as Hcases by lia.
  destruct Hcases as [-> | [-> | [-> | [-> | [-> | ->]]]]]; eexists; split; reflexivity.
Defined.

(** C6 as stated fails.  In [nested_ifs] two lines qualify, each closed at
    its own column before the end of the span, the second inside the block
    of the first: only the outer block is wrapped, the delta is 2 and the
    span grows from 6 to 8 lines.  In [open_ended] the closing line has no
    newline: the closing delimiter lands on the same line, and the span
    grows from 2 to 3 lines for a delta of 2. *)
Lemma reduceComplexity_nested_counterexample :
  List.filter (qualifying nested_ifs) (span 0 6) = [1; 2]
  /\ List.filter (matched_if nested_ifs 6) (span 0 6) = [1; 2]
  /\ (exists code,
        reduceComplexity nested_ifs 0 6 = Ok (code, 1, 2)
        /\ Z.of_nat (length (readlines code)) = 8
        /\ 2 <> 2 * Z.of_nat (length (List.filter (matched_if nested_ifs 6) (span 0 6)))
        /\ 8 <> 6 + 2 * Z.of_nat (length (List.filter (matched_if nested_ifs 6) (span 0 6))))
  /\ List.filter (matched_if open_ended 2) (span 0 2) = [0]
  /\ exists code,
       reduceComplexity open_ended 0 2 = Ok (code, 1, 2)
       /\ Z.of_nat (length (readlines code)) = 3
       /\ 3 <> 2 + 2 * Z.of_nat (length (List.filter (matched_if open_ended 2) (span 0 2))).
Proof.
  split; [reflexivity |]. split; [reflexivity |]. split; [| split; [reflexivity |]].
  - eexists. split; [reflexivity |]. split; [reflexivity |]. split; vm_compute; discriminate.
  - eexists. split; [reflexivity |]. split; [reflexivity |]. vm_compute; discriminate.
Qed.

End Reducer.

(** * The complexity-suppression driver and the ledger *)

Section Ledger.
Import Py PyFacts.

Variable md5 : string -> string.

Lemma offset_of_insert d key v k :
  offset_of (<[key := v]> d) k = if decide (key = k) then v else offset_of d k.
Proof.
  unfold offset_of. rewrite lookup_insert. destruct (decide (key = k)); reflexivity.
Qed.

(** Opening the ledger changes no offset: an absent key is created with
    the value it read as. *)
Lemma ledger_open_spec key st :
  fst (ledger_open key st) = offset_of (lines_dict st) key
  /\ files (snd (ledger_open key st)) = files st
  /\ log (snd (ledger_open key st)) = log st
  /\ lines_dict (snd (ledger_open key st)) !! key = Some (offset_of (lines_dict st) key)
  /\ forall k, offset_of (lines_dict (snd (ledger_open key st))) k = offset_of (lines_dict st) k.
Proof.
  unfold ledger_open, offset_of. destruct (lines_dict st !! key) as [v|] eqn:E; cbn.
  - rewrite E. repeat split; reflexivity.
  - repeat split; try reflexivity; [apply lookup_insert_eq |].
    intros k. rewrite lookup_insert. destruct (decide (key = k)) as [<- | Hne]; [| reflexivity].
    now rewrite E.
Qed.

Lemma findCodes_start_in_file lines cand start line_num codes :
  findCodes lines cand = Ok (start, line_num, codes) -> start < Z.of_nat (length lines).
Proof.
  unfold findCodes. destruct (findCodes_back _ lines cand) as [s|]; [| discriminate].
  cbn [bind]. destruct (getitem lines s) as [first|] eqn:E; [| discriminate].
  cbn [bind]. assert (Hs : s < Z.of_nat (length lines)).
  { apply getitem_Ok in E. unfold item, norm in E.
    destruct ((0 <=? s) && (s <? Z.of_nat (length lines))) eqn:E1; [lia |].
    destruct ((- Z.of_nat (length lines) <=? s) && (s <? 0)) eqn:E2; [lia | discriminate]. }
  destruct (find first "}" >? 0); [intros [= <- _ _]; exact Hs |].
  destruct (findCodes_fwd _ lines (s + 1) first) as [[pos c]|]; [| discriminate].
  cbn [bind]. intros [= <- _ _]. exact Hs.
Qed.

(** Once the reducer signals failure, the copy loop ends without a text
    to write. *)
Lemma solve3776_loop_abort lines start line_num tmp status delta :
  reduceComplexity lines start line_num = Ok (tmp, status, delta) -> status < 0 ->
  start < Z.of_nat (length lines) ->
  forall n index new_codes add_lines,
    0 <= index <= start -> start - index < Z.of_nat n ->
    solve3776_loop n lines start line_num index new_codes add_lines = Ok ExitTest
    \/ solve3776_loop n lines start line_num index new_codes add_lines = Ok ExitAbort.
Proof.
  intros Hred Hst Hlen. induction n as [|n IH]; intros index new_codes add_lines Hi Hn; [lia |].
  cbn [solve3776_loop]. destruct (index <? Z.of_nat (length lines)) eqn:E; [| lia].
  destruct (item_in_range lines index) as [line Hl]; [lia |].
  rewrite (item_getitem _ _ _ Hl). cbn [bind].
  destruct ((find line "package" >=? 0) && (find line "test" >=? 0)); [now left |].
  destruct (index =? start) eqn:Es.
  - rewrite Hred. cbn [bind]. destruct (status <? 0) eqn:E3; [now right | lia].
  - apply IH; lia.
Qed.

Lemma run_cons_returned (drv : problem -> state -> outcome) p rest st st' :
  drv p st = Returned st' -> run drv (p :: rest) st = run drv rest st'.
Proof. intros H. cbn [run]. now rewrite H. Qed.

(** When every line of the located span exists and the scan meets a
    qualifying line with no closing line before the end of the span,
    [findEndIf] returns its failure signal and the driver returns without
    writing: the files and every ledger offset are as before, and the run
    goes on with the next finding. *)
Lemma solve3776_aborts_without_writing p st text start line_num codes rest :
  let file_path := replace1 (resource p) "/" "" in
  let lines := readlines text in
  files st !! file_path = Some text ->
  findCodes lines (offset_of (lines_dict st) (md5 file_path) + startLineNumber p - 1)
    = Ok (start, line_num, codes) ->
  0 <= start ->
  Scan lines (start + line_num) start None ->
  exists st',
    solve3776 md5 p st = Returned st'
    /\ files st' = files st
    /\ (forall key, offset_of (lines_dict st') key = offset_of (lines_dict st) key)
    /\ run (solve3776 md5) (p :: rest) st = run (solve3776 md5) rest st'.
Proof.
  intros file_path lines Hfile Hfind Hstart Hscan.
  assert (Hex : exists st', solve3776 md5 p st = Returned st' /\ files st' = files st
              /\ forall key, offset_of (lines_dict st') key = offset_of (lines_dict st) key).
  { unfold solve3776. fold file_path.
    destruct (find file_path "test" >=? 0).
    { eexists. split; [reflexivity |]. split; reflexivity. }
    destruct (ledger_open_spec (md5 file_path) st) as (Ho & Hf & _ & _ & Hoff).
    destruct (ledger_open (md5 file_path) st) as [offset st1]. cbn [fst snd] in *.
    cbn [emit files]. rewrite Hf, Hfile. fold lines. subst offset. rewrite Hfind.
    destruct (reduceComplexity_loop_scan _ _ _ _ Hscan (Z.to_nat line_num) "" 0)
      as (tmp & Hred & _); [lia |].
    cbn [scan_status scan_delta] in Hred.
    pose proof (findCodes_start_in_file _ _ _ _ _ Hfind) as Hlen.
    destruct (solve3776_loop_abort lines start line_num tmp (-1) 0 Hred) with
      (n := length lines) (index := 0) (new_codes := "") (add_lines := 0) as [Hl | Hl];
      try lia.
    - rewrite Hl. eexists. split; [reflexivity |]. split; [exact Hf | exact Hoff].
    - rewrite Hl. eexists. split; [reflexivity |]. split; [exact Hf | exact Hoff]. }
  destruct Hex as (st' & Hret & Hf & Hoff). exists st'.
  repeat split; try assumption. now apply run_cons_returned.
Qed.

(** *** Findings on test files *)

Lemma get_in_range s k : (k < String.length s)%nat -> exists c, String.get k s = Some c.
Proof.
  revert k. induction s as [|x s IH]; intros k H; simpl in H; [lia |].
  destruct k as [|k]; simpl; [eauto | apply IH; lia].
Qed.

Lemma closes_total line col : 0 <= col -> exists b, closes line col = Ok b.
Proof.
  intros Hc. unfold closes. destruct (len line >? col) eqn:E; [| eauto].
  unfold getchar, char_at, norm.
  destruct ((0 <=? col) && (col <? len line)) eqn:E1; [| lia]. cbn [mbind option_bind].
  destruct (get_in_range line (Z.to_nat col)) as [c Hget]; [unfold len in *; lia |].
  rewrite Hget. cbn [bind]. eauto.
Qed.

Lemma opens_total lines index :
  0 <= index < Z.of_nat (length lines) ->
  exists o, opens lines index = Ok o /\ forall col, o = Some col -> 3 <= col.
Proof.
  intros Hi. unfold opens.
  destruct (item_in_range lines index Hi) as [line Hl].
  rewrite (item_getitem _ _ _ Hl). cbn [bind].
  destruct ((find line "if " >=? 3) && (find line "else " <? 0) && (find line "//" <? 0)) eqn:E.
  - assert (Hprev : exists prev, item lines (index - 1) = Some prev).
    { destruct (Z.eq_dec index 0) as [-> | Hne]; [apply item_wraps | apply item_in_range]; lia. }
    destruct Hprev as [prev Hp]. rewrite (item_getitem _ _ _ Hp). cbn [bind].
    eexists. split; [reflexivity |]. intros col Hcol.
    destruct (find prev "/*" <? 0); [| discriminate]. injection Hcol as <-. lia.
  - eexists. split; [reflexivity |]. intros col [=].
Qed.

Lemma findEndIf_loop_total lines col end_ n index codes if_lines :
  0 <= col -> 0 <= index -> end_ <= Z.of_nat (length lines) -> 1 <= if_lines ->
  exists codes' l, findEndIf_loop n lines col index end_ codes if_lines = Ok (codes', l)
                   /\ (l = -1 \/ 1 <= l).
Proof.
  intros Hc. revert index codes if_lines.
  induction n as [|n IH]; intros index codes if_lines Hi Hn Hl.
  - eexists _, _. split; [reflexivity | now left].
  - cbn [findEndIf_loop]. destruct (index <? end_) eqn:E.
    2: { eexists _, _. split; [reflexivity | now left]. }
    destruct (item_in_range lines index) as [line Hline]; [lia |].
    rewrite (item_getitem _ _ _ Hline). cbn [bind].
    destruct (closes_total line col Hc) as [b Hb]. rewrite Hb. cbn [bind]. destruct b.
    + eexists _, _. split; [reflexivity | now right].
    + apply IH; lia.
Qed.

Lemma reduceComplexity_loop_total lines n end_ index new_code new_lines :
  0 <= index -> end_ <= Z.of_nat (length lines) ->
  exists r, reduceComplexity_loop n lines end_ index new_code new_lines = Ok r.
Proof.
  intros Hi He. revert index new_code new_lines Hi.
  induction n as [|n IH]; intros index new_code new_lines Hi; [eexists; reflexivity |].
  cbn [reduceComplexity_loop]. destruct (index <? end_) eqn:E; [| eexists; reflexivity].
  destruct (opens_total lines index) as (o & Ho & Hcol); [lia |]. rewrite Ho. cbn [bind].
  destruct o as [col|].
  - unfold findEndIf.
    destruct (findEndIf_loop_total lines col end_ (Z.to_nat (end_ - index)) index "" 1)
      as (codes & l & Hf & Hl); try lia; [specialize (Hcol col eq_refl); lia |].
    rewrite Hf. cbn [bind]. destruct (l <? 0) eqn:E2; [eexists; reflexivity |].
    apply IH. lia.
  - destruct (item_in_range lines index) as [line Hline]; [lia |].
    rewrite (item_getitem _ _ _ Hline). cbn [bind]. apply IH. lia.
Qed.

Lemma findCodes_fwd_mono lines n pos codes pos' codes' :
  findCodes_fwd n lines pos codes = Ok (pos', codes') -> pos <= pos'.
Proof.
  revert pos codes. induction n as [|n IH]; intros pos codes; cbn [findCodes_fwd].
  - intros [= <- _]. lia.
  - destruct (pos <? Z.of_nat (length lines)); [| intros [= <- _]; lia].
    destruct (getitem lines pos) as [line|]; [| discriminate]. cbn [bind].
    destruct (getchar line 0) as [c|]; [| discriminate]. cbn [bind].
    destruct (Ascii.eqb c "}"); [intros [= <- _]; lia |].
    intros H. apply IH in H. lia.
Qed.

Lemma findCodes_line_num lines cand start line_num codes :
  findCodes lines cand = Ok (start, line_num, codes) -> 1 <= line_num.
Proof.
  unfold findCodes. destruct (findCodes_back _ lines cand) as [s|]; [| discriminate].
  cbn [bind]. destruct (getitem lines s) as [first|]; [| discriminate]. cbn [bind].
  destruct (find first "}" >? 0); [intros [= _ <- _]; lia |].
  destruct (findCodes_fwd _ lines (s + 1) first) as [[pos c]|] eqn:E; [| discriminate].
  cbn [bind]. intros [= _ <- _]. apply findCodes_fwd_mono in E. lia.
Qed.

(** A line with [package] and [test] that the copy loop visits ends the
    loop without a text to write. *)
Lemma solve3776_loop_test lines start line_num i line :
  item lines i = Some line -> 0 <= i ->
  0 <= find line "package" -> 0 <= find line "test" ->
  i <= start \/ start + line_num <= i \/ start < 0 ->
  1 <= line_num ->
  forall n index new_codes add_lines,
    0 <= index <= i -> i - index < Z.of_nat n ->
    solve3776_loop n lines start line_num index new_codes add_lines = Ok ExitTest
    \/ solve3776_loop n lines start line_num index new_codes add_lines = Ok ExitAbort.
Proof.
  intros Hline Hi Hpk Hts Hvis Hnum.
  assert (Hlen : i < Z.of_nat (length lines)).
  { unfold item, norm in Hline.
    destruct ((0 <=? i) && (i <? Z.of_nat (length lines))) eqn:E; [lia |].
    destruct ((- Z.of_nat (length lines) <=? i) && (i <? 0)) eqn:E2; [lia | discriminate]. }
  induction n as [|n IH]; intros index new_codes add_lines Hidx Hn; [lia |].
  cbn [solve3776_loop]. destruct (index <? Z.of_nat (length lines)) eqn:E; [| lia].
  destruct (item_in_range lines index) as [l Hl]; [lia |].
  rewrite (item_getitem _ _ _ Hl). cbn [bind].
  destruct ((find l "package" >=? 0) && (find l "test" >=? 0)) eqn:Et; [now left |].
  assert (Hne : index <> i).
  { intros ->. rewrite Hline in Hl. injection Hl as <-. lia. }
  destruct (index =? start) eqn:Es.
  - assert (index = start) as <- by lia.
    destruct (reduceComplexity_loop_total lines (Z.to_nat line_num) (index + line_num)
                index "" 0) as [[[tmp status] delta] Hred]; [lia | lia |].
    unfold reduceComplexity. rewrite Hred. cbn [bind].
    destruct (status <? 0); [now right |]. apply IH; lia.
  - apply IH; lia.
Qed.

(** C9 (amended).  When the path holds [test], or when a line holding both
    [package] and [test] lies outside the located span or is its first
    line, the driver returns without writing: the files and every ledger
    offset are as before. *)
Theorem solve3776_leaves_test_files p st :
  let file_path := replace1 (resource p) "/" "" in
  0 <= find file_path "test"
  \/ (exists text start line_num codes i line,
        files st !! file_path = Some text
        /\ findCodes (readlines text)
             (offset_of (lines_dict st) (md5 file_path) + startLineNumber p - 1)
           = Ok (start, line_num, codes)
        /\ item (readlines text) i = Some line /\ 0 <= i
        /\ 0 <= find line "package" /\ 0 <= find line "test"
        /\ (i <= start \/ start + line_num <= i \/ start < 0)) ->
  exists st',
    solve3776 md5 p st = Returned st'
    /\ files st' = files st
    /\ forall key, offset_of (lines_dict st') key = offset_of (lines_dict st) key.
Proof.
  intros file_path H. unfold solve3776. fold file_path.
  destruct (find file_path "test" >=? 0) eqn:E.
  { eexists. split; [reflexivity |]. split; reflexivity. }
  destruct H as [H | (text & start & line_num & codes & i & line & Hfile & Hfind & Hline
                        & Hi & Hpk & Hts & Hvis)]; [lia |].
  destruct (ledger_open_spec (md5 file_path) st) as (Ho & Hf & _ & _ & Hoff).
  destruct (ledger_open (md5 file_path) st) as [offset st1]. cbn [fst snd] in *.
  cbn [emit files]. rewrite Hf, Hfile. subst offset. rewrite Hfind.
  destruct (solve3776_loop_test (readlines text) start line_num i line Hline Hi Hpk Hts Hvis
              (findCodes_line_num _ _ _ _ _ Hfind) (length (readlines text)) 0 "" 0)
    as [Hl | Hl]; try lia.
  - apply findCodes_start_in_file in Hfind.
    unfold item, norm in Hline.
    destruct ((0 <=? i) && (i <? Z.of_nat (length (readlines text)))) eqn:E1; [lia |].
    destruct ((- Z.of_nat (length (readlines text)) <=? i) && (i <? 0)) eqn:E2;
      [lia | discriminate].
  - rewrite Hl. eexists. split; [reflexivity |]. split; [exact Hf | exact Hoff].
  - rewrite Hl. eexists. split; [reflexivity |]. split; [exact Hf | exact Hoff].
Qed.

(** *** The ledger along a run *)

Variable sample : nat -> string.

Lemma ledger_open_draws key st : draws (snd (ledger_open key st)) = draws st.
Proof. unfold ledger_open. now destruct (lines_dict st !! key). Qed.

Lemma unchanged_refl st st' :
  files st' = files st -> lines_dict st' = lines_dict st -> unchanged st st'.
Proof. intros Hf Hd. split; [exact Hf |]. intros k. now rewrite Hd. Qed.

Lemma ledger_add_after_write key path new_text add st st0 e off :
  files st = files st0 -> log st = log st0 ->
  (forall k, offset_of (lines_dict st) k = offset_of (lines_dict st0) k) ->
  lines_dict st !! key = Some off ->
  exists st',
    ledger_add key add (write path new_text (emit e st)) = Returned st'
    /\ files st' = <[path := new_text]> (files st0)
    /\ (forall k, offset_of (lines_dict st') k
                  = offset_of (lines_dict st0) k + (if String.eqb key k then add else 0))
    /\ log st' = log st0 ++ [e; Wrote path; Recorded key add].
Proof.
  intros Hf Hl Hoff Hk. unfold ledger_add. cbn [write emit lines_dict]. rewrite Hk.
  eexists. split; [reflexivity |]. cbn [emit set_ledger write files lines_dict log].
  split; [now rewrite Hf |]. split.
  - intros k. rewrite offset_of_insert, <- Hoff. destruct (decide (key = k)) as [<- | Hne].
    + rewrite String.eqb_refl. unfold offset_of. now rewrite Hk.
    + apply String.eqb_neq in Hne. rewrite Hne. lia.
  - rewrite Hl, <- !app_assoc. reflexivity.
Qed.

(** One call passes to the locator the reported line minus one plus the
    offset its key has in the ledger, and updates files and ledger as
    [call_at] says. *)
Lemma drive_call_at d p st :
  call_at md5 sample d p
    (startLineNumber p - 1 + offset_of (lines_dict st) (md5 (replace1 (resource p) "/" "")))
    st (drive md5 sample d p st).
Proof.
  set (path := replace1 (resource p) "/" "").
  replace (startLineNumber p - 1 + offset_of (lines_dict st) (md5 path))
    with (offset_of (lines_dict st) (md5 path) + startLineNumber p - 1) by lia.
  destruct (ledger_open_spec (md5 path) st) as (Ho & Hf & Hl & Hk & Hoff).
  pose proof (ledger_open_draws (md5 path) st) as Hd.
  unfold call_at, attempt. fold path. destruct d; cbn [drive].
  - unfold solve3776. fold path. destruct (find path "test" >=? 0); [reflexivity |].
    destruct (ledger_open (md5 path) st) as [offset st1]. cbn [fst snd] in *. subst offset.
    rewrite Hf. destruct (files st !! path) as [text|].
    2: { exists st1. split; [reflexivity |]. split; [now split | exact Hl]. }
    unfold located_edit.
    destruct (findCodes _ _) as [[[start line_num] codes]|].
    2: { eexists. split; [reflexivity |]. split; [now split |].
         cbn [emit log]. now rewrite Hl. }
    destruct (solve3776_loop _ _ _ _ _ _ _) as [[| | new_codes add_lines]|].
    + eexists. split; [reflexivity |]. split; [now split |]. cbn. now rewrite Hl.
    + eexists. split; [reflexivity |]. split; [now split |]. cbn. now rewrite Hl.
    + now apply (ledger_add_after_write _ _ _ _ st1 st _ _ Hf Hl Hoff Hk).
    + eexists. split; [reflexivity |]. split; [now split |]. cbn. now rewrite Hl.
  - unfold solve3776_2. fold path.
    destruct (ledger_open (md5 path) st) as [offset st1]. cbn [fst snd] in *. subst offset.
    rewrite Hf. destruct (files st !! path) as [text|].
    2: { exists st1. split; [reflexivity |]. split; [now split | exact Hl]. }
    unfold located_edit.
    destruct (findCodes _ _) as [[[start line_num] codes]|].
    2: { eexists. split; [reflexivity |]. split; [now split |].
         cbn [emit log]. now rewrite Hl. }
    cbn [emit draws]. rewrite Hd.
    destruct (solve3776_2_loop _ _ _ _ _ _ _ _ _ _)
      as [k [[[[new_codes add_codes] add_lines]|]|]]; cbn [snd].
    + destruct (ledger_add_after_write (md5 path) path (new_codes +:+ nl +:+ add_codes)
                  add_lines (set_draws k st1) st
                  (Located p (md5 path) (offset_of (lines_dict st) (md5 path)
                                         + startLineNumber p - 1))
                  (offset_of (lines_dict st) (md5 path)) Hf Hl Hoff Hk)
        as (st' & Hret & Hrest).
      exists st'. split; [exact Hret | exact Hrest].
    + eexists. split; [reflexivity |]. split; [now split |]. cbn. now rewrite Hl.
    + eexists. split; [reflexivity |]. split; [now split |]. cbn. now rewrite Hl.
  - unfold solve1186. fold path.
    destruct (ledger_open (md5 path) st) as [offset st1]. cbn [fst snd] in *. subst offset.
    rewrite Hf. destruct (files st !! path) as [text|].
    2: { exists st1. split; [reflexivity |]. split; [now split | exact Hl]. }
    unfold located_edit.
    destruct (findCodes _ _) as [[[start line_num] codes]|].
    2: { eexists. split; [reflexivity |]. split; [now split |].
         cbn [emit log]. now rewrite Hl. }
    destruct (solve1186_loop _ _ _ _ _ _ _ _) as [[new_codes add_lines]|].
    + now apply (ledger_add_after_write _ _ _ _ st1 st _ _ Hf Hl Hoff Hk).
    + eexists. split; [reflexivity |]. split; [now split |]. cbn. now rewrite Hl.
Qed.

Lemma drive_offsets d p st k :
  offset_of (lines_dict (final (drive md5 sample d p st))) k
  = offset_of (lines_dict st) k + total k (recorded md5 sample d p st).
Proof.
  pose proof (drive_call_at d p st) as H. unfold call_at in H. unfold recorded.
  destruct (attempt sample d p _ st) as [| | [[| new_text delta] | e]].
  - rewrite H. cbn. lia.
  - destruct H as (st' & -> & [_ Hoff] & _). cbn. rewrite Hoff. lia.
  - destruct H as (st' & -> & [_ Hoff] & _). cbn. rewrite Hoff. lia.
  - destruct H as (st' & -> & _ & Hoff & _). cbn [final total]. rewrite Hoff. lia.
  - destruct H as (st' & -> & [_ Hoff] & _). cbn. rewrite Hoff. lia.
Qed.

Lemma total_app key a b : total key (a ++ b) = total key a + total key b.
Proof. induction a as [|[k d] a IH]; cbn [total app]; [reflexivity | rewrite IH; lia]. Qed.

Lemma run_ledger_offsets pre st st_k :
  run_ledger md5 sample pre st = Returned st_k ->
  forall k, offset_of (lines_dict st_k) k
            = offset_of (lines_dict st) k + total k (history md5 sample pre st).
Proof.
  revert st. induction pre as [|[d p] pre IH]; intros st; cbn [run_ledger history].
  - intros [= <-] k. cbn. lia.
  - pose proof (drive_offsets d p st) as Hstep.
    destruct (drive md5 sample d p st) as [st1 | e st1]; [| discriminate].
    intros H k. rewrite (IH _ H), total_app. cbn [final] in Hstep. rewrite Hstep. lia.
Qed.

Lemma run_ledger_app pre rest st st_k :
  run_ledger md5 sample pre st = Returned st_k ->
  run_ledger md5 sample (pre ++ rest) st = run_ledger md5 sample rest st_k.
Proof.
  revert st. induction pre as [|[d p] pre IH]; intros st; cbn [run_ledger app].
  - now intros [= <-].
  - destruct (drive md5 sample d p st) as [st1 | e st1]; [apply IH | discriminate].
Qed.

(** C5.  Along a run of the ledger drivers, the call for the finding
    that follows the findings [pre] is made on the state they leave, in
    which every ledger offset is its offset at the start of the run plus
    the deltas of the successful edits made under its key so far.  That
    call passes to the locator the finding's reported line minus one,
    plus the starting offset of its key, plus those deltas; and it adds
    the delta of its own edit to the ledger entry only when it has
    written the file, right after the write. *)
Theorem ledger_search_start pre d p post st st_k :
  run_ledger md5 sample pre st = Returned st_k ->
  let path := replace1 (resource p) "/" "" in
  let key := md5 path in
  let cand :=
    startLineNumber p - 1 + offset_of (lines_dict st) key
    + total key (history md5 sample pre st) in
  run_ledger md5 sample (pre ++ (d, p) :: post) st
  = match drive md5 sample d p st_k with
    | Returned st' => run_ledger md5 sample post st'
    | Raised e st' => Raised e st'
    end
  /\ (forall k, offset_of (lines_dict st_k) k
                = offset_of (lines_dict st) k + total k (history md5 sample pre st))
  /\ call_at md5 sample d p cand st_k (drive md5 sample d p st_k).
Proof.
  intros Hrun path key cand. split; [| split].
  - now rewrite (run_ledger_app _ _ _ _ Hrun).
  - exact (run_ledger_offsets _ _ _ Hrun).
  - subst cand. rewrite <- Z.add_assoc, <- (run_ledger_offsets _ _ _ Hrun key).
    apply drive_call_at.
Qed.

End Ledger.

Section LedgerExamples.
Import Py.

Lemma unclosed_if_scan : Scan (readlines (join unclosed_if)) (0 + 3) 0 None.
Proof.
  apply Scan_plain; [lia | reflexivity |].
  apply (Scan_stuck _ _ _ 3); [lia | reflexivity |].
  intros j Hj. assert (j = 1 \/ j = 2) as [-> | ->] by lia; eexists; split; reflexivity.
Qed.

Lemma solve3776_aborts_without_writing_witness :
  exists st',
    solve3776 path_key clean_finding (one_file "a.go" (join unclosed_if)) = Returned st'
    /\ files st' = files (one_file "a.go" (join unclosed_if))
    /\ (forall key, offset_of (lines_dict st') key
                    = offset_of (lines_dict (one_file "a.go" (join unclosed_if))) key)
    /\ run (solve3776 path_key) [clean_finding] (one_file "a.go" (join unclosed_if))
       = run (solve3776 path_key) [] st'.
Proof.
  apply (solve3776_aborts_without_writing path_key clean_finding
           (one_file "a.go" (join unclosed_if)) (join unclosed_if) 0 3
           (join unclosed_if) []).
  - reflexivity.
  - reflexivity.
  - lia.
  - exact unclosed_if_scan.
Defined.

(** C8.  The end-of-block search can fail without reaching its failure
    return.  A function with no later line that starts with a closing
    brace gets from [findCodes] a span that ends one line past the end of
    the file; the line that opens a block in it has no closing line, and
    [findEndIf], looking for one up to the end of the span, reads the
    line after the last one and raises.  Nothing catches the exception:
    the file and the ledger are as before, but the driver does not
    return and the run stops there, whatever findings follow. *)
Theorem solve3776_span_past_end_raises :
  let st := one_file "a.go" (join unterminated) in
  readlines (join unterminated) = unterminated
  /\ findCodes unterminated 0 = Ok (0, 3, join unterminated)
  /\ opens unterminated 1 = Ok (Some 3)
  /\ findEndIf unterminated 3 1 (0 + 3) = Raise IndexError
  /\ (exists st',
        solve3776 path_key clean_finding st = Raised IndexError st'
        /\ files st' = files st
        /\ forall key, offset_of (lines_dict st') key = offset_of (lines_dict st) key)
  /\ forall rest,
       exists st', run (solve3776 path_key) (clean_finding :: rest) st = Raised IndexError st'.
Proof.
  intros st. split; [reflexivity |]. split; [reflexivity |]. split; [reflexivity |].
  split; [reflexivity |]. split.
  - eexists. split; [reflexivity |]. split; [reflexivity |].
    intros key. unfold offset_of. cbn.
    destruct (decide ("a.go" = key)) as [<- | Hne].
    + now rewrite lookup_insert_eq.
    + now rewrite lookup_insert_ne.
  - intros rest. eexists. reflexivity.
Qed.

Lemma solve3776_leaves_test_files_witness :
  exists st',
    solve3776 path_key second_line (one_file "a.go" (join test_package)) = Returned st'
    /\ files st' = files (one_file "a.go" (join test_package))
    /\ forall key, offset_of (lines_dict st') key
                   = offset_of (lines_dict (one_file "a.go" (join test_package))) key.
Proof.
  apply (solve3776_leaves_test_files path_key second_line (one_file "a.go" (join test_package))).
  right. exists (join test_package), 1, 4. eexists. exists 0. eexists.
  split; [reflexivity |]. split; [reflexivity |]. split; [reflexivity |].
  split; [lia |]. split; [vm_compute; discriminate |]. split; [vm_compute; discriminate |].
  left. lia.
Defined.

(** C9 as stated fails: the line holding [package] and [test] is the
    second line of the located span; the copy loop never looks at it, the
    file is rewritten and the ledger entry grows by 2. *)
Lemma solve3776_span_comment_counterexample :
  let st := one_file "a.go" (join comment_inside) in
  let st' := final (solve3776 path_key clean_finding st) in
  find (indented 1 "// package test") "package" = 4
  /\ find (indented 1 "// package test") "test" = 12
  /\ findCodes (readlines (join comment_inside)) 0 = Ok (0, 5, join comment_inside)
  /\ files st' !! "a.go"
     = Some (join [ indented 0 "func f() {"; indented 1 "// package test";
                    indented 3 "/*"; indented 3 "if a {"; indented 3 "}"; indented 3 "*/";
                    indented 0 "}" ])
  /\ files st' <> files st
  /\ offset_of (lines_dict st) "a.go" = 0
  /\ offset_of (lines_dict st') "a.go" = 2.
Proof.
  split; [reflexivity |]. split; [reflexivity |]. split; [reflexivity |].
  split; [reflexivity |]. split; [| split; reflexivity].
  intros H. apply (f_equal (fun m => m !! "a.go")) in H. vm_compute in H. discriminate.
Qed.

Lemma ledger_search_start_witness :
  let st0 := one_file "a.go" (join two_empty) in
  let st1 := final (solve1186 path_key first_empty st0) in
  run_ledger path_key same_digits ([(S1186, first_empty)] ++ [(S1186, second_empty)]) st0
  = match drive path_key same_digits S1186 second_empty st1 with
    | Returned st' => run_ledger path_key same_digits [] st'
    | Raised e st' => Raised e st'
    end
  /\ (forall k, offset_of (lines_dict st1) k
                = offset_of (lines_dict st0) k + total k [("a.go", 2)])
  /\ call_at path_key same_digits S1186 second_empty 4 st1
       (drive path_key same_digits S1186 second_empty st1).
Proof.
  intros st0 st1.
  apply (ledger_search_start path_key same_digits [(S1186, first_empty)] S1186 second_empty []
           st0 st1).
  reflexivity.
Defined.

End LedgerExamples.

(** * Further properties of the helpers *)

Section GetLiteral.
Import Py PyFacts.

Lemma find_first_app a sub b :
  find (a +:+ sub) sub = len a -> find (a +:+ sub +:+ b) sub = len a.
Proof.
  intros H.
  pose proof (find_occurs _ _ _ (occurs_app_mid a sub b)) as Hup.
  destruct (find_found (a +:+ sub +:+ b) sub) as (k & Hk & [Hkl Ho] & _); [lia |].
  rewrite Hk. unfold len.
  destruct (Nat.lt_ge_cases k (String.length a)) as [Hlt | Hge]; [exfalso | lia].
  apply (find_app_first a sub H k Hlt). split; [rewrite length_app; lia |].
  rewrite <- sapp_assoc, drop_app_le in Ho by (rewrite length_app; lia).
  rewrite starts_app_long in Ho; [exact Ho |].
  rewrite length_drop, length_app. lia.
Qed.

Lemma slice_middle a m b :
  slice (a +:+ m +:+ b) (Some (len a)) (Some (len a + len m)) = m.
Proof.
  unfold slice, clamp. rewrite !len_app.
  pose proof (len_nonneg a). pose proof (len_nonneg m). pose proof (len_nonneg b).
  destruct (len a <? 0) eqn:E1; [lia |]. destruct (len a + len m <? 0) eqn:E2; [lia |].
  replace (Z.to_nat (Z.min (len a) (len a + (len m + len b)))) with (String.length a)
    by (unfold len in *; lia).
  replace (Z.to_nat (Z.min (len a + len m) (len a + (len m + len b))) - String.length a)%nat
    with (String.length m) by (unfold len in *; lia).
  rewrite drop_app. apply take_app.
Qed.

(** The literal of a message is what stands between the first
    [this literal] marker with its opening quote and the last quote of the
    message. *)
Theorem getLiteral_between_marker_and_last_quote pre literal post :
  let marker := "this literal " +:+ quote in
  find (pre +:+ marker) marker = len pre ->
  find post quote = -1 ->
  getLiteral (pre +:+ marker +:+ literal +:+ quote +:+ post) = literal.
Proof.
  intros marker Hpre Hpost. unfold getLiteral. fold marker.
  rewrite (find_first_app pre marker _ Hpre).
  replace (pre +:+ marker +:+ literal +:+ quote +:+ post)
    with ((pre +:+ marker +:+ literal) +:+ quote +:+ post) by now rewrite !sapp_assoc.
  rewrite (rfind_last (pre +:+ marker +:+ literal) quote post)
    by (discriminate || exact Hpost).
  replace ((pre +:+ marker +:+ literal) +:+ quote +:+ post)
    with ((pre +:+ marker) +:+ literal +:+ quote +:+ post) by now rewrite !sapp_assoc.
  replace (len pre + 14) with (len (pre +:+ marker)) by (rewrite len_app; reflexivity).
  replace (len (pre +:+ marker +:+ literal)) with (len (pre +:+ marker) + len literal)
    by (rewrite !len_app; lia).
  apply slice_middle.
Qed.

Lemma getLiteral_between_marker_and_last_quote_witness :
  getLiteral ("Define a constant instead of duplicating " +:+ ("this literal " +:+ quote)
                +:+ "a " +:+ quote +:+ "b" +:+ quote +:+ " c" +:+ quote +:+ " 3 times.")
  = "a " +:+ quote +:+ "b" +:+ quote +:+ " c".
Proof.
  apply (getLiteral_between_marker_and_last_quote
           "Define a constant instead of duplicating "
           ("a " +:+ quote +:+ "b" +:+ quote +:+ " c") " 3 times.").
  - reflexivity.
  - reflexivity.
Defined.

End GetLiteral.

Section Span.
Import Py PyFacts.

Lemma starts_brace_getchar c rest :
  starts "}" (String c rest) = Ascii.eqb c "}".
Proof. cbn [starts]. rewrite Ascii.eqb_sym. now destruct (Ascii.eqb c "}"). Qed.

Lemma findCodes_fwd_closing lines n pos codes e :
  0 <= pos <= e -> e < Z.of_nat (length lines) -> e - pos < Z.of_nat n ->
  (forall j, pos <= j < e ->
     exists line, item lines j = Some line /\ line <> "" /\ starts "}" line = false) ->
  (exists line, item lines e = Some line /\ starts "}" line = true) ->
  findCodes_fwd n lines pos codes
  = Ok (e, codes +:+ segment lines pos (Z.to_nat (e - pos + 1))).
Proof.
  revert pos codes. induction n as [|n IH]; intros pos codes Hp He Hn Hno Hyes; [lia |].
  cbn [findCodes_fwd]. destruct (pos <? Z.of_nat (length lines)) eqn:E; [| lia].
  destruct (Z.eq_dec pos e) as [-> | Hne].
  - destruct Hyes as (line & Hl & Hb). rewrite (item_getitem _ _ _ Hl). cbn [bind].
    destruct line as [|c rest]; [discriminate |]. rewrite getchar_first. cbn [bind].
    rewrite starts_brace_getchar in Hb. rewrite Hb.
    replace (Z.to_nat (e - e + 1)) with 1%nat by lia. cbn [segment].
    now rewrite Hl, sapp_nil_r.
  - destruct (Hno pos) as (line & Hl & Hne' & Hb); [lia |].
    rewrite (item_getitem _ _ _ Hl). cbn [bind].
    destruct line as [|c rest]; [congruence |]. rewrite getchar_first. cbn [bind].
    rewrite starts_brace_getchar in Hb. rewrite Hb.
    rewrite (IH (pos + 1)); try lia; [| intros j Hj; apply Hno; lia | exact Hyes].
    replace (Z.to_nat (e - pos + 1)) with (S (Z.to_nat (e - (pos + 1) + 1))) by lia.
    cbn [segment]. now rewrite Hl, sapp_assoc.
Qed.

Lemma findCodes_fwd_open lines n pos codes :
  0 <= pos <= Z.of_nat (length lines) -> Z.of_nat (length lines) - pos <= Z.of_nat n ->
  (forall j, pos <= j < Z.of_nat (length lines) ->
     exists line, item lines j = Some line /\ line <> "" /\ starts "}" line = false) ->
  findCodes_fwd n lines pos codes
  = Ok (Z.of_nat (length lines),
        codes +:+ segment lines pos (Z.to_nat (Z.of_nat (length lines) - pos))).
Proof.
  revert pos codes. induction n as [|n IH]; intros pos codes Hp Hn Hno.
  - assert (pos = Z.of_nat (length lines)) as -> by lia.
    cbn [findCodes_fwd]. rewrite Z.sub_diag. cbn [Z.to_nat segment]. now rewrite sapp_nil_r.
  - cbn [findCodes_fwd]. destruct (pos <? Z.of_nat (length lines)) eqn:E.
    + destruct (Hno pos) as (line & Hl & Hne' & Hb); [lia |].
      rewrite (item_getitem _ _ _ Hl). cbn [bind].
      destruct line as [|c rest]; [congruence |]. rewrite getchar_first. cbn [bind].
      rewrite starts_brace_getchar in Hb. rewrite Hb.
      rewrite (IH (pos + 1)); try lia; [| intros j Hj; apply Hno; lia].
      replace (Z.to_nat (Z.of_nat (length lines) - pos))
        with (S (Z.to_nat (Z.of_nat (length lines) - (pos + 1)))) by lia.
      cbn [segment]. now rewrite Hl, sapp_assoc.
    + assert (pos = Z.of_nat (length lines)) as -> by lia.
      rewrite Z.sub_diag. cbn [Z.to_nat segment]. now rewrite sapp_nil_r.
Qed.

Lemma findCodes_back_range lines n start s :
  findCodes_back n lines start = Ok s -> Z.of_nat n = start + 1 -> -1 <= s <= start.
Proof.
  revert start. induction n as [|n IH]; intros start; cbn [findCodes_back].
  - intros [= <-] Hn. lia.
  - destruct (start >=? 0) eqn:E; [| intros [= <-] Hn; lia].
    destruct (getitem lines start) as [line|]; [| discriminate]. cbn [bind].
    destruct (find line "func " >=? 0); [intros [= <-] Hn; lia |].
    intros H Hn. apply IH in H; lia.
Qed.

Lemma findCodes_fwd_range lines n pos codes pos' codes' :
  findCodes_fwd n lines pos codes = Ok (pos', codes') ->
  pos <= pos' <= Z.max pos (Z.of_nat (length lines)).
Proof.
  revert pos codes. induction n as [|n IH]; intros pos codes; cbn [findCodes_fwd].
  - intros [= <- _]. lia.
  - destruct (pos <? Z.of_nat (length lines)) eqn:E; [| intros [= <- _]; lia].
    destruct (getitem lines pos) as [line|]; [| discriminate]. cbn [bind].
    destruct (getchar line 0) as [c|]; [| discriminate]. cbn [bind].
    destruct (Ascii.eqb c "}"); [intros [= <- _]; lia |].
    intros H. apply IH in H. lia.
Qed.

(** The span [findCodes] returns for a candidate line of the file starts
    at or before the candidate, inside the file or at [-1], and holds at
    least one line and at most one line more than the file has left. *)
Theorem findCodes_span_bounds lines cand start line_num codes :
  0 <= cand ->
  findCodes lines cand = Ok (start, line_num, codes) ->
  -1 <= start <= cand
  /\ start < Z.of_nat (length lines)
  /\ 1 <= line_num <= Z.of_nat (length lines) - start + 1.
Proof.
  intros Hc. unfold findCodes.
  destruct (findCodes_back _ lines cand) as [s|] eqn:Eb; [| discriminate].
  apply findCodes_back_range in Eb; [| lia]. cbn [bind].
  destruct (getitem lines s) as [first|] eqn:E; [| discriminate]. cbn [bind].
  assert (Hs : s < Z.of_nat (length lines)).
  { apply getitem_Ok in E. unfold item, norm in E.
    destruct ((0 <=? s) && (s <? Z.of_nat (length lines))) eqn:E1; [lia |].
    destruct ((- Z.of_nat (length lines) <=? s) && (s <? 0)) eqn:E2; [lia | discriminate]. }
  destruct (find first "}" >? 0); [intros [= <- <- _]; lia |].
  destruct (findCodes_fwd _ lines (s + 1) first) as [[pos c]|] eqn:Ef; [| discriminate].
  cbn [bind]. intros [= <- <- _]. apply findCodes_fwd_range in Ef. lia.
Qed.

Lemma findCodes_span_bounds_witness :
  -1 <= 0 <= 0 /\ 0 < Z.of_nat (length unterminated)
  /\ 1 <= 3 <= Z.of_nat (length unterminated) - 0 + 1.
Proof.
  apply (findCodes_span_bounds unterminated 0 0 3 (join unterminated)); [lia | reflexivity].
Defined.

(** When the line of the function holds no closing brace after its first
    column, the span runs to the first later line that starts with a
    closing brace, that line included, and the captured text is the text
    of the lines of the span. *)
Theorem findCodes_span_ends_at_closing_line lines cand start line_num codes first e :
  findCodes lines cand = Ok (start, line_num, codes) ->
  0 <= start ->
  item lines start = Some first -> find first "}" <= 0 ->
  start < e < Z.of_nat (length lines) ->
  (forall j, start < j < e ->
     exists line, item lines j = Some line /\ line <> "" /\ starts "}" line = false) ->
  (exists line, item lines e = Some line /\ starts "}" line = true) ->
  line_num = e - start + 1 /\ codes = segment lines start (Z.to_nat line_num).
Proof.
  intros Hf Hs Hfirst Hb He Hno Hyes. unfold findCodes in Hf.
  destruct (findCodes_back _ lines cand) as [s|]; [| discriminate]. cbn [bind] in Hf.
  destruct (getitem lines s) as [first'|] eqn:E; [| discriminate]. cbn [bind] in Hf.
  destruct (find first' "}" >? 0) eqn:Eb.
  { injection Hf as <- _ _. apply getitem_Ok in E. rewrite Hfirst in E.
    injection E as <-. lia. }
  destruct (findCodes_fwd _ lines (s + 1) first') as [[pos c]|] eqn:Ef; [| discriminate].
  cbn [bind] in Hf. injection Hf as <- <- <-.
  apply getitem_Ok in E. rewrite Hfirst in E. injection E as <-.
  rewrite (findCodes_fwd_closing lines _ (s + 1) first e) in Ef; try lia;
    [| intros j Hj; apply Hno; lia | exact Hyes].
  injection Ef as <- <-. split; [reflexivity |].
  replace (Z.to_nat (e - s + 1)) with (S (Z.to_nat (e - (s + 1) + 1))) by lia.
  cbn [segment]. now rewrite Hfirst.
Qed.

Lemma findCodes_span_ends_at_closing_line_witness :
  3 = 2 - 0 + 1 /\ join unclosed_if = segment unclosed_if 0 (Z.to_nat 3).
Proof.
  apply (findCodes_span_ends_at_closing_line unclosed_if 0 0 3 (join unclosed_if)
           (indented 0 "func f() {") 2).
  - reflexivity.
  - lia.
  - reflexivity.
  - vm_compute. discriminate.
  - simpl. lia.
  - intros j Hj. assert (j = 1) as -> by lia. eexists. split; [reflexivity |].
    split; [discriminate | reflexivity].
  - eexists. split; reflexivity.
Defined.

(** When the line of the function has no closing brace after its first
    column and no later line starts with a closing brace, the span is
    one line longer than what the file has from the line of the function
    on: its end lies one line past the end of the file. *)
Theorem findCodes_span_runs_past_end lines cand start line_num codes first :
  findCodes lines cand = Ok (start, line_num, codes) ->
  0 <= start ->
  item lines start = Some first -> find first "}" <= 0 ->
  (forall j, start < j < Z.of_nat (length lines) ->
     exists line, item lines j = Some line /\ line <> "" /\ starts "}" line = false) ->
  start + line_num = Z.of_nat (length lines) + 1
  /\ codes = segment lines start (Z.to_nat (line_num - 1)).
Proof.
  intros Hf Hs Hfirst Hb Hno. unfold findCodes in Hf.
  destruct (findCodes_back _ lines cand) as [s|]; [| discriminate]. cbn [bind] in Hf.
  destruct (getitem lines s) as [first'|] eqn:E; [| discriminate]. cbn [bind] in Hf.
  assert (Hlen : s < Z.of_nat (length lines)).
  { apply getitem_Ok in E. unfold item, norm in E.
    destruct ((0 <=? s) && (s <? Z.of_nat (length lines))) eqn:E1; [lia |].
    destruct ((- Z.of_nat (length lines) <=? s) && (s <? 0)) eqn:E2; [lia | discriminate]. }
  destruct (find first' "}" >? 0) eqn:Eb.
  { injection Hf as <- _ _. apply getitem_Ok in E. rewrite Hfirst in E.
    injection E as <-. lia. }
  destruct (findCodes_fwd _ lines (s + 1) first') as [[pos c]|] eqn:Ef; [| discriminate].
  cbn [bind] in Hf. injection Hf as <- <- <-.
  apply getitem_Ok in E. rewrite Hfirst in E. injection E as <-.
  rewrite (findCodes_fwd_open lines _ (s + 1) first) in Ef; try lia;
    [| intros j Hj; apply Hno; lia].
  injection Ef as <- <-. split; [lia |].
  replace (Z.to_nat (Z.of_nat (length lines) - s + 1 - 1))
    with (S (Z.to_nat (Z.of_nat (length lines) - (s + 1)))) by lia.
  cbn [segment]. now rewrite Hfirst.
Qed.

Lemma findCodes_span_runs_past_end_witness :
  0 + 3 = Z.of_nat (length unterminated) + 1
  /\ join unterminated = segment unterminated 0 (Z.to_nat (3 - 1)).
Proof.
  apply (findCodes_span_runs_past_end unterminated 0 0 3 (join unterminated)
           (indented 0 "func f() {")).
  - reflexivity.
  - lia.
  - reflexivity.
  - vm_compute. discriminate.
  - intros j Hj. simpl in Hj. assert (j = 1) as -> by lia. eexists. split; [reflexivity |].
    split; [discriminate | reflexivity].
Defined.

End Span.

Section BlockSearch.
Import Py PyFacts.

Lemma findEndIf_loop_sound lines col end_ n index codes if_lines codes' l :
  findEndIf_loop n lines col index end_ codes if_lines = Ok (codes', l) ->
  0 <= if_lines ->
  l = -1
  \/ exists k : nat,
       l = if_lines + Z.of_nat k /\ index + Z.of_nat k < end_
       /\ codes' = codes +:+ segment lines index (S k)
       /\ (exists line, item lines (index + Z.of_nat k) = Some line /\ closes line col = Ok true)
       /\ forall j, index <= j < index + Z.of_nat k ->
            exists line, item lines j = Some line /\ closes line col = Ok false.
Proof.
  revert index codes if_lines. induction n as [|n IH]; intros index codes if_lines;
    cbn [findEndIf_loop].
  - intros [= _ <-] _. now left.
  - destruct (index <? end_) eqn:E; [| intros [= _ <-] _; now left].
    destruct (getitem lines index) as [line|] eqn:El; [| discriminate]. cbn [bind].
    destruct (closes line col) as [b|] eqn:Ec; [| discriminate]. cbn [bind].
    apply getitem_Ok in El. destruct b.
    + intros [= <- <-] Hil. right. exists O. rewrite !Z.add_0_r.
      split; [reflexivity |]. split; [lia |]. split.
      * cbn [segment]. now rewrite El, sapp_nil_r.
      * split; [eauto |]. intros j Hj. lia.
    + intros H Hil. apply IH in H; [| lia].
      destruct H as [-> | (k & -> & Hk & -> & Hyes & Hno)]; [now left |].
      right. exists (S k). split; [lia |]. split; [lia |]. split.
      * cbn [segment]. rewrite El. now rewrite sapp_assoc.
      * split.
        -- replace (index + Z.of_nat (S k)) with (index + 1 + Z.of_nat k) by lia. exact Hyes.
        -- intros j Hj. destruct (Z.eq_dec j index) as [-> | Hne]; [eauto |].
           apply Hno. lia.
Qed.

Lemma findEndIf_sound lines col index end_ codes l :
  findEndIf lines col index end_ = Ok (codes, l) ->
  l = -1
  \/ (1 <= l /\ index + l <= end_
      /\ codes = segment lines index (Z.to_nat l)
      /\ (exists line, item lines (index + l - 1) = Some line /\ closes line col = Ok true)
      /\ forall j, index <= j < index + l - 1 ->
           exists line, item lines j = Some line /\ closes line col = Ok false).
Proof.
  unfold findEndIf. intros H. apply findEndIf_loop_sound in H; [| lia].
  destruct H as [-> | (k & -> & Hk & -> & Hyes & Hno)]; [now left |].
  right. split; [lia |]. split; [lia |]. split.
  - replace (Z.to_nat (1 + Z.of_nat k)) with (S k) by lia. reflexivity.
  - split.
    + replace (index + (1 + Z.of_nat k) - 1) with (index + Z.of_nat k) by lia. exact Hyes.
    + intros j Hj. apply Hno. lia.
Qed.

(** A result of [findEndIf] that is not the failure signal is the number
    of lines from the opening line to the first closing line, which lies
    before the end of the search; the text returned is the text of those
    lines. *)
Theorem findEndIf_counts_lines_to_first_closing lines col index end_ codes l :
  findEndIf lines col index end_ = Ok (codes, l) ->
  l = -1
  \/ (1 <= l /\ index + l <= end_
      /\ codes = segment lines index (Z.to_nat l)
      /\ (exists line, item lines (index + l - 1) = Some line /\ closes line col = Ok true)
      /\ forall j, index <= j < index + l - 1 ->
           exists line, item lines j = Some line /\ closes line col = Ok false).
Proof. exact (findEndIf_sound lines col index end_ codes l). Qed.

Lemma findEndIf_counts_lines_to_first_closing_witness :
  2 = -1
  \/ (1 <= 2 /\ 1 + 2 <= 6
      /\ indented 3 "if a {" +:+ indented 3 "}" = segment stacked_ifs 1 (Z.to_nat 2)
      /\ (exists line, item stacked_ifs (1 + 2 - 1) = Some line /\ closes line 3 = Ok true)
      /\ forall j, 1 <= j < 1 + 2 - 1 ->
           exists line, item stacked_ifs j = Some line /\ closes line 3 = Ok false).
Proof.
  apply (findEndIf_counts_lines_to_first_closing stacked_ifs 3 1 6). reflexivity.
Defined.

Lemma reduceComplexity_loop_growth lines end_ n index new_code new_lines code status delta :
  reduceComplexity_loop n lines end_ index new_code new_lines = Ok (code, status, delta) ->
  0 <= status -> index <= end_ -> end_ - index <= Z.of_nat n ->
  (forall j line, index <= j < end_ -> item lines j = Some line -> terminated line = true) ->
  Z.of_nat (count_nl code)
  = Z.of_nat (count_nl new_code) + (end_ - index) + (delta - new_lines)
  /\ (pending "" new_code = "" -> pending "" code = "").
Proof.
  revert index new_code new_lines. induction n as [|n IH]; intros index new_code new_lines;
    cbn [reduceComplexity_loop].
  - intros [= <- _ <-] _ Hi Hn _. split; [lia | auto].
  - destruct (index <? end_) eqn:E.
    2: { intros [= <- _ <-] _ Hi Hn _. split; [lia | auto]. }
    destruct (opens lines index) as [o|] eqn:Ho; [| discriminate]. cbn [bind].
    destruct o as [col|].
    + destruct (findEndIf lines col index end_) as [[codes l]|] eqn:Ef; [| discriminate].
      cbn [bind]. destruct (l <? 0) eqn:El.
      { intros [= _ <- _] Hst. lia. }
      apply findEndIf_sound in Ef.
      destruct Ef as [-> | (Hl & Hle & -> & Hyes & Hno)]; [lia |].
      intros H Hst Hi Hn Hterm. apply IH in H; try lia; [| intros j line Hj; apply Hterm; lia].
      destruct H as [Hc Hp]. split.
      * rewrite Hc. rewrite !count_nl_app, !count_nl_replace by (discriminate || reflexivity).
        unfold mul. rewrite !count_nl_tabs. rewrite count_nl_segment.
        -- simpl count_nl. lia.
        -- intros j Hj. replace (Z.of_nat (Z.to_nat l)) with l in Hj by lia.
           destruct (Z.eq_dec j (index + l - 1)) as [-> | Hne].
           ++ destruct Hyes as (line & Hline & _). exists line. split; [exact Hline |].
              apply (Hterm (index + l - 1)); [lia | exact Hline].
           ++ destruct (Hno j) as (line & Hline & _); [lia |]. exists line.
              split; [exact Hline |]. apply (Hterm j); [lia | exact Hline].
      * intros _. apply Hp. rewrite <- !sapp_assoc. rewrite pending_app. reflexivity.
    + destruct (getitem lines index) as [line|] eqn:Eline; [| discriminate]. cbn [bind].
      intros H Hst Hi Hn Hterm. apply getitem_Ok in Eline.
      pose proof (Hterm index line ltac:(lia) Eline) as Ht.
      apply IH in H; try lia; [| intros j l' Hj; apply Hterm; lia].
      destruct H as [Hc Hp]. split.
      * rewrite Hc, count_nl_app. unfold terminated in Ht.
        apply andb_true_iff in Ht as [Ht _]. apply Nat.eqb_eq in Ht. lia.
      * intros _. apply Hp. now apply pending_line.
Qed.

(** Whenever the reducer succeeds on a span of terminated lines, the
    delta it reports is the growth of the span: the rewritten text reads
    back as [line_num + delta] lines. *)
Theorem reduceComplexity_delta_is_growth lines start line_num code status delta :
  reduceComplexity lines start line_num = Ok (code, status, delta) ->
  0 <= status -> 0 <= line_num ->
  (forall j line, start <= j < start + line_num -> item lines j = Some line ->
     terminated line = true) ->
  Z.of_nat (length (readlines code)) = line_num + delta.
Proof.
  unfold reduceComplexity. intros H Hst Hn Hterm.
  apply reduceComplexity_loop_growth in H; try lia; [| exact Hterm].
  destruct H as [Hc Hp]. rewrite readlines_length by (apply Hp; reflexivity).
  rewrite Hc. simpl count_nl. lia.
Qed.

Lemma reduceComplexity_delta_is_growth_witness :
  Z.of_nat (length (readlines
     (join [ indented 0 "func f() {"; indented 3 "/*"; indented 3 "if a {";
             indented 4 "if b {"; indented 4 "}"; indented 3 "}"; indented 3 "*/";
             indented 0 "}" ]))) = 6 + 2.
Proof.
  apply (reduceComplexity_delta_is_growth nested_ifs 0 6 _ 1 2).
  - reflexivity.
  - lia.
  - lia.
  - intros j line Hj Hl.
    assert (j = 0 \/ j = 1 \/ j = 2 \/ j = 3 \/ j = 4 \/ j = 5) as Hcases by lia.
    destruct Hcases as [-> | [-> | [-> | [-> | [-> | ->]]]]];
      injection Hl as <-; reflexivity.
Defined.

Lemma reduceComplexity_loop_plain lines end_ n index new_code new_lines :
  end_ - index <= Z.of_nat n ->
  (forall j, index <= j < end_ -> opens lines j = Ok None) ->
  reduceComplexity_loop n lines end_ index new_code new_lines
  = Ok (new_code +:+ segment lines index (Z.to_nat (end_ - index)), 1, new_lines).
Proof.
  revert index new_code. induction n as [|n IH]; intros index new_code Hn Hop;
    cbn [reduceComplexity_loop].
  - replace (Z.to_nat (end_ - index)) with O by lia. cbn [segment]. now rewrite sapp_nil_r.
  - destruct (index <? end_) eqn:E.
    + rewrite (Hop index) by lia. cbn [bind].
      destruct (opens_item _ _ _ (Hop index ltac:(lia))) as [line Hl]. rewrite Hl.
      cbn [bind]. rewrite IH; [| lia | intros j Hj; apply Hop; lia].
      replace (Z.to_nat (end_ - index)) with (S (Z.to_nat (end_ - (index + 1)))) by lia.
      cbn [segment]. apply getitem_Ok in Hl. now rewrite Hl, sapp_assoc.
    + replace (Z.to_nat (end_ - index)) with O by lia. cbn [segment].
      now rewrite sapp_nil_r.
Qed.

(** A span none of whose lines opens a block to wrap comes back as it
    is, with a delta of 0. *)
Theorem reduceComplexity_leaves_plain_span lines start line_num :
  (forall j, start <= j < start + line_num -> opens lines j = Ok None) ->
  reduceComplexity lines start line_num
  = Ok (segment lines start (Z.to_nat line_num), 1, 0).
Proof.
  intros Hop. unfold reduceComplexity.
  rewrite reduceComplexity_loop_plain; [| lia | exact Hop].
  replace (start + line_num - start) with line_num by lia. reflexivity.
Qed.

Lemma reduceComplexity_leaves_plain_span_witness :
  reduceComplexity two_empty 0 2 = Ok (segment two_empty 0 (Z.to_nat 2), 1, 0).
Proof.
  apply (reduceComplexity_leaves_plain_span two_empty 0 2).
  intros j Hj. assert (j = 0 \/ j = 1) as [-> | ->] by lia; reflexivity.
Defined.

End BlockSearch.

(** * Further properties of the drivers *)

Section LedgerGrowth.
Import Py PyFacts.

Variable md5 : string -> string.

Lemma readlines_from_terminated cur s :
  count_nl cur = O -> pending cur s = "" ->
  Forall (fun l => terminated l = true) (readlines_from cur s).
Proof.
  revert cur. induction s as [|c s IH]; intros cur Hc Hp; cbn [readlines_from pending] in *.
  - subst cur. constructor.
  - destruct (Ascii.eqb c "010") eqn:E.
    + constructor; [| now apply IH].
      unfold terminated. rewrite count_nl_app, Hc, pending_app. simpl count_nl.
      rewrite Nat.eqb_refl. simpl. reflexivity.
    + apply IH; [| exact Hp]. rewrite count_nl_app, Hc. simpl. now rewrite E.
Qed.

Lemma readlines_terminated text :
  pending "" text = "" -> Forall (fun l => terminated l = true) (readlines text).
Proof. intros H. now apply readlines_from_terminated. Qed.

Lemma reduceComplexity_loop_in_file lines end_ n index new_code new_lines code status delta :
  reduceComplexity_loop n lines end_ index new_code new_lines = Ok (code, status, delta) ->
  0 <= status -> 0 <= index <= Z.of_nat (length lines) -> end_ - index <= Z.of_nat n ->
  end_ <= Z.of_nat (length lines).
Proof.
  revert index new_code new_lines. induction n as [|n IH]; intros index new_code new_lines;
    cbn [reduceComplexity_loop].
  - intros _ _ Hi Hn. lia.
  - destruct (index <? end_) eqn:E; [| intros _ _ Hi Hn; lia].
    destruct (opens lines index) as [o|] eqn:Ho; [| discriminate]. cbn [bind].
    assert (Hin : index < Z.of_nat (length lines) \/ index < 0).
    { destruct (opens_item _ _ _ Ho) as [line Hl]. apply getitem_Ok in Hl.
      unfold item, norm in Hl.
      destruct ((0 <=? index) && (index <? Z.of_nat (length lines))) eqn:E1; [lia |].
      destruct ((- Z.of_nat (length lines) <=? index) && (index <? 0)) eqn:E2;
        [lia | discriminate]. }
    destruct o as [col|].
    + destruct (findEndIf lines col index end_) as [[codes l]|] eqn:Ef; [| discriminate].
      cbn [bind]. destruct (l <? 0) eqn:El.
      { intros [= _ <- _] Hst. lia. }
      apply findEndIf_sound in Ef.
      destruct Ef as [-> | (Hl & Hle & _ & (line & Hline & _) & _)]; [lia |].
      intros H Hst Hi Hn. apply IH in H; try lia.
      unfold item, norm in Hline.
      destruct ((0 <=? index + l - 1) && (index + l - 1 <? Z.of_nat (length lines))) eqn:E1;
        [lia |].
      destruct ((- Z.of_nat (length lines) <=? index + l - 1) && (index + l - 1 <? 0)) eqn:E2;
        [lia | discriminate].
    + destruct (getitem lines index) as [line|]; [| discriminate]. cbn [bind].
      intros H Hst Hi Hn. apply IH in H; lia.
Qed.

Lemma solve3776_loop_growth lines start line_num n index new_codes add_lines nc al :
  solve3776_loop n lines start line_num index new_codes add_lines = Ok (ExitDone nc al) ->
  Forall (fun l => terminated l = true) lines ->
  1 <= line_num -> 0 <= index <= Z.of_nat (length lines) ->
  index <= start \/ start + line_num <= index \/ start < 0 ->
  Z.of_nat (length lines) - index <= Z.of_nat n ->
  pending "" new_codes = "" ->
  pending "" nc = ""
  /\ Z.of_nat (count_nl nc) - al
     = Z.of_nat (count_nl new_codes) - add_lines + (Z.of_nat (length lines) - index).
Proof.
  intros H Hterm Hln. revert index new_codes add_lines H.
  induction n as [|n IH]; intros index new_codes add_lines; cbn [solve3776_loop].
  - intros [= <- <-] Hi Hpos Hn Hp. split; [exact Hp | lia].
  - destruct (index <? Z.of_nat (length lines)) eqn:E.
    2: { intros [= <- <-] Hi Hpos Hn Hp. split; [exact Hp | lia]. }
    destruct (getitem lines index) as [line|] eqn:El; [| discriminate]. cbn [bind].
    destruct ((find line "package" >=? 0) && (find line "test" >=? 0)); [discriminate |].
    destruct (index =? start) eqn:Es.
    + destruct (reduceComplexity lines start line_num) as [[[tmp status] delta]|] eqn:Er;
        [| discriminate]. cbn [bind].
      destruct (status <? 0) eqn:Est; [discriminate |].
      intros H Hi Hpos Hn Hp. assert (index = start) as -> by lia.
      pose proof Er as Hfile. unfold reduceComplexity in Hfile.
      apply reduceComplexity_loop_in_file in Hfile; try lia.
      unfold reduceComplexity in Er.
      apply reduceComplexity_loop_growth in Er; try lia.
      2: { intros j l _ Hl. exact (item_Forall _ _ _ _ Hterm Hl). }
      destruct Er as [Hc Hq]. specialize (Hq eq_refl). simpl count_nl in Hc.
      apply IH in H; try lia.
      * destruct H as [Hp' Hc']. split; [exact Hp' |].
        rewrite Hc', count_nl_app. lia.
      * rewrite pending_app, Hp. exact Hq.
    + intros H Hi Hpos Hn Hp. apply getitem_Ok in El.
      pose proof (item_Forall _ _ _ _ Hterm El) as Ht.
      apply IH in H; try lia.
      * destruct H as [Hp' Hc']. split; [exact Hp' |].
        rewrite Hc', count_nl_app. unfold terminated in Ht.
        apply andb_true_iff in Ht as [Ht _]. apply Nat.eqb_eq in Ht. lia.
      * now apply pending_line.
Qed.

(** The ledger tracks the real growth of the file: whenever the
    complexity-suppression driver returns on a file whose text ends with a
    newline, the number of lines of the file has changed by exactly what
    was added to the file's ledger entry. *)
Theorem solve3776_ledger_tracks_line_growth p st st' text :
  let file_path := replace1 (resource p) "/" "" in
  files st !! file_path = Some text ->
  pending "" text = "" ->
  solve3776 md5 p st = Returned st' ->
  exists text',
    files st' !! file_path = Some text'
    /\ Z.of_nat (length (readlines text')) - Z.of_nat (length (readlines text))
       = offset_of (lines_dict st') (md5 file_path) - offset_of (lines_dict st) (md5 file_path).
Proof.
  intros file_path Hfile Hend. unfold solve3776. fold file_path.
  destruct (find file_path "test" >=? 0).
  { intros [= <-]. exists text. split; [exact Hfile |]. cbn [append_test lines_dict]. lia. }
  destruct (ledger_open_spec (md5 file_path) st) as (Ho & Hf & _ & Hk & Hoff).
  destruct (ledger_open (md5 file_path) st) as [offset st1]. cbn [fst snd] in *.
  cbn [emit files]. rewrite Hf, Hfile. subst offset.
  destruct (findCodes _ _) as [[[start line_num] codes]|] eqn:Hfind; [| discriminate].
  destruct (solve3776_loop _ _ _ _ _ _ _) as [[| | new_codes add_lines]|] eqn:Hloop;
    try discriminate.
  - intros [= <-]. exists text. split; [cbn; now rewrite Hf |].
    cbn [append_test emit lines_dict]. rewrite Hoff. lia.
  - intros [= <-]. exists text. split; [cbn; now rewrite Hf |].
    cbn [emit lines_dict]. rewrite Hoff. lia.
  - unfold ledger_add. cbn [write emit lines_dict]. rewrite Hk. intros [= <-].
    exists new_codes. cbn [emit set_ledger write files lines_dict].
    split; [apply lookup_insert_eq |].
    rewrite offset_of_insert. destruct (decide (md5 file_path = md5 file_path)); [| congruence].
    apply solve3776_loop_growth in Hloop; try lia.
    + destruct Hloop as [Hp Hc]. rewrite (readlines_length _ Hp).
      simpl count_nl in Hc. lia.
    + now apply readlines_terminated.
    + exact (findCodes_line_num _ _ _ _ _ Hfind).
    + reflexivity.
Qed.

End LedgerGrowth.

Lemma solve3776_ledger_tracks_line_growth_witness :
  exists text',
    files (final (solve3776 path_key clean_finding (one_file "a.go" (Py.join stacked_ifs))))
      !! "a.go" = Some text'
    /\ Z.of_nat (length (Py.readlines text'))
       - Z.of_nat (length (Py.readlines (Py.join stacked_ifs)))
       = offset_of (lines_dict (final (solve3776 path_key clean_finding
                                         (one_file "a.go" (Py.join stacked_ifs))))) "a.go"
         - offset_of (lines_dict (one_file "a.go" (Py.join stacked_ifs))) "a.go".
Proof.
  apply (solve3776_ledger_tracks_line_growth path_key clean_finding
           (one_file "a.go" (Py.join stacked_ifs)) _ (Py.join stacked_ifs));
    reflexivity.
Defined.

Section EmptyBody.
Import Py PyFacts.

Variable md5 : string -> string.

Lemma segment_app lines index a b :
  segment lines index (a + b)
  = segment lines index a +:+ segment lines (index + Z.of_nat a) b.
Proof.
  revert index. induction a as [|a IH]; intros index.
  - cbn [segment Nat.add]. simpl. now rewrite Z.add_0_r.
  - cbn [segment Nat.add]. rewrite IH, sapp_assoc. do 3 f_equal. lia.
Qed.

Lemma item_cons_succ {A} (x : A) l i : 0 <= i -> item (x :: l) (i + 1) = item l i.
Proof.
  intros Hi. unfold item, norm. cbn [length]. rewrite Nat2Z.inj_succ.
  destruct (Z.leb_spec 0 (i + 1)), (Z.leb_spec 0 i); try lia.
  destruct (Z.ltb_spec (i + 1) (Z.succ (Z.of_nat (length l)))),
           (Z.ltb_spec i (Z.of_nat (length l))); try lia; cbn [andb].
  - replace (Z.to_nat (i + 1)) with (S (Z.to_nat i)) by lia. reflexivity.
  - destruct (Z.ltb_spec (i + 1) 0), (Z.ltb_spec i 0); try lia.
    now rewrite !andb_false_r.
Qed.

Lemma segment_cons x l i k : 0 <= i -> segment (x :: l) (i + 1) k = segment l i k.
Proof.
  revert i. induction k as [|k IH]; intros i Hi; cbn [segment]; [reflexivity |].
  rewrite item_cons_succ by exact Hi. rewrite IH by lia. reflexivity.
Qed.

Lemma segment_all lines : segment lines 0 (length lines) = join lines.
Proof.
  induction lines as [|x l IH]; [reflexivity |].
  cbn [length segment]. change (0 + 1) with 1. 
  rewrite (segment_cons x l 0) by lia. rewrite IH. reflexivity.
Qed.

Lemma findCodes_fwd_segment lines n pos codes pos' codes' :
  findCodes_fwd n lines pos codes = Ok (pos', codes') ->
  0 <= pos -> Z.of_nat (length lines) - pos <= Z.of_nat n ->
  codes' = codes +:+ segment lines pos
                       (Z.to_nat (Z.min (pos' + 1) (Z.of_nat (length lines)) - pos)).
Proof.
  revert pos codes. induction n as [|n IH]; intros pos codes; cbn [findCodes_fwd].
  - intros [= <- <-] Hp Hn.
    replace (Z.to_nat _) with O by lia. cbn [segment]. now rewrite sapp_nil_r.
  - destruct (pos <? Z.of_nat (length lines)) eqn:E.
    2: { intros [= <- <-] Hp Hn. replace (Z.to_nat _) with O by lia. cbn [segment].
         now rewrite sapp_nil_r. }
    destruct (getitem lines pos) as [line|] eqn:El; [| discriminate]. cbn [bind].
    destruct (getchar line 0) as [c|]; [| discriminate]. cbn [bind].
    apply getitem_Ok in El. destruct (Ascii.eqb c "}").
    + intros [= <- <-] Hp Hn.
      replace (Z.to_nat _) with 1%nat by lia. cbn [segment]. now rewrite El, sapp_nil_r.
    + intros H Hp Hn. pose proof (findCodes_fwd_mono _ _ _ _ _ _ H) as Hm.
      apply IH in H; try lia. rewrite H, sapp_assoc. f_equal.
      replace (Z.to_nat (Z.min (pos' + 1) (Z.of_nat (length lines)) - pos))
        with (S (Z.to_nat (Z.min (pos' + 1) (Z.of_nat (length lines)) - (pos + 1)))) by lia.
      cbn [segment]. now rewrite El.
Qed.

Lemma findCodes_codes_segment lines cand start line_num codes :
  findCodes lines cand = Ok (start, line_num, codes) -> 0 <= start ->
  codes = segment lines start
            (Z.to_nat (Z.min line_num (Z.of_nat (length lines) - start))).
Proof.
  intros H Hs. pose proof (findCodes_start_in_file _ _ _ _ _ H) as Hlen.
  unfold findCodes in H.
  destruct (findCodes_back _ _ _) as [s|]; [| discriminate]. cbn [bind] in H.
  destruct (getitem lines s) as [first|] eqn:Ef; [| discriminate]. cbn [bind] in H.
  apply getitem_Ok in Ef. destruct (find first "}" >? 0).
  - injection H as <- <- <-. replace (Z.to_nat _) with 1%nat by lia.
    cbn [segment]. now rewrite Ef, sapp_nil_r.
  - destruct (findCodes_fwd _ _ _ _) as [[pos cs]|] eqn:Efw; [| discriminate].
    cbn [bind] in H. injection H as <- <- <-.
    pose proof (findCodes_fwd_mono _ _ _ _ _ _ Efw) as Hm.
    apply findCodes_fwd_segment in Efw; try lia. rewrite Efw.
    replace (Z.to_nat (Z.min (pos - s + 1) (Z.of_nat (length lines) - s)))
      with (S (Z.to_nat (Z.min (pos + 1) (Z.of_nat (length lines)) - (s + 1)))) by lia.
    cbn [segment]. now rewrite Ef.
Qed.

Lemma solve1186_loop_copy lines start line_num codes :
  fillEmpty codes line_num = (codes, 0) ->
  1 <= line_num ->
  (0 <= start ->
   codes = segment lines start
             (Z.to_nat (Z.min line_num (Z.of_nat (length lines) - start)))) ->
  forall n index new_codes add_lines,
    0 <= index ->
    index <= start \/ start + line_num <= index \/ start < 0 ->
    Z.of_nat (length lines) - index <= Z.of_nat n ->
    solve1186_loop n lines start line_num codes index new_codes add_lines
    = Ok (new_codes +:+ segment lines index (Z.to_nat (Z.of_nat (length lines) - index)),
          add_lines).
Proof.
  intros Hfill Hln Hcodes. induction n as [|n IH]; intros index new_codes add_lines Hi Hpos Hn;
    cbn [solve1186_loop].
  - replace (Z.to_nat _) with O by lia. cbn [segment]. now rewrite sapp_nil_r.
  - destruct (index <? Z.of_nat (length lines)) eqn:E.
    2: { replace (Z.to_nat _) with O by lia. cbn [segment]. now rewrite sapp_nil_r. }
    destruct (index =? start) eqn:Es.
    + assert (index = start) as -> by lia. rewrite Hfill.
      rewrite IH by lia. rewrite Z.add_0_r, sapp_assoc. do 2 f_equal.
      rewrite Hcodes at 1 by lia.
      destruct (Z.le_gt_cases line_num (Z.of_nat (length lines) - start)) as [Hle | Hgt].
      * replace (Z.to_nat (Z.of_nat (length lines) - start))
          with (Z.to_nat line_num + Z.to_nat (Z.of_nat (length lines) - (start + line_num)))%nat
          by lia.
        rewrite segment_app. replace (Z.min _ _) with line_num by lia.
        replace (start + Z.of_nat (Z.to_nat line_num)) with (start + line_num) by lia.
        reflexivity.
      * replace (Z.to_nat (Z.of_nat (length lines) - (start + line_num))) with O by lia.
        cbn [segment]. rewrite sapp_nil_r.
        replace (Z.min line_num (Z.of_nat (length lines) - start))
          with (Z.of_nat (length lines) - start) by lia.
        reflexivity.
    + destruct (item_in_range lines index) as [line Hl]; [lia |].
      rewrite (item_getitem _ _ _ Hl). cbn [bind]. rewrite IH by lia.
      replace (Z.to_nat (Z.of_nat (length lines) - index))
        with (S (Z.to_nat (Z.of_nat (length lines) - (index + 1)))) by lia.
      cbn [segment]. now rewrite Hl, sapp_assoc.
Qed.

(** The empty-body filler rewrites spans of one or two lines only: when
    no function line is found at or before the reported line, or the
    located span has more than two lines, the file is written back with
    the text it had and the ledger entry is unchanged. *)
Theorem solve1186_leaves_long_spans p st text start line_num codes :
  let file_path := replace1 (resource p) "/" "" in
  files st !! file_path = Some text ->
  findCodes (readlines text)
    (offset_of (lines_dict st) (md5 file_path) + startLineNumber p - 1)
    = Ok (start, line_num, codes) ->
  start < 0 \/ 2 < line_num ->
  exists st',
    solve1186 md5 p st = Returned st'
    /\ files st' = files st
    /\ forall key, offset_of (lines_dict st') key = offset_of (lines_dict st) key.
Proof.
  intros file_path Hfile Hfind Hlong. unfold solve1186. fold file_path.
  destruct (ledger_open_spec (md5 file_path) st) as (Ho & Hf & _ & Hk & Hoff).
  destruct (ledger_open (md5 file_path) st) as [offset st1]. cbn [fst snd] in *.
  cbn [emit files]. rewrite Hf, Hfile. subst offset. rewrite Hfind.
  pose proof (findCodes_line_num _ _ _ _ _ Hfind) as Hln.
  assert (Hcopy : solve1186_loop (length (readlines text)) (readlines text) start line_num
                    codes 0 "" 0 = Ok (text, 0)).
  { destruct Hlong as [Hneg | Hlong].
    - clear Hfind. revert codes.
      assert (Hgen : forall n index new_codes codes,
                 0 <= index -> Z.of_nat (length (readlines text)) - index <= Z.of_nat n ->
                 solve1186_loop n (readlines text) start line_num codes index new_codes 0
                 = Ok (new_codes +:+ segment (readlines text) index
                         (Z.to_nat (Z.of_nat (length (readlines text)) - index)), 0)).
      { induction n as [|n IH]; intros index new_codes codes Hi Hn; cbn [solve1186_loop].
        - replace (Z.to_nat _) with O by lia. cbn [segment]. now rewrite sapp_nil_r.
        - destruct (index <? Z.of_nat (length (readlines text))) eqn:E.
          2: { replace (Z.to_nat _) with O by lia. cbn [segment]. now rewrite sapp_nil_r. }
          replace (index =? start) with false by lia.
          destruct (item_in_range (readlines text) index) as [line Hl]; [lia |].
          rewrite (item_getitem _ _ _ Hl). cbn [bind]. rewrite IH by lia.
          replace (Z.to_nat (Z.of_nat (length (readlines text)) - index))
            with (S (Z.to_nat (Z.of_nat (length (readlines text)) - (index + 1)))) by lia.
          cbn [segment]. now rewrite Hl, sapp_assoc. }
      intros codes. rewrite Hgen by lia. rewrite Z.sub_0_r, Nat2Z.id, segment_all.
      now rewrite readlines_join.
    - rewrite (solve1186_loop_copy (readlines text) start line_num codes); try lia.
      + rewrite Z.sub_0_r, Nat2Z.id, segment_all. now rewrite readlines_join.
      + unfold fillEmpty. replace (line_num =? 1) with false by lia.
        replace (line_num =? 2) with false by lia. reflexivity.
      + intros Hs. exact (findCodes_codes_segment _ _ _ _ _ Hfind Hs). }
  rewrite Hcopy. unfold ledger_add. cbn [write emit lines_dict]. rewrite Hk.
  eexists. split; [reflexivity |]. cbn [emit set_ledger write files lines_dict]. split.
  - rewrite Hf. now apply insert_id.
  - intros key. rewrite offset_of_insert. destruct (decide (md5 file_path = key)) as [<- | Hne].
    + rewrite Z.add_0_r. reflexivity.
    + apply Hoff.
Qed.

End EmptyBody.

Lemma solve1186_leaves_long_spans_witness :
  exists st',
    solve1186 path_key first_empty (one_file "a.go" (Py.join stacked_ifs)) = Returned st'
    /\ files st' = files (one_file "a.go" (Py.join stacked_ifs))
    /\ forall key, offset_of (lines_dict st') key
                   = offset_of (lines_dict (one_file "a.go" (Py.join stacked_ifs))) key.
Proof.
  apply (solve1186_leaves_long_spans path_key first_empty
           (one_file "a.go" (Py.join stacked_ifs)) (Py.join stacked_ifs) 0 6
           (Py.join stacked_ifs)).
  - reflexivity.
  - reflexivity.
  - right. lia.
Defined.

Section NestedFunctions.
Import Py PyFacts.

Variable md5 : string -> string.
Variable sample : nat -> string.

Lemma getchar_char_at s i c : getchar s i = Ok c <-> char_at s i = Some c.
Proof. unfold getchar. destruct (char_at s i); split; congruence. Qed.

Lemma findEndFunc_loop_sound lines pos end_ n index codes func_lines codes' l :
  findEndFunc_loop n lines pos index end_ codes func_lines = Ok (codes', l) ->
  0 <= func_lines ->
  l = -1
  \/ exists k : nat,
       l = func_lines + Z.of_nat k /\ index + Z.of_nat k < end_
       /\ (exists line, item lines (index + Z.of_nat k) = Some line
                        /\ char_at line pos = Some "}"%char
                        /\ char_at line (pos + 1) = Some ")"%char)
       /\ codes' = codes +:+ dedented lines pos index k +:+ "}" +:+ nl +:+ nl.
Proof.
  revert index codes func_lines. induction n as [|n IH]; intros index codes func_lines;
    cbn [findEndFunc_loop].
  - intros [= _ <-] _. now left.
  - destruct (index <? end_) eqn:E; [| intros [= _ <-] _; now left].
    destruct (getitem lines index) as [line|] eqn:El; [| discriminate]. cbn [bind].
    apply getitem_Ok in El.
    destruct (len line >? pos) eqn:Elen.
    + destruct (getchar line pos) as [c|] eqn:Ec; [| discriminate]. cbn [bind].
      destruct (Ascii.eqb c "}") eqn:Eb.
      * destruct (getchar line (pos + 1)) as [c2|] eqn:Ec2; [| discriminate]. cbn [bind].
        destruct (Ascii.eqb c2 ")") eqn:Eb2.
        -- intros [= <- <-] Hf. right. exists O. rewrite !Z.add_0_r.
           split; [reflexivity |]. split; [lia |]. split; [| reflexivity].
           exists line. apply Ascii.eqb_eq in Eb, Eb2. subst c c2.
           split; [exact El |]. split; now apply getchar_char_at.
        -- intros H Hf. apply IH in H; [| lia].
           destruct H as [-> | (k & -> & Hk & Hclose & ->)]; [now left |].
           right. exists (S k). split; [lia |]. split; [lia |]. split.
           ++ replace (index + Z.of_nat (S k)) with (index + 1 + Z.of_nat k) by lia.
              exact Hclose.
           ++ cbn [dedented]. rewrite El. now rewrite !sapp_assoc.
      * cbn [bind]. intros H Hf. apply IH in H; [| lia].
        destruct H as [-> | (k & -> & Hk & Hclose & ->)]; [now left |].
        right. exists (S k). split; [lia |]. split; [lia |]. split.
        -- replace (index + Z.of_nat (S k)) with (index + 1 + Z.of_nat k) by lia.
           exact Hclose.
        -- cbn [dedented]. rewrite El. now rewrite !sapp_assoc.
    + cbn [bind]. intros H Hf. apply IH in H; [| lia].
      destruct H as [-> | (k & -> & Hk & Hclose & ->)]; [now left |].
      right. exists (S k). split; [lia |]. split; [lia |]. split.
      * replace (index + Z.of_nat (S k)) with (index + 1 + Z.of_nat k) by lia.
        exact Hclose.
      * cbn [dedented]. rewrite El. now rewrite !sapp_assoc.
Qed.

Lemma findEndFunc_sound lines col start end_ func_name codes l :
  findEndFunc lines col start end_ func_name = Ok (codes, l) ->
  exists first,
    item lines start = Some first
    /\ (l = -1
        \/ (2 <= l /\ start + l <= end_
            /\ (exists line,
                  item lines (start + l - 1) = Some line
                  /\ char_at line (rfind first tab + 1) = Some "}"%char
                  /\ char_at line (rfind first tab + 1 + 1) = Some ")"%char)
            /\ codes
               = replace (slice first (Some col) (Some (-1))) "func("
                   ("func " +:+ func_name +:+ "(") +:+ nl
                 +:+ dedented lines (rfind first tab + 1) (start + 1) (Z.to_nat (l - 2))
                 +:+ "}" +:+ nl +:+ nl)).
Proof.
  unfold findEndFunc. destruct (getitem lines start) as [first|] eqn:Ef; [| discriminate].
  cbn [bind]. intros H. exists first. split; [now apply getitem_Ok |].
  apply findEndFunc_loop_sound in H; [| lia].
  destruct H as [-> | (k & -> & Hk & Hclose & ->)]; [now left |].
  right. split; [lia |]. split; [lia |]. split.
  - replace (start + (2 + Z.of_nat k) - 1) with (start + 1 + Z.of_nat k) by lia. exact Hclose.
  - replace (Z.to_nat (2 + Z.of_nat k - 2)) with k by lia. now rewrite !sapp_assoc.
Qed.

(** A result of [findEndFunc] that is not the failure signal counts the
    lines of the function literal, from its opening line to the first
    later line, before the end of the search, whose characters at the
    opening line's indentation are a closing brace and parenthesis.  The
    text returned is the renamed header, the lines in between without
    their indentation, and a closing brace followed by an empty line. *)
Theorem findEndFunc_counts_lines_to_closing lines col start end_ func_name codes l :
  findEndFunc lines col start end_ func_name = Ok (codes, l) ->
  exists first,
    item lines start = Some first
    /\ (l = -1
        \/ (2 <= l /\ start + l <= end_
            /\ (exists line,
                  item lines (start + l - 1) = Some line
                  /\ char_at line (rfind first tab + 1) = Some "}"%char
                  /\ char_at line (rfind first tab + 1 + 1) = Some ")"%char)
            /\ codes
               = replace (slice first (Some col) (Some (-1))) "func("
                   ("func " +:+ func_name +:+ "(") +:+ nl
                 +:+ dedented lines (rfind first tab + 1) (start + 1) (Z.to_nat (l - 2))
                 +:+ "}" +:+ nl +:+ nl)).
Proof. exact (findEndFunc_sound lines col start end_ func_name codes l). Qed.

Lemma reduceComplexity_func_loop_none lines start end_ n index new_code add_code new_lines k :
  (forall j, index <= j < end_ ->
     exists line, item lines j = Some line /\ (start < j -> func_literal line = false)) ->
  reduceComplexity_func_loop sample n lines start end_ index new_code add_code new_lines None k
  = (k, Raise UnboundLocalError).
Proof.
  revert index new_code. induction n as [|n IH]; intros index new_code Hno;
    cbn [reduceComplexity_func_loop]; [reflexivity |].
  destruct (index <? end_) eqn:E; [| reflexivity].
  destruct (Hno index) as (line & Hl & Hlit); [lia |].
  rewrite (item_getitem _ _ _ Hl).
  replace ((index >? start) && (find line "func(" >=? 0) && (find line "{" >? 0)
           && (find line "if" <? 0))
    with false.
  - apply IH. intros j Hj. apply Hno. lia.
  - rewrite <- !andb_assoc. destruct (index >? start) eqn:Es; [| reflexivity].
    cbn [andb]. rewrite andb_assoc. symmetry. apply Hlit. lia.
Qed.

(** When no line of the span after its first holds a function literal to
    extract, [reduceComplexity_func] reads a variable that was never
    assigned (line 222) and raises instead of returning the span. *)
Theorem reduceComplexity_func_without_literal_raises lines start line_num k :
  (forall j, start <= j < start + line_num ->
     exists line, item lines j = Some line /\ (start < j -> func_literal line = false)) ->
  reduceComplexity_func sample lines start line_num k = (k, Raise UnboundLocalError).
Proof. intros H. unfold reduceComplexity_func. now apply reduceComplexity_func_loop_none. Qed.

Lemma solve3776_2_loop_reaches lines start line_num k :
  0 <= start < Z.of_nat (length lines) ->
  forall n index new_codes add_codes add_lines,
    0 <= index <= start -> start - index < Z.of_nat n ->
    exists nc,
      solve3776_2_loop sample n lines start line_num index new_codes add_codes add_lines k
      = solve3776_2_loop sample (n - Z.to_nat (start - index)) lines start line_num start
          nc add_codes add_lines k.
Proof.
  intros Hs. induction n as [|n IH]; intros index new_codes add_codes add_lines Hi Hn; [lia |].
  destruct (Z.eq_dec index start) as [-> | Hne].
  - exists new_codes. replace (S n - Z.to_nat (start - start))%nat with (S n) by lia.
    reflexivity.
  - cbn [solve3776_2_loop].
    replace (index <? Z.of_nat (length lines)) with true by lia.
    replace (index =? start) with false by lia.
    destruct (item_in_range lines index) as [line Hl]; [lia |].
    rewrite (item_getitem _ _ _ Hl).
    destruct (IH (index + 1) (new_codes +:+ line) add_codes add_lines) as [nc Hnc]; [lia | lia |].
    exists nc. rewrite Hnc. f_equal. lia.
Qed.

(** On a located span every line of which exists, and none of whose
    lines after the first holds a function literal to extract, the
    nested-function extractor stops with [UnboundLocalError] and writes
    nothing.  (A span that runs past the end of the file is outside this
    statement.) *)
Theorem solve3776_2_without_literal_raises p st text start line_num codes :
  let file_path := replace1 (resource p) "/" "" in
  let lines := readlines text in
  files st !! file_path = Some text ->
  findCodes lines (offset_of (lines_dict st) (md5 file_path) + startLineNumber p - 1)
    = Ok (start, line_num, codes) ->
  0 <= start ->
  (forall j, start <= j < start + line_num ->
     exists line, item lines j = Some line /\ (start < j -> func_literal line = false)) ->
  exists st',
    solve3776_2 md5 sample p st = Raised UnboundLocalError st'
    /\ files st' = files st
    /\ forall key, offset_of (lines_dict st') key = offset_of (lines_dict st) key.
Proof.
  intros file_path lines Hfile Hfind Hstart Hno. unfold solve3776_2. fold file_path.
  destruct (ledger_open_spec (md5 file_path) st) as (Ho & Hf & _ & Hk & Hoff).
  destruct (ledger_open (md5 file_path) st) as [offset st1]. cbn [fst snd] in *.
  cbn [emit files]. rewrite Hf, Hfile. fold lines. subst offset. rewrite Hfind.
  pose proof (findCodes_start_in_file _ _ _ _ _ Hfind) as Hlen.
  destruct (solve3776_2_loop_reaches lines start line_num (draws st1) ltac:(lia)
              (length lines) 0 "" "" 0) as [nc Hnc]; [lia | lia |].
  cbn [emit draws]. rewrite Hnc.
  destruct (length lines - Z.to_nat (start - 0))%nat as [|m] eqn:Em; [lia |].
  cbn [solve3776_2_loop]. replace (start <? Z.of_nat (length lines)) with true by lia.
  rewrite Z.eqb_refl.
  unfold reduceComplexity_func. rewrite (reduceComplexity_func_loop_none _ _ _ _ _ _ _ _ _ Hno).
  eexists. split; [reflexivity |]. split; [exact Hf | exact Hoff].
Qed.

End NestedFunctions.

Lemma findEndFunc_counts_lines_to_closing_witness :
  exists first,
    Py.item go_routine 1 = Some first
    /\ (3 = -1
        \/ (2 <= 3 /\ 1 + 3 <= 5
            /\ (exists line,
                  Py.item go_routine (1 + 3 - 1) = Some line
                  /\ Py.char_at line (Py.rfind first Py.tab + 1) = Some "}"%char
                  /\ Py.char_at line (Py.rfind first Py.tab + 1 + 1) = Some ")"%char)
            /\ "func NestedFunc0123() {" +:+ Py.nl +:+ indented 1 "x()" +:+ "}" +:+ Py.nl +:+ Py.nl
               = Py.replace (Py.slice first (Some 4) (Some (-1))) "func("
                   ("func " +:+ "NestedFunc0123" +:+ "(") +:+ Py.nl
                 +:+ dedented go_routine (Py.rfind first Py.tab + 1) (1 + 1) (Z.to_nat (3 - 2))
                 +:+ "}" +:+ Py.nl +:+ Py.nl)).
Proof.
  apply (findEndFunc_counts_lines_to_closing go_routine 4 1 5 "NestedFunc0123").
  reflexivity.
Defined.

Lemma reduceComplexity_func_without_literal_raises_witness :
  reduceComplexity_func same_digits stacked_ifs 0 6 0 = (O, Raise UnboundLocalError).
Proof.
  apply (reduceComplexity_func_without_literal_raises same_digits stacked_ifs 0 6 0).
  intros j Hj.
  assert (j = 0 \/ j = 1 \/ j = 2 \/ j = 3 \/ j = 4 \/ j = 5) as Hcases by lia.
  destruct Hcases as [-> | [-> | [-> | [-> | [-> | ->]]]]];
    (eexists; split; [reflexivity | intros _; reflexivity]).
Defined.

Lemma solve3776_2_without_literal_raises_witness :
  exists st',
    solve3776_2 path_key same_digits clean_finding (one_file "a.go" (Py.join stacked_ifs))
    = Raised UnboundLocalError st'
    /\ files st' = files (one_file "a.go" (Py.join stacked_ifs))
    /\ forall key, offset_of (lines_dict st') key
                   = offset_of (lines_dict (one_file "a.go" (Py.join stacked_ifs))) key.
Proof.
  apply (solve3776_2_without_literal_raises path_key same_digits clean_finding
           (one_file "a.go" (Py.join stacked_ifs)) (Py.join stacked_ifs) 0 6
           (Py.join stacked_ifs)).
  - reflexivity.
  - reflexivity.
  - lia.
  - intros j Hj.
    assert (j = 0 \/ j = 1 \/ j = 2 \/ j = 3 \/ j = 4 \/ j = 5) as Hcases by lia.
    destruct Hcases as [-> | [-> | [-> | [-> | [-> | ->]]]]];
      (eexists; split; [reflexivity | intros _; reflexivity]).
Defined.

Section NestedGrowth.
Import Py PyFacts.

Variable sample : nat -> string.
Hypothesis sample_one_line : forall k, count_nl (sample k) = O.

Lemma pending_no_nl cur s : count_nl s = O -> pending cur s = cur +:+ s.
Proof.
  revert cur. induction s as [|c s IH]; intros cur H; cbn [pending count_nl] in *.
  - now rewrite sapp_nil_r.
  - destruct (Ascii.eqb c "010"); [discriminate |].
    rewrite IH by exact H. now rewrite sapp_assoc.
Qed.

Lemma sapp_nil_inv a b : a +:+ b = "" -> a = "" /\ b = "".
Proof. destruct a; simpl; [auto | discriminate]. Qed.

Lemma take_terminated line k :
  terminated line = true -> (k < String.length line)%nat -> count_nl (take k line) = O.
Proof.
  intros Ht Hk. unfold terminated in Ht. apply andb_true_iff in Ht as [Hc Hp].
  apply Nat.eqb_eq in Hc. apply String.eqb_eq in Hp.
  rewrite <- (take_drop k line) in Hc, Hp. rewrite count_nl_app in Hc.
  destruct (count_nl (take k line)) as [|m] eqn:Em; [reflexivity |].
  assert (Hd : count_nl (drop k line) = O) by lia.
  rewrite pending_app, (pending_no_nl _ _ Hd) in Hp.
  apply sapp_nil_inv in Hp as [_ Hp].
  pose proof (length_drop k line) as Hlen. rewrite Hp in Hlen. simpl in Hlen. lia.
Qed.

Lemma prefix_before_literal line :
  terminated line = true -> 0 <= find line "func(" ->
  count_nl (slice line None (Some (find line "func("))) = O.
Proof.
  intros Ht Hf. destruct (find_found _ _ Hf) as (k & Hk & [Hle Hst] & _).
  apply starts_length in Hst. rewrite length_drop in Hst. simpl in Hst.
  unfold slice, clamp. rewrite Hk. replace (Z.of_nat k <? 0) with false by lia.
  rewrite drop_0, Nat.sub_0_r. apply take_terminated; [exact Ht |]. unfold len. lia.
Qed.

Lemma reduceComplexity_func_loop_growth lines start end_ n index new_code add_code new_lines
    fl k k' code status delta add :
  reduceComplexity_func_loop sample n lines start end_ index new_code add_code new_lines fl k
  = (k', Ok (code, status, delta, add)) ->
  0 <= status -> index <= end_ -> end_ - index <= Z.of_nat n ->
  (forall j line, index <= j < end_ -> item lines j = Some line -> terminated line = true) ->
  Z.of_nat (count_nl code)
  = Z.of_nat (count_nl new_code) + (end_ - index) + (delta - new_lines)
  /\ (pending "" new_code = "" -> pending "" code = "").
Proof.
  revert index new_code add_code new_lines fl k.
  induction n as [|n IH]; intros index new_code add_code new_lines fl k;
    cbn [reduceComplexity_func_loop].
  - destruct fl; [| discriminate]. intros [= _ <- _ <- _] _ Hi Hn _. split; [lia | auto].
  - destruct (index <? end_) eqn:E.
    2: { destruct fl; [| discriminate]. intros [= _ <- _ <- _] _ Hi Hn _.
         split; [lia | auto]. }
    destruct (getitem lines index) as [line|] eqn:El; [| discriminate].
    apply getitem_Ok in El.
    destruct ((index >? start) && (find line "func(" >=? 0) && (find line "{" >? 0)
              && (find line "if" <? 0)) eqn:Eq.
    + destruct (findEndFunc lines (find line "func(") index end_ ("NestedFunc" +:+ sample k))
        as [[codes l]|] eqn:Ef; [| discriminate].
      destruct (l <? 0) eqn:Elt.
      { intros [= _ _ <- _ _] Hst. lia. }
      apply findEndFunc_sound in Ef.
      destruct Ef as (first & _ & [-> | (Hl & Hle & _)]); [lia |].
      intros H Hst Hi Hn Hterm. apply IH in H; try lia; [| intros j l' Hj; apply Hterm; lia].
      destruct H as [Hc Hp]. split.
      * rewrite Hc. rewrite !count_nl_app. rewrite sample_one_line.
        rewrite prefix_before_literal; [simpl count_nl; lia | | lia].
        apply (Hterm index); [lia | exact El].
      * intros _. apply Hp. rewrite !pending_app. reflexivity.
    + intros H Hst Hi Hn Hterm.
      pose proof (Hterm index line ltac:(lia) El) as Ht.
      apply IH in H; try lia; [| intros j l' Hj; apply Hterm; lia].
      destruct H as [Hc Hp]. split.
      * rewrite Hc, count_nl_app. unfold terminated in Ht.
        apply andb_true_iff in Ht as [Ht _]. apply Nat.eqb_eq in Ht. lia.
      * intros _. apply Hp. now apply pending_line.
Qed.

(** Whenever the function extractor succeeds on a span of terminated
    lines, with names drawn that hold no newline, the delta it reports
    is the growth of the span: each extracted literal of [n] lines
    leaves one line and counts [1 - n]. *)
Theorem reduceComplexity_func_delta_is_growth lines start line_num k k' code status delta add :
  reduceComplexity_func sample lines start line_num k = (k', Ok (code, status, delta, add)) ->
  0 <= status -> 0 <= line_num ->
  (forall j line, start <= j < start + line_num -> item lines j = Some line ->
     terminated line = true) ->
  Z.of_nat (length (readlines code)) = line_num + delta.
Proof.
  unfold reduceComplexity_func. intros H Hst Hn Hterm.
  apply reduceComplexity_func_loop_growth in H; try lia; [| exact Hterm].
  destruct H as [Hc Hp]. rewrite readlines_length by (apply Hp; reflexivity).
  rewrite Hc. simpl count_nl. lia.
Qed.

End NestedGrowth.

Lemma reduceComplexity_func_delta_is_growth_witness :
  Z.of_nat (length (Py.readlines
     (Py.join [ indented 0 "func f() {"; indented 1 "go NestedFunc0123)"; indented 0 "}" ])))
  = 5 + -2.
Proof.
  apply (reduceComplexity_func_delta_is_growth same_digits (fun _ => eq_refl)
           go_routine 0 5 0 1 _ 1 (-2)
           ("func NestedFunc0123() {" +:+ Py.nl +:+ indented 1 "x()" +:+ "}" +:+ Py.nl +:+ Py.nl)).
  - reflexivity.
  - lia.
  - lia.
  - intros j line Hj Hl.
    assert (j = 0 \/ j = 1 \/ j = 2 \/ j = 3 \/ j = 4) as Hcases by lia.
    destruct Hcases as [-> | [-> | [-> | [-> | ->]]]]; injection Hl as <-; reflexivity.
Defined.

Section MainFrame.
Import Py PyFacts.

Variable sample : nat -> string.

Lemma solve1192_frame p st :
  lines_dict (final (solve1192 sample p st)) = lines_dict st
  /\ test_file_list (final (solve1192 sample p st)) = test_file_list st
  /\ forall other, resource p <> other ->
       files (final (solve1192 sample p st)) !! other = files st !! other.
Proof.
  unfold solve1192. destruct (files st !! resource p) as [codes|]; [| now cbn].
  destruct (literal_guard codes (getLiteral (message p))); [now cbn |].
  cbn [final write set_draws files lines_dict test_file_list].
  split; [reflexivity |]. split; [reflexivity |].
  intros other Hne. now apply lookup_insert_ne.
Qed.

(** A run of [main] never touches the ledger or the list of test files,
    and changes no file other than those named by the findings of rule
    [go:S1192]. *)
Theorem main_changes_only_S1192_resources problems st :
  lines_dict (final (main sample problems st)) = lines_dict st
  /\ test_file_list (final (main sample problems st)) = test_file_list st
  /\ forall other,
       (forall p, In p problems -> is_S1192 p = true -> resource p <> other) ->
       files (final (main sample problems st)) !! other = files st !! other.
Proof.
  revert st. induction problems as [|p rest IH]; intros st; cbn [main].
  - now cbn.
  - fold (is_S1192 p). destruct (is_S1192 p) eqn:Ep.
    + destruct (solve1192_frame p st) as (Hd & Ht & Hf).
      destruct (solve1192 sample p st) as [st1 | e st1]; cbn [final] in *.
      * destruct (IH st1) as (Hd' & Ht' & Hf').
        split; [congruence |]. split; [congruence |].
        intros other Hother. rewrite Hf'.
        -- apply Hf. apply Hother; [now left | exact Ep].
        -- intros q Hq. apply Hother. now right.
      * split; [exact Hd |]. split; [exact Ht |].
        intros other Hother. apply Hf. apply Hother; [now left | exact Ep].
    + destruct (IH st) as (Hd' & Ht' & Hf').
      split; [exact Hd' |]. split; [exact Ht' |].
      intros other Hother. apply Hf'. intros q Hq. apply Hother. now right.
Qed.

End MainFrame.

Section RenameTwice.
Import Py PyFacts.

Lemma starts_through_replace t s :
  has_char "M" t = false ->
  starts t (replace s "RuntimeException(" "MultiPathRuntimeError(") = true ->
  starts t s = true.
Proof.
  revert s. induction t as [|a t IH]; intros s Hm H; [reflexivity |].
  cbn [has_char] in Hm. apply orb_false_iff in Hm as [Ha Hm].
  rewrite replace_unfold in H by discriminate.
  destruct (starts "RuntimeException(" s).
  - cbn [String.append starts] in H. rewrite Ascii.eqb_sym, Ha in H. discriminate.
  - destruct s as [|c s]; [discriminate |]. cbn [starts] in *.
    destruct (Ascii.eqb a c); [| discriminate]. now apply IH.
Qed.

Lemma replace_never_starts_old s :
  starts "RuntimeException(" (replace s "RuntimeException(" "MultiPathRuntimeError(") = false.
Proof.
  destruct (starts _ (replace _ _ _)) eqn:E; [| reflexivity].
  pose proof (starts_through_replace "RuntimeException(" s eq_refl E) as Hs.
  rewrite replace_unfold, Hs in E by discriminate. discriminate.
Qed.

Lemma replace_leaves_no_old n s k :
  (String.length s <= n)%nat ->
  ~ occurs "RuntimeException(" (replace s "RuntimeException(" "MultiPathRuntimeError(") k.
Proof.
  revert s k. induction n as [|n IH]; intros s k Hn Hocc.
  - destruct s; [| simpl in Hn; lia]. rewrite replace_nil in Hocc by discriminate.
    destruct Hocc as [Hk Hs]. destruct k; [discriminate | simpl in Hk; lia].
  - destruct k as [|k].
    { apply occurs_0_inv in Hocc. rewrite replace_never_starts_old in Hocc. discriminate. }
    rewrite replace_unfold in Hocc by discriminate.
    destruct (starts "RuntimeException(" s) eqn:Es.
    + apply starts_length in Es. simpl in Es.
      do 21 (destruct k as [|k]; [destruct Hocc as [_ Hocc]; discriminate |]).
      apply (occurs_app_r "RuntimeException(" "MultiPathRuntimeError(" _ k) in Hocc.
      revert Hocc. apply IH. rewrite length_drop. simpl. lia.
    + destruct s as [|c s]; [destruct Hocc as [Hk _]; simpl in Hk; lia |].
      apply occurs_cons in Hocc. revert Hocc. apply IH. simpl in Hn. lia.
Qed.

Lemma absent_inside sub a m b :
  (forall k, ~ occurs sub (a +:+ m +:+ b) k) -> forall k, ~ occurs sub m k.
Proof.
  intros H k [Hk Hs]. apply (H (String.length a + k)%nat). apply occurs_app_r. split.
  - rewrite length_app. lia.
  - rewrite drop_app_le by exact Hk. now apply starts_app_true.
Qed.

Lemma slice_inside s lo hi : exists a b, s = a +:+ slice s lo hi +:+ b.
Proof.
  unfold slice.
  set (l := match lo with Some i => clamp (len s) i | None => O end).
  set (h := match hi with Some i => clamp (len s) i | None => String.length s end).
  exists (take l s), (drop (h - l) (drop l s)). now rewrite !take_drop.
Qed.

Lemma absent_slice sub s lo hi :
  (forall k, ~ occurs sub s k) -> forall k, ~ occurs sub (slice s lo hi) k.
Proof.
  intros H. destruct (slice_inside s lo hi) as (a & b & Hs).
  apply (absent_inside sub a _ b). now rewrite <- Hs.
Qed.

Lemma absent_cons sub x b :
  sub <> "" -> has_char x sub = false ->
  (forall k, ~ occurs sub b k) -> forall k, ~ occurs sub (String x b) k.
Proof.
  intros Hne Hx H [|k] Hocc.
  - apply occurs_0_inv in Hocc. destruct sub as [|c sub]; [congruence |].
    cbn [has_char starts] in *. apply orb_false_iff in Hx as [Hx _].
    rewrite Ascii.eqb_sym, Hx in Hocc. discriminate.
  - apply occurs_cons in Hocc. exact (H k Hocc).
Qed.

Lemma absent_sep sub a x b :
  sub <> "" -> has_char x sub = false ->
  (forall k, ~ occurs sub a k) -> (forall k, ~ occurs sub (String x b) k) ->
  forall k, ~ occurs sub (a +:+ String x b) k.
Proof.
  intros Hne Hx Ha Hb k Hocc.
  destruct (Nat.le_gt_cases k (String.length a)) as [Hle | Hgt].
  - destruct Hocc as [_ Hs]. rewrite drop_app_le in Hs by exact Hle.
    apply starts_before_char in Hs; [| exact Hne | exact Hx].
    apply (Ha k). split; [exact Hle | exact Hs].
  - replace k with (String.length a + (k - String.length a))%nat in Hocc by lia.
    apply occurs_app_r in Hocc. exact (Hb _ Hocc).
Qed.

Lemma rename_leaves_no_old codes : find (rename codes) "RuntimeException(" = -1.
Proof.
  apply find_absent. unfold rename.
  set (nc := replace codes "RuntimeException(" "MultiPathRuntimeError(").
  assert (Hnc : forall k, ~ occurs "RuntimeException(" nc k).
  { intros k. now apply (replace_leaves_no_old (String.length codes)). }
  pose proof (absent_slice _ _ None (Some (rfind nc "}")) Hnc) as Ha.
  pose proof (absent_slice _ _ (Some (rfind nc "}")) (Some (-1)) Hnc) as Hb.
  generalize dependent (slice nc (Some (rfind nc "}")) (Some (-1))).
  generalize dependent (slice nc None (Some (rfind nc "}"))).
  intros A HA B HB.
  pose (mid :=
    tab +:+ "private class MultiPathRuntimeError extends RuntimeException{"
      +:+ nl +:+ " "
    +:+ tab +:+ tab +:+ "public MultiPathRuntimeError(String error){" +:+ nl
      +:+ tab +:+ tab +:+ tab +:+ "super(error);" +:+ nl
      +:+ tab +:+ tab +:+ "}" +:+ nl
    +:+ tab +:+ tab +:+ "public MultiPathRuntimeError(String error,Throwable e){" +:+ nl
      +:+ tab +:+ tab +:+ tab +:+ "super(error,e);" +:+ nl
      +:+ tab +:+ tab +:+ "}" +:+ nl
    +:+ tab +:+ "}").
  change (str_java_exception +:+ B) with (String "010" (mid +:+ String "010" B)).
  apply absent_sep; [discriminate | reflexivity | exact HA |].
  apply absent_cons; [discriminate | reflexivity |].
  apply absent_sep; [discriminate | reflexivity | | ].
  - apply find_absent. reflexivity.
  - apply absent_cons; [discriminate | reflexivity | exact HB].
Qed.

(** Running the exception renamer again on a state it returned changes
    nothing: the text it wrote holds no call of [RuntimeException]
    any more, neither in the renamed code nor in the class it added. *)
Theorem solve112_second_run_noop p st st1 :
  solve112 p st = Returned st1 -> solve112 p st1 = Returned st1.
Proof.
  unfold solve112.
  destruct (files st !! replace1 (resource p) "/" "") as [codes|] eqn:Ef; [| discriminate].
  destruct (find codes "RuntimeException(" <? 0) eqn:E.
  - intros [= <-]. now rewrite Ef, E.
  - intros [= <-]. cbn [write files]. rewrite lookup_insert_eq.
    rewrite rename_leaves_no_old. reflexivity.
Qed.

Lemma solve112_second_run_noop_witness :
  solve112 java_finding (final (solve112 java_finding (one_file "A.java" thrower)))
  = Returned (final (solve112 java_finding (one_file "A.java" thrower))).
Proof.
  apply (solve112_second_run_noop java_finding (one_file "A.java" thrower)). reflexivity.
Defined.

End RenameTwice.

Section FillGrowth.
Import Py PyFacts.

Lemma count_nl_without_newline codes : count_nl (without brace_or_newline codes) = O.
Proof.
  induction codes as [|c s IH]; [reflexivity |]. cbn [without].
  destruct (brace_or_newline c) eqn:E; [exact IH |]. cbn [count_nl].
  unfold brace_or_newline in E. apply orb_false_iff in E as [_ E]. now rewrite E.
Qed.

Lemma count_nl_replace_char c s ins :
  Ascii.eqb c "010" = false ->
  count_nl (replace s (String c "") ins)
  = (count_nl s + count_char c s * count_nl ins)%nat.
Proof.
  intros Hc. induction s as [|x s IH].
  - now rewrite replace_nil by discriminate.
  - rewrite replace_char_cons, count_nl_app, IH. cbn [count_char count_nl].
    destruct (Ascii.eqb_spec c x) as [<- | Hne].
    + rewrite Hc. lia.
    + cbn [count_nl]. destruct (Ascii.eqb x "010"); lia.
Qed.

(** For a span of one or two lines, the text [fillEmpty] returns has two
    more newlines for every closing brace of the span, while the delta it
    reports is 2: the delta is the growth exactly when the span holds one
    closing brace. *)
Theorem fillEmpty_grows_two_lines_per_brace codes line_num :
  line_num = 1 \/ line_num = 2 ->
  count_nl (fst (fillEmpty codes line_num))
  = (count_nl codes + 2 * count_char "}" codes)%nat
  /\ (Z.of_nat (count_nl (fst (fillEmpty codes line_num)))
      = Z.of_nat (count_nl codes) + snd (fillEmpty codes line_num)
      <-> count_char "}" codes = 1%nat).
Proof.
  intros Hn.
  assert (Hg : count_nl (fst (fillEmpty codes line_num))
               = (count_nl codes + 2 * count_char "}" codes)%nat).
  { destruct Hn as [-> | ->]; cbv beta iota zeta delta [fillEmpty Z.eqb Pos.eqb fst];
      rewrite strip_is_without, count_nl_replace_char by reflexivity;
      rewrite !count_nl_app, count_nl_without_newline; simpl count_nl; lia. }
  split; [exact Hg |].
  rewrite Hg. replace (snd (fillEmpty codes line_num)) with 2
    by (destruct Hn as [-> | ->]; reflexivity).
  lia.
Qed.

Lemma fillEmpty_grows_two_lines_per_brace_witness :
  count_nl (fst (fillEmpty ("func f() { g(func() {}) }" +:+ nl) 1)) = (1 + 2 * 2)%nat
  /\ (Z.of_nat (count_nl (fst (fillEmpty ("func f() { g(func() {}) }" +:+ nl) 1)))
      = Z.of_nat (count_nl ("func f() { g(func() {}) }" +:+ nl))
        + snd (fillEmpty ("func f() { g(func() {}) }" +:+ nl) 1)
      <-> count_char "}" ("func f() { g(func() {}) }" +:+ nl) = 1%nat).
Proof.
  apply (fillEmpty_grows_two_lines_per_brace ("func f() { g(func() {}) }" +:+ nl) 1).
  left. reflexivity.
Defined.

End FillGrowth.

Section PlainFunctions.
Import Py PyFacts.

Variable md5 : string -> string.
Variable sample : nat -> string.

Lemma solve3776_loop_copy lines start line_num :
  1 <= line_num ->
  (0 <= start ->
   start + line_num <= Z.of_nat (length lines)
   /\ reduceComplexity lines start line_num
      = Ok (segment lines start (Z.to_nat line_num), 1, 0)) ->
  forall n index new_codes add_lines,
    0 <= index ->
    index <= start \/ start + line_num <= index \/ start < 0 ->
    Z.of_nat (length lines) - index <= Z.of_nat n ->
    solve3776_loop n lines start line_num index new_codes add_lines = Ok ExitTest
    \/ solve3776_loop n lines start line_num index new_codes add_lines
       = Ok (ExitDone
               (new_codes +:+ segment lines index (Z.to_nat (Z.of_nat (length lines) - index)))
               add_lines).
Proof.
  intros Hln Hred. induction n as [|n IH]; intros index new_codes add_lines Hi Hpos Hn;
    cbn [solve3776_loop].
  - right. replace (Z.to_nat _) with O by lia. cbn [segment]. now rewrite sapp_nil_r.
  - destruct (index <? Z.of_nat (length lines)) eqn:E.
    2: { right. replace (Z.to_nat _) with O by lia. cbn [segment]. now rewrite sapp_nil_r. }
    destruct (item_in_range lines index) as [line Hl]; [lia |].
    rewrite (item_getitem _ _ _ Hl). cbn [bind].
    destruct ((find line "package" >=? 0) && (find line "test" >=? 0)); [now left |].
    destruct (index =? start) eqn:Es.
    + assert (index = start) as -> by lia. destruct (Hred Hi) as [Hin ->]. cbn [bind].
      replace (1 <? 0) with false by reflexivity.
      destruct (IH (start + line_num) (new_codes +:+ segment lines start (Z.to_nat line_num))
                  (add_lines + 0)) as [Ht | Hd]; try lia; [now left |].
      right. rewrite Hd, Z.add_0_r, sapp_assoc. do 2 f_equal.
      replace (Z.to_nat (Z.of_nat (length lines) - start))
        with (Z.to_nat line_num + Z.to_nat (Z.of_nat (length lines) - (start + line_num)))%nat
        by lia.
      rewrite segment_app.
      replace (start + Z.of_nat (Z.to_nat line_num)) with (start + line_num) by lia.
      reflexivity.
    + destruct (IH (index + 1) (new_codes +:+ line) add_lines) as [Ht | Hd]; try lia;
        [now left |].
      right. rewrite Hd, sapp_assoc. do 2 f_equal.
      replace (Z.to_nat (Z.of_nat (length lines) - index))
        with (S (Z.to_nat (Z.of_nat (length lines) - (index + 1)))) by lia.
      cbn [segment]. now rewrite Hl.
Qed.

(** A located span every line of which exists, and none of which opens
    a block to wrap, is left as it is by the complexity-suppression
    driver, and so is a file in which no function line is found: whether
    the driver returns early or writes the file back, the text of every
    file and every ledger offset are unchanged.  (A span that runs past
    the end of the file is outside this statement.) *)
Theorem solve3776_leaves_plain_functions p st text start line_num codes :
  let file_path := replace1 (resource p) "/" "" in
  let lines := readlines text in
  files st !! file_path = Some text ->
  findCodes lines (offset_of (lines_dict st) (md5 file_path) + startLineNumber p - 1)
    = Ok (start, line_num, codes) ->
  (forall j, 0 <= start <= j -> j < start + line_num -> opens lines j = Ok None) ->
  exists st',
    solve3776 md5 p st = Returned st'
    /\ files st' = files st
    /\ forall key, offset_of (lines_dict st') key = offset_of (lines_dict st) key.
Proof.
  intros file_path lines Hfile Hfind Hplain. unfold solve3776. fold file_path.
  destruct (find file_path "test" >=? 0).
  { eexists. split; [reflexivity |]. split; reflexivity. }
  destruct (ledger_open_spec (md5 file_path) st) as (Ho & Hf & _ & Hk & Hoff).
  destruct (ledger_open (md5 file_path) st) as [offset st1]. cbn [fst snd] in *.
  cbn [emit files]. rewrite Hf, Hfile. fold lines. subst offset. rewrite Hfind.
  pose proof (findCodes_line_num _ _ _ _ _ Hfind) as Hln.
  destruct (solve3776_loop_copy lines start line_num Hln) with
    (n := length lines) (index := 0) (new_codes := "") (add_lines := 0) as [Hl | Hl];
    try lia.
  - intros Hs. split.
    + destruct (opens_item _ _ _ (Hplain (start + line_num - 1) ltac:(lia) ltac:(lia)))
        as [line Hline].
      apply getitem_Ok in Hline. unfold item, norm in Hline.
      destruct ((0 <=? start + line_num - 1)
                && (start + line_num - 1 <? Z.of_nat (length lines))) eqn:E1; [lia |].
      destruct ((- Z.of_nat (length lines) <=? start + line_num - 1)
                && (start + line_num - 1 <? 0)) eqn:E2; [lia | discriminate].
    + unfold reduceComplexity.
      rewrite reduceComplexity_loop_plain; [| lia | intros j Hj; apply Hplain; lia].
      replace (start + line_num - start) with line_num by lia. reflexivity.
  - rewrite Hl. eexists. split; [reflexivity |]. split; [exact Hf | exact Hoff].
  - rewrite Hl. unfold ledger_add. cbn [write emit lines_dict]. rewrite Hk.
    eexists. split; [reflexivity |]. cbn [emit set_ledger write files lines_dict]. split.
    + rewrite Hf. apply insert_id. rewrite Hfile. f_equal.
      rewrite Z.sub_0_r, Nat2Z.id, segment_all. unfold lines. now rewrite readlines_join.
    + intros key. rewrite offset_of_insert.
      destruct (decide (md5 file_path = key)) as [<- | Hne].
      * rewrite Z.add_0_r. reflexivity.
      * apply Hoff.
Qed.

Lemma ledger_add_files key add st :
  files (final (ledger_add key add st)) = files st.
Proof. unfold ledger_add. now destruct (lines_dict st !! key). Qed.

Lemma drive_frame d p st :
  files (final (drive md5 sample d p st)) = files st
  \/ exists text,
       files (final (drive md5 sample d p st))
       = <[replace1 (resource p) "/" "" := text]> (files st).
Proof.
  destruct (ledger_open_spec (md5 (replace1 (resource p) "/" "")) st) as (_ & Hf & _).
  destruct d; cbn [drive].
  - unfold solve3776. destruct (find _ "test" >=? 0); [now left |].
    destruct (ledger_open _ st) as [offset st1]. cbn [fst snd] in Hf.
    destruct (files st1 !! _) as [text|]; [| now left].
    destruct (findCodes _ _) as [[[start line_num] codes]|]; [| now left].
    destruct (solve3776_loop _ _ _ _ _ _ _) as [[| | new_codes add_lines]|];
      try (now left).
    right. exists new_codes. rewrite ledger_add_files. cbn [write emit files]. now rewrite Hf.
  - unfold solve3776_2.
    destruct (ledger_open _ st) as [offset st1]. cbn [fst snd] in Hf.
    destruct (files st1 !! _) as [text|]; [| now left].
    destruct (findCodes _ _) as [[[start line_num] codes]|]; [| now left].
    destruct (solve3776_2_loop _ _ _ _ _ _ _ _ _ _) as [k [[[[new_codes add_codes] add_lines]|]|]];
      [| left; exact Hf | left; exact Hf].
    right. eexists. rewrite ledger_add_files. cbn [write emit set_draws files]. now rewrite Hf.
  - unfold solve1186.
    destruct (ledger_open _ st) as [offset st1]. cbn [fst snd] in Hf.
    destruct (files st1 !! _) as [text|]; [| now left].
    destruct (findCodes _ _) as [[[start line_num] codes]|]; [| now left].
    destruct (solve1186_loop _ _ _ _ _ _ _ _) as [[new_codes add_lines]|]; [| now left].
    right. exists new_codes. rewrite ledger_add_files. cbn [write emit files]. now rewrite Hf.
Qed.

(** A run of the ledger drivers writes no file other than those named
    by its findings (the reported path without its first slash), and it
    creates none: a path that names no file before the run names none
    after it. *)
Theorem run_ledger_changes_only_named_files work st :
  (forall other,
     (forall d p, In (d, p) work -> replace1 (resource p) "/" "" <> other) ->
     files (final (run_ledger md5 sample work st)) !! other = files st !! other)
  /\ forall path,
       files st !! path = None ->
       files (final (run_ledger md5 sample work st)) !! path = None.
Proof.
  revert st. induction work as [|[d p] rest IH]; intros st; cbn [run_ledger].
  - split; intros; [reflexivity | assumption].
  - assert (Hstep : (forall other, replace1 (resource p) "/" "" <> other ->
                       files (final (drive md5 sample d p st)) !! other = files st !! other)
                    /\ forall path, files st !! path = None ->
                         files (final (drive md5 sample d p st)) !! path = None).
    { assert (Hfar : forall other, replace1 (resource p) "/" "" <> other ->
                       files (final (drive md5 sample d p st)) !! other = files st !! other).
      { intros other Hne. destruct (drive_frame d p st) as [-> | [text ->]]; [reflexivity |].
        now apply lookup_insert_ne. }
      split; [exact Hfar |]. intros path Hnone.
      destruct (decide (replace1 (resource p) "/" "" = path)) as [<- | Hne].
      2: { now rewrite Hfar. }
      destruct (ledger_open_spec (md5 (replace1 (resource p) "/" "")) st) as (_ & Hf & _).
      destruct d; cbn [drive].
      - unfold solve3776. destruct (find _ "test" >=? 0); [exact Hnone |].
        destruct (ledger_open _ st) as [offset st1]. cbn [fst snd] in Hf.
        cbn [emit files]. rewrite Hf, Hnone. cbn [final files]. now rewrite Hf.
      - unfold solve3776_2.
        destruct (ledger_open _ st) as [offset st1]. cbn [fst snd] in Hf.
        cbn [emit files]. rewrite Hf, Hnone. cbn [final files]. now rewrite Hf.
      - unfold solve1186.
        destruct (ledger_open _ st) as [offset st1]. cbn [fst snd] in Hf.
        cbn [emit files]. rewrite Hf, Hnone. cbn [final files]. now rewrite Hf. }
    destruct Hstep as [Hother Hnone].
    destruct (drive md5 sample d p st) as [st1 | e st1]; cbn [final] in *.
    + destruct (IH st1) as [IHo IHn]. split.
      * intros other Hq. rewrite IHo.
        -- apply Hother. apply (Hq d p). now left.
        -- intros d' p' Hin. apply (Hq d' p'). now right.
      * intros path Hp. apply IHn. now apply Hnone.
    + split.
      * intros other Hq. apply Hother. apply (Hq d p). now left.
      * exact Hnone.
Qed.

End PlainFunctions.

Lemma solve3776_leaves_plain_functions_witness :
  exists st',
    solve3776 path_key clean_finding (one_file "a.go" (Py.join two_empty)) = Returned st'
    /\ files st' = files (one_file "a.go" (Py.join two_empty))
    /\ forall key, offset_of (lines_dict st') key
                   = offset_of (lines_dict (one_file "a.go" (Py.join two_empty))) key.
Proof.
  apply (solve3776_leaves_plain_functions path_key clean_finding
           (one_file "a.go" (Py.join two_empty)) (Py.join two_empty) 0 2
           (Py.join [indented 0 "func a() {"; indented 0 "}"])).
  - reflexivity.
  - reflexivity.
  - intros j Hs Hj. assert (j = 0 \/ j = 1) as [-> | ->] by lia; reflexivity.
Defined.
